(** * SR715/SR720 calibration utility (Serial_SR720.py): model and properties

    The Python module is embedded function by function.  A Python [str] is a
    [string] whose characters stand for the code points below 256; a
    [bytes] value is a [string] as well.  Python floats are IEEE 754
    binary64 values, embedded with the reference implementation [SpecFloat]
    ([prec = 53], [emax = 1024]).  The serial port is a record holding what
    was written so far and what the instrument is going to answer; the log
    file is the list of the texts handed to [log.write]. *)

From Stdlib Require Import String Ascii List ZArith Lia Bool Arith.
From Stdlib Require Import DecimalString DecimalNat Floats.SpecFloat.
Import ListNotations.

Local Open Scope string_scope.
Local Open Scope list_scope.

(** ** Python string primitives *)

Module Py.

(** [str.isspace] on one character, for the code points below 256:
    TAB..CR, FS..US, SPACE, NEL (0x85) and NBSP (0xA0). *)
Definition is_space (c : ascii) : bool :=
  let n := nat_of_ascii c in
  (((9 <=? n) && (n <=? 13)) || ((28 <=? n) && (n <=? 32))
   || (n =? 133) || (n =? 160))%nat.

(** [s.lstrip()] *)
Fixpoint lstrip (s : string) : string :=
  match s with
  | String c s' => if is_space c then lstrip s' else s
  | EmptyString => EmptyString
  end.

(** [s.rstrip()] *)
Fixpoint rstrip (s : string) : string :=
  match s with
  | String c s' =>
      match rstrip s' with
      | EmptyString => if is_space c then EmptyString else String c EmptyString
      | r => String c r
      end
  | EmptyString => EmptyString
  end.

(** [s.strip()] *)
Definition strip (s : string) : string := rstrip (lstrip s).

(** [sep in s] for a one-character [sep] *)
Fixpoint contains (sep : ascii) (s : string) : bool :=
  match s with
  | String c s' => Ascii.eqb c sep || contains sep s'
  | EmptyString => false
  end.

(** [s.split(sep)] for a one-character [sep]: never the empty list. *)
Fixpoint split (sep : ascii) (s : string) : list string :=
  match s with
  | EmptyString => [EmptyString]
  | String c s' =>
      if Ascii.eqb c sep then EmptyString :: split sep s'
      else match split sep s' with
           | p :: ps => String c p :: ps
           | [] => [String c EmptyString]
           end
  end.

(** [sep.join(parts)] *)
Fixpoint join (sep : string) (parts : list string) : string :=
  match parts with
  | [] => EmptyString
  | [p] => p
  | p :: ps => p ++ sep ++ join sep ps
  end.

(** [s.startswith(p)] *)
Definition startswith (s p : string) : bool := String.prefix p s.

(** The longest prefix of [s] without white space, and what follows it. *)
Fixpoint span_word (s : string) : string * string :=
  match s with
  | String c s' =>
      if is_space c then (EmptyString, s)
      else let (w, r) := span_word s' in (String c w, r)
  | EmptyString => (EmptyString, EmptyString)
  end.

(** [s.split(None, 1)]: the first word and, when something other than white
    space follows it, the rest with its leading white space removed. *)
Definition split_ws_1 (s : string) : list string :=
  match lstrip s with
  | EmptyString => []
  | t => let (w, r) := span_word t in
         match lstrip r with
         | EmptyString => [w]
         | r' => [w; r']
         end
  end.

(** [parts[-1]]; [None] stands for [IndexError]. *)
Definition last_item (parts : list string) : option string :=
  match rev parts with
  | t :: _ => Some t
  | [] => None
  end.

(** [parts[-1] = x] on a non-empty list. *)
Definition set_last (parts : list string) (x : string) : list string :=
  removelast parts ++ [x].

(** Characters an ASCII codec keeps under [errors="ignore"]. *)
Definition is_ascii (c : ascii) : bool := (nat_of_ascii c <? 128)%nat.

Fixpoint filter_str (f : ascii -> bool) (s : string) : string :=
  match s with
  | String c s' => if f c then String c (filter_str f s') else filter_str f s'
  | EmptyString => EmptyString
  end.

(** [s.encode("ascii", errors="ignore")] and
    [b.decode("ascii", errors="ignore")] *)
Definition encode_ascii (s : string) : string := filter_str is_ascii s.
Definition decode_ascii (b : string) : string := filter_str is_ascii b.

(** [str(n)] / [f"{n}"] for a non-negative [int]. *)
Definition str_nat (n : nat) : string := NilZero.string_of_uint (Nat.to_uint n).

(** [x or ""] for a value that may be [None]. *)
Definition or_empty (x : option string) : string :=
  match x with Some s => s | None => EmptyString end.

End Py.

(** ** Manual-derived constants *)

Definition CBT_MIN_I : nat := 0.
Definition CBT_MAX_I : nat := 94.
Definition CRN_MIN : nat := 0.
Definition CRN_MAX : nat := 3.
Definition CFT_MIN_I : nat := 0.
Definition CFT_MAX_I : nat := 120.

(** ** The parameter catalog *)

(** One entry of [build_dump_items]: a dict with exactly these five keys. *)
Record item := mk_item {
  it_key : string;
  it_cmd_read : string;
  it_cmd_write : string;
  it_scope : string;
  it_notes : string
}.

(** [range(lo, hi + 1)] *)
Definition range_incl (lo hi : nat) : list nat := seq lo (S hi - lo).

Definition cbt_item (i : nat) : item :=
  mk_item ("CBT[" ++ Py.str_nat i ++ "]")
          ("$CBT? " ++ Py.str_nat i)
          ("$CBT " ++ Py.str_nat i)
          "global"
          "Amplitude calbyte (j=0..255)".

Definition cmj_item (r : nat) : item :=
  mk_item ("CMJ@R" ++ Py.str_nat r)
          ("$CRN " ++ Py.str_nat r ++ ";$CMJ?")
          ("$CRN " ++ Py.str_nat r ++ ";$CMJ")
          ("range:" ++ Py.str_nat r)
          "Std resistor cal: major parameter (Ohms) for range r".

Definition cmn_item (r : nat) : item :=
  mk_item ("CMN@R" ++ Py.str_nat r)
          ("$CRN " ++ Py.str_nat r ++ ";$CMN?")
          ("$CRN " ++ Py.str_nat r ++ ";$CMN")
          ("range:" ++ Py.str_nat r)
          "Std resistor cal: minor parameter (ppm) for range r".

Definition cft_item (i : nat) : item :=
  mk_item ("CFT[" ++ Py.str_nat i ++ "]")
          ("$CFT? " ++ Py.str_nat i)
          ("$CFT " ++ Py.str_nat i)
          "global"
          "Floating point calbyte i = 0..120".

(** [build_dump_items()]: the appends in source order.  The plus-minus sign of
    the FRQ note is the single character U+00B1. *)
Definition build_dump_items (_ : unit) : list item :=
  [ mk_item "IDN" "*IDN?" "" "global" "Instrument ID string";
    mk_item "FRQ" "$FRQ?" "$FRQ" "global"
      ("Frequency correction factor (ppm, " ++ String "177"%char "10000, 0.1ppm)");
    mk_item "RND" "$RND?" "$RND" "global" "Rounding (-1 auto, 0..3 fixed digits)" ]
  ++ map cbt_item (range_incl CBT_MIN_I CBT_MAX_I)
  ++ flat_map (fun r => [cmj_item r; cmn_item r]) (range_incl CRN_MIN CRN_MAX)
  ++ map cft_item (range_incl CFT_MIN_I CFT_MAX_I).

(** ** Exceptions *)

Inductive exn := IndexError | ValueError | SerialTimeoutException.

Inductive result (A : Type) :=
| Ok (a : A)
| Raise (e : exn).
Arguments Ok {A} a.
Arguments Raise {A} e.

(** ** Python floats: IEEE 754 binary64 *)

Module F64.

Local Open Scope Z_scope.

Definition prec : Z := 53.
Definition emax : Z := 1024.

Definition float := spec_float.

Definition sub : float -> float -> float := SFsub prec emax.
Definition mul : float -> float -> float := SFmul prec emax.
Definition div : float -> float -> float := SFdiv prec emax.
Definition abs : float -> float := SFabs.
Definition opp : float -> float := SFopp.
Definition eqb : float -> float -> bool := SFeqb.
Definition ltb : float -> float -> bool := SFltb.
Definition leb : float -> float -> bool := SFleb.

Definition zero : float := S754_zero false.
Definition one : float := S754_finite false 4503599627370496 (-52).

(** [math.isinf] *)
Definition is_inf (x : float) : bool :=
  match x with S754_infinity _ => true | _ => false end.

Definition is_finite (x : float) : bool :=
  match x with S754_zero _ | S754_finite _ _ _ => true | _ => false end.

(** The value of an integer, rounded to nearest even. *)
Definition of_Z (s : bool) (n : Z) : float :=
  match n with
  | Zpos p => binary_normalize prec emax (cond_Zopp s (Zpos p)) 0 false
  | _ => S754_zero s
  end.

(** The correctly rounded value of [(-1)^s * m * 10^k], as the string to
    float conversion computes it. *)
Definition of_decimal (s : bool) (m k : Z) : float :=
  match m with
  | Zpos p =>
      if 0 <=? k then of_Z s (m * 10 ^ k)
      else div (S754_finite s p 0) (S754_finite false (Z.to_pos (10 ^ (- k))) 0)
  | _ => S754_zero s
  end.

(** *** [float(s)] *)

Definition is_digit (c : ascii) : bool :=
  let n := nat_of_ascii c in ((48 <=? n) && (n <=? 57))%nat.

Definition digit_val (c : ascii) : Z := Z.of_nat (nat_of_ascii c) - 48.

(** C [isspace] in the "C" locale, used once the text is ASCII. *)
Definition c_isspace (c : ascii) : bool :=
  let n := nat_of_ascii c in (((9 <=? n) && (n <=? 13)) || (n =? 32))%nat.

(** Non-ASCII white space becomes a blank, any other non-ASCII character a
    question mark (no code point in 128..255 is a decimal digit). *)
Fixpoint to_ascii_spaces (s : string) : string :=
  match s with
  | String c s' =>
      String (if Py.is_ascii c then c
              else if Py.is_space c then " "%char else "?"%char)
             (to_ascii_spaces s')
  | EmptyString => EmptyString
  end.

(** Underscores are dropped when each stands between two digits; any other
    underscore is an error. *)
Fixpoint strip_underscores (prev : ascii) (s : string) : option string :=
  match s with
  | EmptyString => if Ascii.eqb prev "_" then None else Some EmptyString
  | String c s' =>
      if Ascii.eqb c "_" then
        if is_digit prev then strip_underscores c s' else None
      else if Ascii.eqb prev "_" && negb (is_digit c) then None
      else option_map (String c) (strip_underscores c s')
  end.

Fixpoint c_lstrip (s : string) : string :=
  match s with
  | String c s' => if c_isspace c then c_lstrip s' else s
  | EmptyString => EmptyString
  end.

Fixpoint c_rstrip (s : string) : string :=
  match s with
  | String c s' =>
      match c_rstrip s' with
      | EmptyString => if c_isspace c then EmptyString else String c EmptyString
      | r => String c r
      end
  | EmptyString => EmptyString
  end.

Fixpoint span_digits (s : string) : string * string :=
  match s with
  | String c s' =>
      if is_digit c then let (d, r) := span_digits s' in (String c d, r)
      else (EmptyString, s)
  | EmptyString => (EmptyString, EmptyString)
  end.

Fixpoint digits_val_from (acc : Z) (s : string) : Z :=
  match s with
  | String c s' => digits_val_from (10 * acc + digit_val c) s'
  | EmptyString => acc
  end.
Definition digits_val (s : string) : Z := digits_val_from 0 s.

(** An optional sign: [true] for a minus sign. *)
Definition take_sign (s : string) : bool * string :=
  match s with
  | String "-" r => (true, r)
  | String "+" r => (false, r)
  | _ => (false, s)
  end.

Definition lower (c : ascii) : ascii :=
  let n := nat_of_ascii c in
  if ((65 <=? n) && (n <=? 90))%nat then ascii_of_nat (n + 32) else c.

Fixpoint lower_str (s : string) : string :=
  match s with
  | String c s' => String (lower c) (lower_str s')
  | EmptyString => EmptyString
  end.

(** "inf", "infinity" and "nan" in any letter case, after the sign. *)
Definition parse_inf_or_nan (neg : bool) (s : string) : option float :=
  let l := lower_str s in
  if String.eqb l "inf" || String.eqb l "infinity" then Some (S754_infinity neg)
  else if String.eqb l "nan" then Some S754_nan
  else None.

(** Digits, an optional point with digits, an optional exponent; at least
    one digit before the exponent, at least one in it, nothing after. *)
Definition parse_decimal (neg : bool) (s : string) : option float :=
  let (ip, r1) := span_digits s in
  let (fp, r2) := match r1 with
                  | String "." r => span_digits r
                  | _ => (EmptyString, r1)
                  end in
  if (String.length ip + String.length fp =? 0)%nat then None
  else
    let m := digits_val (ip ++ fp) in
    let k := - Z.of_nat (String.length fp) in
    match r2 with
    | EmptyString => Some (of_decimal neg m k)
    | String c r3 =>
        if Ascii.eqb (lower c) "e" then
          let (eneg, r4) := take_sign r3 in
          let (ed, r5) := span_digits r4 in
          match ed, r5 with
          | String _ _, EmptyString =>
              Some (of_decimal neg m (k + cond_Zopp eneg (digits_val ed)))
          | _, _ => None
          end
        else None
    end.

(** [float(s)] for a [str]; [None] stands for [ValueError]. *)
Definition float_of_str (s : string) : option float :=
  match strip_underscores "000"%char (to_ascii_spaces s) with
  | None => None
  | Some t =>
      let (neg, body) := take_sign (c_rstrip (c_lstrip t)) in
      match parse_decimal neg body with
      | Some x => Some x
      | None => parse_inf_or_nan neg body
      end
  end.

(** *** [math.isclose(a, b, rel_tol=, abs_tol=)] *)

Definition isclose (a b rel_tol abs_tol : float) : result bool :=
  if ltb rel_tol zero || ltb abs_tol zero then Raise ValueError
  else if eqb a b then Ok true
  else if is_inf a || is_inf b then Ok false
  else
    let diff := abs (sub b a) in
    Ok (leb diff (abs (mul rel_tol b))
        || leb diff (abs (mul rel_tol a))
        || leb diff abs_tol).

(** *** [format(x, ".12g")] *)

Definition str_pos (p : positive) : string :=
  NilZero.string_of_uint (Pos.to_uint p).

Definition str_Z_abs (n : Z) : string :=
  match n with
  | Z0 => "0"
  | Zpos p | Zneg p => str_pos p
  end.

(** A finite non-zero magnitude [m * 2^e] is the integer [fst] times ten to
    the power [snd], exactly. *)
Definition exact_decimal (m : positive) (e : Z) : Z * Z :=
  if 0 <=? e then (Zpos m * 2 ^ e, 0) else (Zpos m * 5 ^ (- e), e).

(** [n / d] rounded to the nearest integer, ties to even. *)
Definition div_half_even (n d : Z) : Z :=
  let q := n / d in
  let r := n mod d in
  match 2 * r ?= d with
  | Lt => q
  | Gt => q + 1
  | Eq => if Z.even q then q else q + 1
  end.

Fixpoint rstrip_zeros (s : string) : string :=
  match s with
  | String c s' =>
      match rstrip_zeros s' with
      | EmptyString => if Ascii.eqb c "0" then EmptyString else String c EmptyString
      | r => String c r
      end
  | EmptyString => EmptyString
  end.

(** The digits of the magnitude rounded to [ndigits] significant digits,
    without trailing zeros, and the position of the decimal point relative
    to the first digit. *)
Definition dtoa (ndigits : Z) (m : positive) (e : Z) : string * Z :=
  let (i, t) := exact_decimal m e in
  let len := Z.of_nat (String.length (str_Z_abs i)) in
  let drop := Z.max 0 (len - ndigits) in
  let q := if 0 <? drop then div_half_even i (10 ^ drop) else i in
  let sq := str_Z_abs q in
  (rstrip_zeros sq, Z.of_nat (String.length sq) + t + drop).

Fixpoint zeros (n : nat) : string :=
  match n with
  | O => EmptyString
  | S n' => String "0" (zeros n')
  end.

(** C ["%+.02d"] *)
Definition str_exp (x : Z) : string :=
  (if x <? 0 then "-" else "+")
  ++ (if Z.abs x <? 10 then "0" else "") ++ str_Z_abs x.

Definition str_take (n : nat) (s : string) : string := String.substring 0 n s.
Definition str_drop (n : nat) (s : string) : string :=
  String.substring n (String.length s - n) s.

(** The text of a magnitude from its digits and decimal point position, in
    fixed notation or with an exponent as the "g" presentation chooses. *)
Definition layout_g (precision : Z) (digits : string) (decpt : Z) : string :=
  let n := Z.of_nat (String.length digits) in
  if (decpt <=? -4) || (precision <? decpt) then
    String.substring 0 1 digits
    ++ (if 1 <? n then "." ++ str_drop 1 digits else "")
    ++ "e" ++ str_exp (decpt - 1)
  else if decpt <=? 0 then
    "0." ++ zeros (Z.to_nat (- decpt)) ++ digits
  else if decpt <? n then
    str_take (Z.to_nat decpt) digits ++ "." ++ str_drop (Z.to_nat decpt) digits
  else
    digits ++ zeros (Z.to_nat (decpt - n)).

Definition format_abs_g12 (x : float) : string :=
  match x with
  | S754_nan => "nan"
  | S754_infinity _ => "inf"
  | S754_zero _ => "0"
  | S754_finite _ m e => let (d, p) := dtoa 12 m e in layout_g 12 d p
  end.

Definition sign_str (x : float) : string :=
  match x with
  | S754_zero true | S754_infinity true | S754_finite true _ _ => "-"
  | _ => ""
  end.

(** [f"{x:.12g}"] *)
Definition format_g12 (x : float) : string := sign_str x ++ format_abs_g12 x.

End F64.

(** ** The value comparator *)

(** [_to_float_or_none(s)]: the argument is always a [str] here, so only
    [ValueError] can be caught. *)
Definition to_float_or_none (s : string) : option F64.float := F64.float_of_str s.

(** [compare_values(expected, actual, tol)] *)
Definition compare_values (expected actual : string) (tol : F64.float)
  : result (bool * string) :=
  let exp := Py.strip expected in
  let act := Py.strip actual in
  if String.eqb exp act then Ok (true, "")
  else
    match to_float_or_none exp, to_float_or_none act with
    | Some exp_num, Some act_num =>
        let delta := F64.sub act_num exp_num in
        match F64.isclose exp_num act_num tol tol with
        | Raise e => Raise e
        | Ok true => Ok (true, F64.format_g12 delta)
        | Ok false => Ok (false, F64.format_g12 delta)
        end
    | _, _ => Ok (false, "")
    end.

(** ** A state and exception monad for the sequential drivers *)

Definition M (S A : Type) : Type := S -> result A * S.

Definition ret {S A} (a : A) : M S A := fun s => (Ok a, s).

Definition bind {S A B} (m : M S A) (f : A -> M S B) : M S B :=
  fun s => match m s with
           | (Ok a, s') => f a s'
           | (Raise e, s') => (Raise e, s')
           end.

Definition raise {S A} (e : exn) : M S A := fun s => (Raise e, s).

(** [try: body except Exception as e: handler(e)]: the state changes made
    before the exception stay. *)
Definition try_except {S A} (body : M S A) (handler : exn -> M S A) : M S A :=
  fun s => match body s with
           | (Raise e, s') => handler e s'
           | r => r
           end.

Definition modify {S} (f : S -> S) : M S unit := fun s => (Ok tt, f s).

(** Run a computation on a part of the state. *)
Definition zoom {S T A} (get : T -> S) (put : S -> T -> T) (m : M S A) : M T A :=
  fun t => let (r, s') := m (get t) in (r, put s' t).

Declare Scope monad_scope.
Delimit Scope monad_scope with monad.
Notation "x <- m ;; k" := (bind m (fun x => k))
  (at level 61, m at next level, right associativity) : monad_scope.
Notation "' p <- m ;; k" := (bind m (fun x => match x with p => k end))
  (at level 61, p pattern, m at next level, right associativity) : monad_scope.
Notation "m ;; k" := (bind m (fun _ => k))
  (at level 61, right associativity) : monad_scope.
Local Open Scope monad_scope.

(** [for x in xs: acc = body(x, acc)] *)
Fixpoint for_each {S A B} (xs : list A) (body : A -> B -> M S B) (acc : B) : M S B :=
  match xs with
  | [] => ret acc
  | x :: xs' => acc' <- body x acc ;; for_each xs' body acc'
  end.

(** ** The serial port and the log file *)

(** The open port: the arguments of the [write] calls so far (oldest first),
    the results of the coming [readline] calls (none left: the read times out
    and gives [b""]), and for each coming [write] call whether it raises. *)
Record Serial := mk_serial {
  ser_written : list string;
  ser_lines : list string;
  ser_faults : list bool
}.

(** What a driver works on inside its [with] block. *)
Record World := mk_world {
  w_ser : Serial;
  w_log : list string
}.

Record SerialCfg := mk_cfg {
  cfg_port : string;
  cfg_baud : Z;
  cfg_bytesize : Z;
  cfg_parity : string;
  cfg_stopbits : Z;
  cfg_timeout : F64.float;
  cfg_write_timeout : F64.float;
  cfg_eol : string
}.

(** Values the drivers get from the standard library: the text of
    [time.ctime()] and [str] of a float (used in one log banner only). *)
Record Env := mk_env {
  env_ctime : string;
  env_str_float : F64.float -> string
}.

Definition LF : string := String "010"%char EmptyString.

(** [ser.write(data)] *)
Definition ser_write (data : string) : M World unit :=
  fun w =>
    let p := w_ser w in
    match ser_faults p with
    | true :: fs =>
        (Raise SerialTimeoutException,
         mk_world (mk_serial (ser_written p) (ser_lines p) fs) (w_log w))
    | false :: fs =>
        (Ok tt, mk_world (mk_serial (ser_written p ++ [data]) (ser_lines p) fs) (w_log w))
    | [] =>
        (Ok tt, mk_world (mk_serial (ser_written p ++ [data]) (ser_lines p) []) (w_log w))
    end.

(** [ser.readline()] *)
Definition ser_readline : M World string :=
  fun w =>
    let p := w_ser w in
    match ser_lines p with
    | l :: ls => (Ok l, mk_world (mk_serial (ser_written p) ls (ser_faults p)) (w_log w))
    | [] => (Ok EmptyString, w)
    end.

(** [log.write(text)] *)
Definition log_write (text : string) : M World unit :=
  modify (fun w => mk_world (w_ser w) (w_log w ++ [text])).

(** [clear_com_buffer(ser)]; [flush] and [sleep] leave the model unchanged. *)
Definition clear_com_buffer : M World unit := ser_write LF.

(** [send_cmd(ser, cmd, eol)] *)
Definition send_cmd (cmd eol : string) : M World unit :=
  clear_com_buffer ;;
  ser_write (Py.encode_ascii (cmd ++ eol)).

(** [read_line(ser)] *)
Definition read_line : M World string :=
  clear_com_buffer ;;
  raw <- ser_readline ;;
  match raw with
  | EmptyString => ret EmptyString
  | _ => ret (Py.strip (Py.decode_ascii raw))
  end.

(** [query(ser, cmd, eol)]; [reset_input_buffer] is accounted for by
    [ser_lines], which lists what the reads return. *)
Definition query (cmd eol : string) : M World string :=
  send_cmd cmd eol ;;
  read_line.

(** [try_query(ser, cmd, eol)] *)
Definition try_query (cmd eol : string) : M World (bool * string) :=
  resp <- query cmd eol ;;
  if String.eqb resp "" then ret (false, "")
  else ret (true, resp).

(** ** Dump *)

(** A row of the snapshot file: the item's entries and [value]. *)
Record snapshot_row := mk_snap {
  sn_item : item;
  sn_value : string
}.

Record dump_stats := mk_dump_stats {
  dump_total : nat;
  dump_ok : nat;
  dump_fail : nat
}.

(** The body of the [for it in items] loop; the accumulator is
    [(rows, ok_count, fail_count)]. *)
Definition dump_item (cfg : SerialCfg) (it : item)
    (acc : list snapshot_row * nat * nat) : M World (list snapshot_row * nat * nat) :=
  let '(rows, ok_count, fail_count) := acc in
  let cmd_read := it_cmd_read it in
  '(ok, val) <- try_query cmd_read (cfg_eol cfg) ;;
  if ok then
    log_write ("[ OK ] " ++ it_key it ++ " | " ++ cmd_read ++ " -> " ++ val ++ LF) ;;
    ret (rows ++ [mk_snap it val], S ok_count, fail_count)
  else
    log_write ("[FAIL] " ++ it_key it ++ " | " ++ cmd_read ++ " -> (no response)" ++ LF) ;;
    ret (rows ++ [mk_snap it ""], ok_count, S fail_count).

(** [dump_to_csv(cfg, csv_path, log_path)] on the opened port and log: the
    rows handed to [csv.DictWriter.writerows] and the returned counts. *)
Definition dump_to_csv (env : Env) (cfg : SerialCfg)
  : M World (list snapshot_row * dump_stats) :=
  let items := build_dump_items tt in
  log_write (LF ++ "--- DUMP START " ++ env_ctime env ++ " ---" ++ LF) ;;
  '(rows, ok_count, fail_count) <- for_each items (dump_item cfg) ([], 0, 0) ;;
  log_write ("--- DUMP END (" ++ Py.str_nat (List.length rows) ++ " rows) ---" ++ LF) ;;
  ret (rows, mk_dump_stats (List.length rows) ok_count fail_count).

(** ** Restore *)

(** A row as [csv.DictReader] gives it: a column that the line lacks is
    [None]. *)
Record csv_row := mk_row {
  row_key : option string;
  row_cmd_read : option string;
  row_cmd_write : option string;
  row_scope : option string;
  row_value : option string;
  row_notes : option string
}.

(** The counters of [restore_from_csv]. *)
Record counters := mk_counters {
  failures : nat;
  skip_count : nat;
  dry_count : nat;
  write_count : nat;
  bad_verify_count : nat;
  write_fail_count : nat
}.

Definition no_counts : counters := mk_counters 0 0 0 0 0 0.

Record RState := mk_rstate {
  rs_world : World;
  rs_counts : counters
}.

Definition in_world {A} (m : M World A) : M RState A :=
  zoom rs_world (fun w s => mk_rstate w (rs_counts s)) m.

Definition count (f : counters -> counters) : M RState unit :=
  modify (fun s => mk_rstate (rs_world s) (f (rs_counts s))).

Definition inc_failures (c : counters) : counters :=
  mk_counters (S (failures c)) (skip_count c) (dry_count c) (write_count c)
              (bad_verify_count c) (write_fail_count c).
Definition inc_skip (c : counters) : counters :=
  mk_counters (failures c) (S (skip_count c)) (dry_count c) (write_count c)
              (bad_verify_count c) (write_fail_count c).
Definition inc_dry (c : counters) : counters :=
  mk_counters (failures c) (skip_count c) (S (dry_count c)) (write_count c)
              (bad_verify_count c) (write_fail_count c).
Definition inc_write (c : counters) : counters :=
  mk_counters (failures c) (skip_count c) (dry_count c) (S (write_count c))
              (bad_verify_count c) (write_fail_count c).
Definition inc_bad_verify (c : counters) : counters :=
  mk_counters (failures c) (skip_count c) (dry_count c) (write_count c)
              (S (bad_verify_count c)) (write_fail_count c).
Definition inc_write_fail (c : counters) : counters :=
  mk_counters (failures c) (skip_count c) (dry_count c) (write_count c)
              (bad_verify_count c) (S (write_fail_count c)).

(** The segments of a write command: [cmd_write] itself without a semicolon,
    else the trimmed non-blank pieces between the semicolons. *)
Definition segments (cmd_write : string) : list string :=
  if Py.contains ";" cmd_write then
    map Py.strip
        (filter (fun p => negb (String.eqb (Py.strip p) "")) (Py.split ";" cmd_write))
  else [cmd_write].

(** The index text [idx] of a [$CBT] or [$CFT] target. *)
Definition index_of (target : string) : string :=
  match Py.split_ws_1 target with
  | _ :: second :: _ => Py.strip second
  | _ => ""
  end.

(** The target with the value appended. *)
Definition with_value (target value : string) : string :=
  if Py.startswith target "$CBT " || Py.startswith target "$CFT " then
    if String.eqb (index_of target) "" then target ++ " " ++ value
    else target ++ "," ++ value
  else target ++ " " ++ value.

(** The lines of [restore_from_csv] that build [full_cmd] from the trimmed
    [cmd_write] and [value]. *)
Definition build_full_cmd (cmd_write value : string) : result string :=
  let parts := segments cmd_write in
  match Py.last_item parts with
  | None => Raise IndexError
  | Some target => Ok (Py.join ";" (Py.set_last parts (with_value target value)))
  end.

(** [str(e)] of the exceptions of the model. *)
Definition exn_text (e : exn) : string :=
  match e with
  | IndexError => "list index out of range"
  | ValueError => "tolerances must be non-negative"
  | SerialTimeoutException => "Write timeout"
  end.

Definition str_bool (b : bool) : string := if b then "True" else "False".

(** What follows the write of a row that is not a dry run: the readback,
    giving the [status] and [verify] texts of the log line. *)
Definition verify_row (cfg : SerialCfg) (cmd_read value : string)
  : M RState (string * string) :=
  if String.eqb cmd_read "" then ret ("[ OK ]", "")
  else
    '(ok2, verify) <- in_world (try_query cmd_read (cfg_eol cfg)) ;;
    if ok2 then
      let verify := Py.strip verify in
      match compare_values value verify F64.zero with
      | Raise e => raise e
      | Ok (is_match, _) =>
          if is_match then ret ("[ OK ]", verify)
          else count inc_bad_verify ;; count inc_failures ;; ret ("[BAD ]", verify)
      end
    else ret ("[ OK ]", "(no response)").

(** The body of the [for r in rows] loop. *)
Definition restore_row (cfg : SerialCfg) (dry_run : bool) (r : csv_row) (_ : unit)
  : M RState unit :=
  let key := Py.strip (Py.or_empty (row_key r)) in
  let cmd_write := Py.strip (Py.or_empty (row_cmd_write r)) in
  let value := Py.strip (Py.or_empty (row_value r)) in
  if String.eqb cmd_write "" || String.eqb value "" then
    count inc_skip ;;
    in_world (log_write ("[SKIP] " ++ key ++ " | cmd_write='" ++ cmd_write
                         ++ "' value='" ++ value ++ "'" ++ LF))
  else
    match build_full_cmd cmd_write value with
    | Raise e => raise e
    | Ok full_cmd =>
        try_except
          (if dry_run then
             count inc_dry ;;
             in_world (log_write ("[DRY ] " ++ key ++ " | " ++ full_cmd ++ LF))
           else
             in_world (send_cmd full_cmd (cfg_eol cfg)) ;;
             count inc_write ;;
             let cmd_read := Py.strip (Py.or_empty (row_cmd_read r)) in
             '(status, verify) <- verify_row cfg cmd_read value ;;
             in_world (log_write (status ++ " " ++ key ++ " | " ++ full_cmd
                                  ++ " | expected=" ++ value ++ " verify=" ++ verify ++ LF)))
          (fun e =>
             count inc_write_fail ;;
             count inc_failures ;;
             in_world (log_write ("[FAIL] " ++ key ++ " | " ++ full_cmd
                                  ++ " | error=" ++ exn_text e ++ LF)))
    end.

(** The returned dict. *)
Record restore_stats := mk_restore_stats {
  rst_total : nat;
  rst_skipped : nat;
  rst_dry_run : nat;
  rst_writes : nat;
  rst_bad_verify : nat;
  rst_write_fail : nat;
  rst_failures : nat
}.

Definition restore_body (env : Env) (cfg : SerialCfg) (rows : list csv_row)
    (dry_run : bool) : M RState restore_stats :=
  in_world (log_write (LF ++ "--- RESTORE START " ++ env_ctime env ++ " | dry_run="
                       ++ str_bool dry_run ++ " ---" ++ LF)) ;;
  '(ok, idn) <- in_world (try_query "*IDN?" (cfg_eol cfg)) ;;
  in_world (log_write ("[INFO] *IDN? -> " ++ (if ok then idn else "(no response)") ++ LF)) ;;
  for_each rows (restore_row cfg dry_run) tt ;;
  (fun s =>
     let c := rs_counts s in
     ((if (0 <? failures c)%nat then
         in_world (log_write ("--- Write failure detected.  Check CAL jumper enabled? ---" ++ LF))
       else ret tt) ;;
      in_world (log_write ("--- RESTORE END (failures=" ++ Py.str_nat (failures c)
                           ++ ") ---" ++ LF)) ;;
      ret (mk_restore_stats (List.length rows) (skip_count c) (dry_count c) (write_count c)
             (bad_verify_count c) (write_fail_count c) (failures c))) s).

(** [restore_from_csv(cfg, csv_path, log_path, dry_run)] on the rows read
    from the file, the opened port and the log. *)
Definition restore_from_csv (env : Env) (cfg : SerialCfg) (rows : list csv_row)
    (dry_run : bool) : M World restore_stats :=
  fun w =>
    let (r, s) := restore_body env cfg rows dry_run (mk_rstate w no_counts) in
    (r, rs_world s).

(** ** Compare *)

(** A row of the comparison report. *)
Record report_row := mk_report {
  rep_key : string;
  rep_cmd_read : string;
  rep_expected : string;
  rep_actual : string;
  rep_status : string;
  rep_delta : string;
  rep_notes : string
}.

Record compare_acc := mk_cacc {
  c_results : list report_row;
  c_match : nat;
  c_mismatch : nat;
  c_skip : nat;
  c_read_fail : nat
}.

(** The body of the [for r in rows] loop. *)
Definition compare_row (cfg : SerialCfg) (tol : F64.float) (r : csv_row)
    (acc : compare_acc) : M World compare_acc :=
  let key := Py.strip (Py.or_empty (row_key r)) in
  let cmd_read := Py.strip (Py.or_empty (row_cmd_read r)) in
  let expected := Py.strip (Py.or_empty (row_value r)) in
  let notes := Py.strip (Py.or_empty (row_notes r)) in
  if String.eqb cmd_read "" || String.eqb expected "" then
    log_write ("[SKIP] " ++ key ++ " | cmd_read='" ++ cmd_read ++ "' expected='"
               ++ expected ++ "'" ++ LF) ;;
    ret (mk_cacc (c_results acc ++ [mk_report key cmd_read expected "" "skipped" "" notes])
                 (c_match acc) (c_mismatch acc) (S (c_skip acc)) (c_read_fail acc))
  else
    '(ok_read, actual) <- try_query cmd_read (cfg_eol cfg) ;;
    if negb ok_read then
      log_write ("[FAIL] " ++ key ++ " | " ++ cmd_read ++ " -> (no response)" ++ LF) ;;
      ret (mk_cacc (c_results acc ++ [mk_report key cmd_read expected "" "read_fail" "" notes])
                   (c_match acc) (c_mismatch acc) (c_skip acc) (S (c_read_fail acc)))
    else
      match compare_values expected actual tol with
      | Raise e => raise e
      | Ok (is_match, delta) =>
          if is_match then
            log_write ("[ OK ] " ++ key ++ " | expected=" ++ expected ++ " actual=" ++ actual
                       ++ " delta=" ++ delta ++ LF) ;;
            ret (mk_cacc (c_results acc
                          ++ [mk_report key cmd_read expected actual "match" delta notes])
                         (S (c_match acc)) (c_mismatch acc) (c_skip acc) (c_read_fail acc))
          else
            log_write ("[DIFF] " ++ key ++ " | expected=" ++ expected ++ " actual=" ++ actual
                       ++ " delta=" ++ delta ++ LF) ;;
            ret (mk_cacc (c_results acc
                          ++ [mk_report key cmd_read expected actual "mismatch" delta notes])
                         (c_match acc) (S (c_mismatch acc)) (c_skip acc) (c_read_fail acc))
      end.

(** The returned dict. *)
Record compare_stats := mk_compare_stats {
  cst_match : nat;
  cst_mismatch : nat;
  cst_read_fail : nat;
  cst_skipped : nat;
  cst_total : nat
}.

(** [compare_from_csv(cfg, csv_path, log_path, report_path, tol)] on the rows
    read from the file: the rows written to the report and the counts. *)
Definition compare_from_csv (env : Env) (cfg : SerialCfg) (rows : list csv_row)
    (tol : F64.float) : M World (list report_row * compare_stats) :=
  log_write (LF ++ "--- COMPARE START " ++ env_ctime env ++ " | tol="
             ++ env_str_float env tol ++ " ---" ++ LF) ;;
  '(ok, idn) <- try_query "*IDN?" (cfg_eol cfg) ;;
  log_write ("[INFO] *IDN? -> " ++ (if ok then idn else "(no response)") ++ LF) ;;
  acc <- for_each rows (compare_row cfg tol) (mk_cacc [] 0 0 0 0) ;;
  let total := List.length (c_results acc) in
  log_write ("--- COMPARE END (match=" ++ Py.str_nat (c_match acc)
             ++ ", mismatch=" ++ Py.str_nat (c_mismatch acc)
             ++ ", read_fail=" ++ Py.str_nat (c_read_fail acc)
             ++ ", skipped=" ++ Py.str_nat (c_skip acc)
             ++ ", total=" ++ Py.str_nat total ++ ") ---" ++ LF) ;;
  ret (c_results acc,
       mk_compare_stats (c_match acc) (c_mismatch acc) (c_read_fail acc) (c_skip acc) total).

(** ** Opening the port: the hint for an error *)

(** [c.lower()] on one character, for the code points below 256: the letters
    A..Z and the capital letters of Latin-1 (0xC0..0xDE without the
    multiplication sign 0xD7) move up by 32. *)
Definition lower_char (c : ascii) : ascii :=
  let n := nat_of_ascii c in
  if (((65 <=? n) && (n <=? 90))
      || ((192 <=? n) && (n <=? 222) && negb (n =? 215)))%nat
  then ascii_of_nat (n + 32) else c.

(** [s.lower()] *)
Fixpoint str_lower (s : string) : string :=
  match s with
  | String c s' => String (lower_char c) (str_lower s')
  | EmptyString => EmptyString
  end.

(** [sub in s] *)
Fixpoint str_in (sub s : string) : bool :=
  match s with
  | String _ s' => String.prefix sub s || str_in sub s'
  | EmptyString => String.prefix sub EmptyString
  end.

Definition HINT_IN_USE : string :=
  "Access denied while opening the port. The port is likely already in use by another application.".
Definition HINT_NO_PORT : string :=
  "Requested serial port does not exist. Verify the COM port name and device connection.".
Definition HINT_OTHER : string :=
  "Failed to open serial port. Check port name, cable/device connection, and application permissions.".

(** [_serial_open_hint(exc)], as a function of the text [str(exc)]. *)
Definition serial_open_hint (text : string) : string :=
  let msg := str_lower text in
  if str_in "access is denied" msg || str_in "permissionerror" msg then HINT_IN_USE
  else if str_in "cannot find the file specified" msg || str_in "filenotfounderror" msg
       then HINT_NO_PORT
       else HINT_OTHER.

(** ** Probing the floating-point calbytes *)

(** The [for i in range(0, max_probe)] loop of [probe_cft_indices] over the
    indices still to come; returning before they are used up is the
    [break]. *)
Fixpoint probe_loop (eol : string) (indices : list nat)
    (results : list (nat * string)) (consecutive_fail : nat)
  : M World (list (nat * string)) :=
  match indices with
  | [] => ret results
  | i :: indices' =>
      '(ok, resp) <- try_query ("$CFT? " ++ Py.str_nat i) eol ;;
      if ok then probe_loop eol indices' (results ++ [(i, resp)]) 0
      else
        let consecutive_fail := S consecutive_fail in
        if ((5 <=? consecutive_fail) && (10 <? i))%nat then ret results
        else probe_loop eol indices' results consecutive_fail
  end.

(** [probe_cft_indices(ser, eol, max_probe)] for a [max_probe] that is not
    negative. *)
Definition probe_cft_indices (eol : string) (max_probe : nat)
  : M World (list (nat * string)) :=
  probe_loop eol (seq 0 max_probe) [] 0.

(** ** Definitions used in the statements *)

(** All characters of a string satisfy a test. *)
Fixpoint str_forall (f : ascii -> bool) (s : string) : bool :=
  match s with
  | String c s' => f c && str_forall f s'
  | EmptyString => true
  end.

(** Duplicate-free lists of strings, decided. *)
Fixpoint nodupb (l : list string) : bool :=
  match l with
  | [] => true
  | x :: l' => negb (existsb (String.eqb x) l') && nodupb l'
  end.

(** The separator between a target and the value. *)
Definition value_separator (target : string) : string :=
  if Py.startswith target "$CBT " || Py.startswith target "$CFT " then "," else " ".

(** Whether the [k]-th coming [write] call raises. *)
Definition fault_at (k : nat) (w : World) : bool := nth k (ser_faults (w_ser w)) false.

(** No coming [write] call raises. *)
Definition no_faults (w : World) : bool := forallb negb (ser_faults (w_ser w)).

(** The world after a [write] that went through, after one that raised, after
    a [readline], and after a [log.write]. *)
Definition wrote (data : string) (w : World) : World :=
  mk_world (mk_serial (ser_written (w_ser w) ++ [data]) (ser_lines (w_ser w))
                      (tl (ser_faults (w_ser w))))
           (w_log w).
Definition faulted (w : World) : World :=
  mk_world (mk_serial (ser_written (w_ser w)) (ser_lines (w_ser w))
                      (tl (ser_faults (w_ser w))))
           (w_log w).
Definition did_read (w : World) : World :=
  mk_world (mk_serial (ser_written (w_ser w)) (tl (ser_lines (w_ser w)))
                      (ser_faults (w_ser w)))
           (w_log w).
Definition logged (text : string) (w : World) : World :=
  mk_world (w_ser w) (w_log w ++ [text]).

(** The raw line the next [readline] gives, and the text [read_line] makes
    of a raw line. *)
Definition next_raw (w : World) : string := hd EmptyString (ser_lines (w_ser w)).
Definition response_of (raw : string) : string := Py.strip (Py.decode_ascii raw).

(** The world after a query whose three writes went through. *)
Definition after_query (cmd eol : string) (w : World) : World :=
  did_read (wrote LF (wrote (Py.encode_ascii (cmd ++ eol)) (wrote LF w))).

(** What one query writes to the port. *)
Definition query_writes (cmd eol : string) : list string :=
  [LF; Py.encode_ascii (cmd ++ eol); LF].

(** The snapshot the dump is to produce from the lines the instrument
    answers with: one row per item, in order, holding the answer to the
    item's read command (empty when nothing came back). *)
Fixpoint dump_rows (items : list item) (lines : list string) : list snapshot_row :=
  match items with
  | [] => []
  | it :: items' =>
      mk_snap it (response_of (hd EmptyString lines)) :: dump_rows items' (tl lines)
  end.

Definition has_value (r : snapshot_row) : bool := negb (String.eqb (sn_value r) "").

(** The trimmed fields of a snapshot row, as restore reads them. *)
Definition row_key_text (r : csv_row) : string := Py.strip (Py.or_empty (row_key r)).
Definition row_write_text (r : csv_row) : string := Py.strip (Py.or_empty (row_cmd_write r)).
Definition row_value_text (r : csv_row) : string := Py.strip (Py.or_empty (row_value r)).
Definition row_read_text (r : csv_row) : string := Py.strip (Py.or_empty (row_cmd_read r)).

(** A row restore skips: no write command or no value. *)
Definition is_skipped (r : csv_row) : bool :=
  String.eqb (row_write_text r) "" || String.eqb (row_value_text r) "".

(** The full write command of a row. *)
Definition row_full_cmd (r : csv_row) : result string :=
  build_full_cmd (row_write_text r) (row_value_text r).

(** A row that is skipped or whose write command has a last segment. *)
Definition buildable (r : csv_row) : bool :=
  is_skipped r || match row_full_cmd r with Ok _ => true | Raise _ => false end.

(** The log lines of restore. *)
Definition skip_line (r : csv_row) : string :=
  "[SKIP] " ++ row_key_text r ++ " | cmd_write='" ++ row_write_text r
  ++ "' value='" ++ row_value_text r ++ "'" ++ LF.
Definition dry_line (key full_cmd : string) : string :=
  "[DRY ] " ++ key ++ " | " ++ full_cmd ++ LF.
Definition verify_line (status key full_cmd value verify : string) : string :=
  status ++ " " ++ key ++ " | " ++ full_cmd ++ " | expected=" ++ value
  ++ " verify=" ++ verify ++ LF.
Definition fail_line (key full_cmd : string) (e : exn) : string :=
  "[FAIL] " ++ key ++ " | " ++ full_cmd ++ " | error=" ++ exn_text e ++ LF.

(** The line a dry run logs for a row. *)
Definition dry_run_line (r : csv_row) : string :=
  if is_skipped r then skip_line r
  else match row_full_cmd r with
       | Ok full_cmd => dry_line (row_key_text r) full_cmd
       | Raise _ => EmptyString
       end.

(** The overall failure counter is the sum of the two kinds of failure. *)
Definition balanced (c : counters) : Prop :=
  failures c = bad_verify_count c + write_fail_count c.

(** What restore does with a row it writes (no dry run), by the outcome of
    the write and of the readback: a write that raises counts as a write
    failure and a failure and is logged as [FAIL]; a write that went through is
    counted, and is followed by a query exactly when the row has a read
    command; an answer that the comparator at tolerance zero rejects counts as
    a bad verification and a failure and is logged as [BAD ]; no answer is
    logged as [ OK ] with the text (no response). *)
Definition written_row_cases (cfg : SerialCfg) (r : csv_row) (s : RState)
    (full_cmd : string) : Prop :=
  let key := row_key_text r in
  let value := row_value_text r in
  let cmd_read := row_read_text r in
  let c := rs_counts s in
  (forall e w1,
      send_cmd full_cmd (cfg_eol cfg) (rs_world s) = (Raise e, w1) ->
      restore_row cfg false r tt s
      = (Ok tt, mk_rstate (logged (fail_line key full_cmd e) w1)
                          (inc_failures (inc_write_fail c))))
  /\ (forall w1,
         send_cmd full_cmd (cfg_eol cfg) (rs_world s) = (Ok tt, w1) ->
         (cmd_read = EmptyString ->
          restore_row cfg false r tt s
          = (Ok tt, mk_rstate (logged (verify_line "[ OK ]" key full_cmd value "") w1)
                              (inc_write c)))
         /\ (cmd_read <> EmptyString ->
             (forall e w2,
                 try_query cmd_read (cfg_eol cfg) w1 = (Raise e, w2) ->
                 restore_row cfg false r tt s
                 = (Ok tt, mk_rstate (logged (fail_line key full_cmd e) w2)
                                     (inc_failures (inc_write_fail (inc_write c)))))
             /\ (forall resp w2,
                    try_query cmd_read (cfg_eol cfg) w1 = (Ok (false, resp), w2) ->
                    restore_row cfg false r tt s
                    = (Ok tt, mk_rstate
                                (logged (verify_line "[ OK ]" key full_cmd value "(no response)") w2)
                                (inc_write c)))
             /\ (forall resp w2 delta,
                    try_query cmd_read (cfg_eol cfg) w1 = (Ok (true, resp), w2) ->
                    compare_values value (Py.strip resp) F64.zero = Ok (true, delta) ->
                    restore_row cfg false r tt s
                    = (Ok tt, mk_rstate
                                (logged (verify_line "[ OK ]" key full_cmd value (Py.strip resp)) w2)
                                (inc_write c)))
             /\ (forall resp w2 delta,
                    try_query cmd_read (cfg_eol cfg) w1 = (Ok (true, resp), w2) ->
                    compare_values value (Py.strip resp) F64.zero = Ok (false, delta) ->
                    restore_row cfg false r tt s
                    = (Ok tt, mk_rstate
                                (logged (verify_line "[BAD ]" key full_cmd value (Py.strip resp)) w2)
                                (inc_failures (inc_bad_verify (inc_write c))))))).

(** The counters after a dry run over [rows]. *)
Definition dry_counts (rows : list csv_row) (c : counters) : counters :=
  mk_counters (failures c)
              (skip_count c + List.length (filter is_skipped rows))
              (dry_count c + List.length (filter (fun r => negb (is_skipped r)) rows))
              (write_count c) (bad_verify_count c) (write_fail_count c).

(** The texts restore logs before and after the rows, the world in which
    the first row is processed, and the returned counts. *)
Definition restore_banner (env : Env) (dry_run : bool) : string :=
  LF ++ "--- RESTORE START " ++ env_ctime env ++ " | dry_run=" ++ str_bool dry_run
  ++ " ---" ++ LF.
Definition idn_line (resp : string) : string :=
  "[INFO] *IDN? -> " ++ (if String.eqb resp "" then "(no response)" else resp) ++ LF.
Definition restore_end_lines (c : counters) : list string :=
  (if (0 <? failures c)%nat
   then [("--- Write failure detected.  Check CAL jumper enabled? ---" ++ LF)%string]
   else [])
  ++ [("--- RESTORE END (failures=" ++ Py.str_nat (failures c) ++ ") ---" ++ LF)%string].
Definition restore_start (env : Env) (cfg : SerialCfg) (dry_run : bool) (w : World) : World :=
  logged (idn_line (response_of (next_raw w)))
         (after_query "*IDN?" (cfg_eol cfg) (logged (restore_banner env dry_run) w)).
Definition stats_of (rows : list csv_row) (c : counters) : restore_stats :=
  mk_restore_stats (List.length rows) (skip_count c) (dry_count c) (write_count c)
                   (bad_verify_count c) (write_fail_count c) (failures c).

(** The boolean component of a comparison, or the exception it raised. *)
Definition verdict (r : result (bool * string)) : result bool :=
  match r with
  | Ok (is_match, _) => Ok is_match
  | Raise e => Raise e
  end.

(** [v] is the negation of [u] as a number: [v = -u], where the two zeros
    count as one number and so do all NaNs. *)
Definition negation_of (u v : F64.float) : Prop :=
  v = F64.opp u \/ (u = F64.zero /\ v = F64.zero).

(** *** The classification compare is to make *)

(** A row compare skips: no read command or no expected value. *)
Definition cmp_skipped (r : csv_row) : bool :=
  String.eqb (row_read_text r) "" || String.eqb (row_value_text r) "".

(** The status of a row, given the trimmed answer to its re-query. *)
Definition row_status (tol : F64.float) (r : csv_row) (actual : string) : string :=
  if cmp_skipped r then "skipped"
  else if String.eqb actual "" then "read_fail"
  else match verdict (compare_values (row_value_text r) actual tol) with
       | Ok true => "match"
       | _ => "mismatch"
       end.

(** The report row of a snapshot row. *)
Definition report_of (tol : F64.float) (r : csv_row) (actual : string) : report_row :=
  let live := negb (cmp_skipped r) && negb (String.eqb actual "") in
  mk_report (row_key_text r) (row_read_text r) (row_value_text r)
            (if live then actual else "")
            (row_status tol r actual)
            (if live then
               match compare_values (row_value_text r) actual tol with
               | Ok (_, delta) => delta
               | Raise _ => ""
               end
             else "")
            (Py.strip (Py.or_empty (row_notes r))).

(** The report of a snapshot, given the lines the instrument answers with: a
    row that is not skipped takes the next line. *)
Fixpoint classify (tol : F64.float) (rows : list csv_row) (lines : list string)
  : list report_row :=
  match rows with
  | [] => []
  | r :: rows' =>
      report_of tol r (response_of (hd EmptyString lines))
      :: classify tol rows' (if cmp_skipped r then lines else tl lines)
  end.

(** The number of the line that answers the re-query of row [n]: the number
    of rows before it that are not skipped. *)
Definition line_index (rows : list csv_row) (n : nat) : nat :=
  List.length (filter (fun r => negb (cmp_skipped r)) (firstn n rows)).

Definition count_status (status : string) (reps : list report_row) : nat :=
  List.length (filter (fun rep => String.eqb (rep_status rep) status) reps).

(** The accumulator of the compare loop after more report rows. *)
Definition acc_plus (acc : compare_acc) (reps : list report_row) : compare_acc :=
  mk_cacc (c_results acc ++ reps)
          (c_match acc + count_status "match" reps)
          (c_mismatch acc + count_status "mismatch" reps)
          (c_skip acc + count_status "skipped" reps)
          (c_read_fail acc + count_status "read_fail" reps).

(** The comparison of a row raises: the row is not skipped, its re-query is
    answered, and the comparator raises on the expected value and the
    answer. *)
Definition row_raises (tol : F64.float) (r : csv_row) (actual : string) : bool :=
  negb (cmp_skipped r) && negb (String.eqb actual "")
  && match compare_values (row_value_text r) actual tol with
     | Raise _ => true
     | Ok _ => false
     end.

(** The comparison of some row of the snapshot raises, given the lines the
    instrument answers with. *)
Fixpoint any_raises (tol : F64.float) (rows : list csv_row) (lines : list string)
  : bool :=
  match rows with
  | [] => false
  | r :: rows' =>
      row_raises tol r (response_of (hd EmptyString lines))
      || any_raises tol rows' (if cmp_skipped r then lines else tl lines)
  end.

(** *** The comparator as the specification words it *)

(** [max(x, y)] *)
Definition fmax (x y : F64.float) : F64.float := if F64.ltb x y then y else x.

(** The three steps of the specification: identical trimmed strings match
    with an empty delta; else, unless both parse as numbers, mismatch with an
    empty delta; else [delta = actual - expected], match exactly when
    [|delta| <= tol * max(1, max(|expected|, |actual|))], and the delta is
    reported with twelve significant digits. *)
Definition compare_spec (expected actual : string) (tol : F64.float) : bool * string :=
  let exp := Py.strip expected in
  let act := Py.strip actual in
  if String.eqb exp act then (true, "")
  else
    match F64.float_of_str exp, F64.float_of_str act with
    | Some x, Some y =>
        let delta := F64.sub y x in
        (F64.leb (F64.abs delta)
                 (F64.mul tol (fmax F64.one (fmax (F64.abs x) (F64.abs y)))),
         F64.format_g12 delta)
    | _, _ => (false, "")
    end.

(** The verdict of the code on two numbers, for a tolerance that is not
    negative: equal numbers match; otherwise the numbers match when neither
    is infinite and [|y - x|] is at most [|tol * y|], [|tol * x|] or [tol]. *)
Definition within_tolerance (x y tol : F64.float) : bool :=
  F64.eqb x y
  || (negb (F64.is_inf x || F64.is_inf y)
      && (F64.leb (F64.abs (F64.sub y x)) (F64.abs (F64.mul tol y))
          || F64.leb (F64.abs (F64.sub y x)) (F64.abs (F64.mul tol x))
          || F64.leb (F64.abs (F64.sub y x)) tol)).

(** The binary64 value of the literal [1e-6], the default tolerance. *)
Definition tol_1e_6 : F64.float := S754_finite false 4722366482869645 (-72).

(** *** Probing *)

(** The answer to probe [i], when the [n]-th query reads the [n]-th line. *)
Definition probe_answer (lines : list string) (i : nat) : string :=
  response_of (nth i lines EmptyString).

(** The probes among the first [k] that got an answer, with the answers. *)
Definition probe_answers (lines : list string) (k : nat) : list (nat * string) :=
  filter (fun p => negb (String.eqb (snd p) ""))
         (map (fun i => (i, probe_answer lines i)) (seq 0 k)).

(** What the first [k] probes write to the port. *)
Definition probe_writes (eol : string) (k : nat) : list string :=
  flat_map (fun i => query_writes ("$CFT? " ++ Py.str_nat i) eol) (seq 0 k).

(** *** Restore on a port that raises nothing *)

(** What restore writes to the port for a row that it does not skip: the
    write command, and the query of the read command if the row has one. *)
Definition row_traffic (cfg : SerialCfg) (r : csv_row) : list string :=
  if is_skipped r then []
  else match row_full_cmd r with
       | Ok full_cmd =>
           [LF; Py.encode_ascii (full_cmd ++ cfg_eol cfg)]
           ++ (if String.eqb (row_read_text r) "" then []
               else query_writes (row_read_text r) (cfg_eol cfg))
       | Raise _ => []
       end.

(** What compare writes to the port for a row. *)
Definition compare_traffic (cfg : SerialCfg) (r : csv_row) : list string :=
  if cmp_skipped r then [] else query_writes (row_read_text r) (cfg_eol cfg).

(** *** Replaying a dump *)

(** The row of the snapshot file with the entries of a dump row. *)
Definition row_of_snapshot (r : snapshot_row) : csv_row :=
  mk_row (Some (it_key (sn_item r))) (Some (it_cmd_read (sn_item r)))
         (Some (it_cmd_write (sn_item r))) (Some (it_scope (sn_item r)))
         (Some (sn_value r)) (Some (it_notes (sn_item r))).

(** ** Rounding to nearest even, on integers

    The definitions below restate, on integers, what [binary_round_aux]
    computes; the properties prove the correspondence. *)

Module Round.

Local Open Scope Z_scope.

(** [n] applications of [f] *)
Fixpoint iter_nat {A} (f : A -> A) (n : nat) (x : A) : A :=
  match n with O => x | S n' => f (iter_nat f n' x) end.

(** Where the exact value lies between [q] and [q + 1], by the round and
    sticky bits, for a remainder [rem] out of [P]. *)
Definition loc_ok (P rem : Z) (r s : bool) : Prop :=
  match r, s with
  | false, false => rem = 0
  | false, true => 0 < 2 * rem < P
  | true, false => 2 * rem = P
  | true, true => P < 2 * rem
  end.

(** [m / P] rounded to the nearest integer, ties to even. *)
Definition rne (m P : Z) : Z :=
  let q := m / P in
  let r := m mod P in
  if 2 * r <? P then q
  else if 2 * r =? P then (if Z.even q then q else q + 1)
  else q + 1.

(** The float made of a rounded mantissa [q <= 2^53] at exponent [E]. *)
Definition fin (s : bool) (q E : Z) : spec_float :=
  match q with
  | Zpos p =>
      if q <? 2 ^ 53 then
        (if E <=? 971 then S754_finite s p E else S754_infinity s)
      else
        (if E + 1 <=? 971 then S754_finite s 4503599627370496 (E + 1) else S754_infinity s)
  | _ => S754_zero s
  end.

(** A binary64 value: canonical mantissa, exponent in range. *)
Definition valid (x : spec_float) : Prop := valid_binary F64.prec F64.emax x = true.

(** The position of a number that is not a NaN in the order of the floats. *)
Definition key (x : spec_float) : Z * Z * Z :=
  match x with
  | S754_infinity false => (2, 0, 0)
  | S754_infinity true => (-2, 0, 0)
  | S754_finite false m e => (1, e, Zpos m)
  | S754_finite true m e => (-1, - e, Zneg m)
  | _ => (0, 0, 0)
  end.

Definition lex_le (a b : Z * Z * Z) : Prop :=
  let '(a1, a2, a3) := a in
  let '(b1, b2, b3) := b in
  a1 < b1 \/ (a1 = b1 /\ (a2 < b2 \/ (a2 = b2 /\ a3 <= b3))).

Definition not_nan (x : spec_float) : Prop :=
  match x with S754_nan => False | _ => True end.

End Round.

(** * Properties *)

Local Open Scope string_scope.

(** ** Strings *)

Lemma is_digit_not_space c : F64.is_digit c = true -> Py.is_space c = false.
Proof.
  destruct c as [[] [] [] [] [] [] [] []]; try discriminate; reflexivity.
Qed.

Lemma is_digit_not_semicolon c : F64.is_digit c = true -> Ascii.eqb c ";" = false.
Proof.
  destruct c as [[] [] [] [] [] [] [] []]; try discriminate; reflexivity.
Qed.

Lemma string_of_uint_digits d :
  str_forall F64.is_digit (NilEmpty.string_of_uint d) = true.
Proof. induction d; simpl; auto. Qed.

Lemma str_nat_digits n : str_forall F64.is_digit (Py.str_nat n) = true.
Proof.
  unfold Py.str_nat, NilZero.string_of_uint.
  destruct (Nat.to_uint n) eqn:E; try reflexivity; rewrite <- E;
    apply string_of_uint_digits.
Qed.

Lemma str_nat_nonempty n : Py.str_nat n <> EmptyString.
Proof.
  unfold Py.str_nat, NilZero.string_of_uint.
  destruct (Nat.to_uint n); discriminate.
Qed.

Lemma str_nat_inj n m : Py.str_nat n = Py.str_nat m -> n = m.
Proof.
  intro H.
  assert (G : forall d, match NilZero.uint_of_string (NilZero.string_of_uint d) with
                        | Some u => Nat.of_uint u
                        | None => 0
                        end = Nat.of_uint d).
  { intro d. destruct (NilZero.usu_gen d) as [E | E]; rewrite E.
    - reflexivity.
    - destruct d; try reflexivity;
        (rewrite NilZero.usu in E by discriminate; injection E as <-; reflexivity). }
  rewrite <- (DecimalNat.Unsigned.of_to n), <- (DecimalNat.Unsigned.of_to m).
  rewrite <- (G (Nat.to_uint n)), <- (G (Nat.to_uint m)).
  unfold Py.str_nat in H. now rewrite H.
Qed.

Lemma rstrip_cons_keep c s :
  Py.is_space c = false -> Py.rstrip (String c s) = String c (Py.rstrip s).
Proof. intro H. simpl. rewrite H. destruct (Py.rstrip s); reflexivity. Qed.

Lemma rstrip_no_space s :
  str_forall (fun c => negb (Py.is_space c)) s = true -> Py.rstrip s = s.
Proof.
  induction s as [| c s IH]; simpl; [reflexivity |].
  intro H. apply andb_prop in H as [Hc Hs]. apply negb_true_iff in Hc.
  rewrite (IH Hs), Hc. destruct s; reflexivity.
Qed.

Lemma rstrip_app_keep a b :
  b <> EmptyString -> Py.rstrip b = b -> Py.rstrip (a ++ b) = a ++ b.
Proof.
  intros Hb Hr. induction a as [| c a IH]; simpl; [exact Hr |].
  rewrite IH. destruct (a ++ b) eqn:E; [| reflexivity].
  destruct a; simpl in E; [contradiction | discriminate].
Qed.

Lemma rstrip_idem s : Py.rstrip (Py.rstrip s) = Py.rstrip s.
Proof.
  induction s as [| c s IH]; simpl; [reflexivity |].
  destruct (Py.rstrip s) as [| d r] eqn:E.
  - destruct (Py.is_space c) eqn:Hc; simpl; [reflexivity | now rewrite Hc].
  - change (Py.rstrip (String c (String d r)) = String c (String d r)).
    simpl. simpl in IH. rewrite IH. reflexivity.
Qed.

Lemma strip_fixed s : Py.rstrip (Py.strip s) = Py.strip s.
Proof. apply rstrip_idem. Qed.

Lemma rstrip_length s : String.length (Py.rstrip s) <= String.length s.
Proof.
  induction s as [| c s IH]; simpl; [lia |].
  destruct (Py.rstrip s); [destruct (Py.is_space c) |]; simpl in *; lia.
Qed.

Lemma rstrip_app_blank a b :
  Py.lstrip b = EmptyString -> Py.rstrip (a ++ b) = Py.rstrip a.
Proof.
  intro Hb.
  assert (Hr : Py.rstrip b = EmptyString).
  { induction b as [| c b IH]; simpl in *; [reflexivity |].
    destruct (Py.is_space c); [| discriminate Hb]. now rewrite (IH Hb). }
  induction a as [| c a IH]; simpl; [exact Hr | now rewrite IH].
Qed.

Lemma lstrip_head_keep s : Py.lstrip s <> EmptyString ->
  exists c r, Py.lstrip s = String c r /\ Py.is_space c = false.
Proof.
  induction s as [| c s IH]; simpl; [congruence |].
  destruct (Py.is_space c) eqn:Hc; [exact IH | intros _; eauto].
Qed.

Lemma rstrip_head_nonempty c r :
  Py.is_space c = false -> Py.rstrip (String c r) <> EmptyString.
Proof. intro H. rewrite rstrip_cons_keep by exact H. discriminate. Qed.

Lemma prefix_split p s : String.prefix p s = true -> exists r, s = p ++ r.
Proof.
  revert s. induction p as [| a p IH]; intros s H.
  - now exists s.
  - destruct s as [| b s]; simpl in H; [discriminate H |].
    destruct (ascii_dec a b) as [-> | _]; [| discriminate H].
    destruct (IH s H) as [r ->]. now exists r.
Qed.

Lemma prefix_app p r : String.prefix p (p ++ r) = true.
Proof.
  induction p as [| a p IH]; simpl; [now destruct r |].
  destruct (ascii_dec a a) as [_ | N]; [exact IH | now elim N].
Qed.

Lemma str_app_assoc (a b c : string) : (a ++ b) ++ c = a ++ (b ++ c).
Proof. induction a as [| x a IH]; simpl; [reflexivity | now rewrite IH]. Qed.

Lemma str_length_app (a b : string) :
  String.length (a ++ b) = String.length a + String.length b.
Proof. induction a as [| x a IH]; simpl; [reflexivity | now rewrite IH]. Qed.

Lemma contains_app sep a b :
  Py.contains sep (a ++ b) = Py.contains sep a || Py.contains sep b.
Proof.
  induction a as [| c a IH]; simpl; [reflexivity |].
  rewrite IH. now rewrite orb_assoc.
Qed.

Lemma digits_no_semicolon s :
  str_forall F64.is_digit s = true -> Py.contains ";" s = false.
Proof.
  induction s as [| c s IH]; simpl; [reflexivity |].
  intro H. apply andb_prop in H as [Hc Hs].
  now rewrite (is_digit_not_semicolon c Hc), (IH Hs).
Qed.

Lemma digits_no_space s :
  str_forall F64.is_digit s = true ->
  str_forall (fun c => negb (Py.is_space c)) s = true.
Proof.
  induction s as [| c s IH]; simpl; [reflexivity |].
  intro H. apply andb_prop in H as [Hc Hs].
  now rewrite (is_digit_not_space c Hc), (IH Hs).
Qed.

Lemma split_no_sep sep s : Py.contains sep s = false -> Py.split sep s = [s].
Proof.
  induction s as [| c s IH]; simpl; [reflexivity |].
  intro H. apply orb_false_elim in H as [Hc Hs].
  now rewrite Hc, (IH Hs).
Qed.

Lemma split_at_sep sep a b :
  Py.contains sep a = false ->
  Py.split sep (a ++ String sep b) = a :: Py.split sep b.
Proof.
  induction a as [| c a IH]; simpl; intro H.
  - now rewrite Ascii.eqb_refl.
  - apply orb_false_elim in H as [Hc Ha]. now rewrite Hc, (IH Ha).
Qed.

Lemma rstrip_str_nat n : Py.rstrip (Py.str_nat n) = Py.str_nat n.
Proof. apply rstrip_no_space, digits_no_space, str_nat_digits. Qed.

(** ** Building the write command of a row *)

Lemma segments_stripped cmd_write t :
  In t (segments (Py.strip cmd_write)) -> Py.rstrip t = t.
Proof.
  unfold segments. destruct (Py.contains ";" (Py.strip cmd_write)).
  - intro H. apply in_map_iff in H as [p [<- _]]. apply strip_fixed.
  - intros [<- | []]. apply strip_fixed.
Qed.

Lemma lstrip_word w x :
  w <> EmptyString -> str_forall (fun c => negb (Py.is_space c)) w = true ->
  Py.lstrip (w ++ x) = w ++ x.
Proof.
  destruct w as [| c w]; [congruence |]. simpl. intros _ H.
  apply andb_prop in H as [Hc _]. apply negb_true_iff in Hc. now rewrite Hc.
Qed.

Lemma span_word_app w c rest :
  str_forall (fun c => negb (Py.is_space c)) w = true -> Py.is_space c = true ->
  Py.span_word (w ++ String c rest) = (w, String c rest).
Proof.
  intros Hw Hc. induction w as [| d w IH]; simpl.
  - now rewrite Hc.
  - simpl in Hw. apply andb_prop in Hw as [Hd Hw]. apply negb_true_iff in Hd.
    now rewrite Hd, (IH Hw).
Qed.

Lemma split_ws_1_word w c rest :
  w <> EmptyString -> str_forall (fun c => negb (Py.is_space c)) w = true ->
  Py.is_space c = true ->
  Py.split_ws_1 (w ++ String c rest)
  = match Py.lstrip rest with
    | EmptyString => [w]
    | r' => [w; r']
    end.
Proof.
  intros Hne Hw Hc. unfold Py.split_ws_1. rewrite lstrip_word by assumption.
  destruct (w ++ String c rest) eqn:E.
  - destruct w; [contradiction | discriminate].
  - rewrite <- E, span_word_app by assumption. simpl. now rewrite Hc.
Qed.

(** A trimmed target that starts with the name of an indexed command and a
    blank has an index: the branch without one is never taken. *)
Lemma index_of_present name target :
  name = "$CBT" \/ name = "$CFT" ->
  Py.startswith target (name ++ " ") = true ->
  Py.rstrip target = target ->
  index_of target <> EmptyString.
Proof.
  intros Hname Hp Hr. apply prefix_split in Hp as [rest ->].
  rewrite str_app_assoc in *. change (" " ++ rest) with (String " " rest) in *.
  assert (Hw : name <> EmptyString
               /\ str_forall (fun c => negb (Py.is_space c)) name = true
               /\ String.length name = 4).
  { destruct Hname as [-> | ->]; repeat split; discriminate. }
  destruct Hw as [Hne [Hw Hlen]].
  assert (Hrest : Py.lstrip rest <> EmptyString).
  { intro Hb.
    assert (Hl : String.length (Py.rstrip (name ++ String " " rest)) <= 4).
    { rewrite (rstrip_app_blank name (String " " rest)) by exact Hb.
      rewrite <- Hlen. apply rstrip_length. }
    rewrite Hr, str_length_app in Hl. simpl in Hl. lia. }
  destruct (lstrip_head_keep rest Hrest) as [c [r [E Hc]]].
  unfold index_of. rewrite split_ws_1_word by (assumption || reflexivity).
  rewrite E. unfold Py.strip. simpl Py.lstrip. rewrite Hc.
  now apply rstrip_head_nonempty.
Qed.

Lemma with_value_separator target value :
  Py.rstrip target = target ->
  with_value target value = target ++ value_separator target ++ value.
Proof.
  intro Hr. unfold with_value, value_separator.
  destruct (Py.startswith target "$CBT ") eqn:B; simpl.
  - destruct (String.eqb_spec (index_of target) EmptyString) as [E | _]; [| reflexivity].
    exfalso. revert E. apply (index_of_present "$CBT"); auto.
  - destruct (Py.startswith target "$CFT ") eqn:F; [| reflexivity].
    destruct (String.eqb_spec (index_of target) EmptyString) as [E | _]; [| reflexivity].
    exfalso. revert E. apply (index_of_present "$CFT"); auto.
Qed.

Lemma last_item_snoc pre t : Py.last_item (pre ++ [t])%list = Some t.
Proof. unfold Py.last_item. now rewrite rev_app_distr. Qed.

Lemma set_last_snoc pre t x : Py.set_last (pre ++ [t])%list x = (pre ++ [x])%list.
Proof. unfold Py.set_last. now rewrite removelast_last. Qed.

Lemma build_full_cmd_segments cmd_write value pre target :
  segments (Py.strip cmd_write) = (pre ++ [target])%list ->
  build_full_cmd (Py.strip cmd_write) value
  = Ok (Py.join ";" (pre ++ [(target ++ value_separator target ++ value)%string])%list).
Proof.
  intro H. unfold build_full_cmd. rewrite H, last_item_snoc, set_last_snoc.
  rewrite with_value_separator; [reflexivity |].
  apply (segments_stripped cmd_write). rewrite H. apply in_or_app. right. now left.
Qed.

Lemma strip_indexed_cmd name n :
  name = "$CBT" \/ name = "$CFT" \/ name = "$CRN" ->
  Py.strip (name ++ " " ++ Py.str_nat n) = name ++ " " ++ Py.str_nat n.
Proof.
  intro H. unfold Py.strip.
  assert (L : Py.lstrip (name ++ " " ++ Py.str_nat n) = name ++ " " ++ Py.str_nat n)
    by (destruct H as [-> | [-> | ->]]; reflexivity).
  rewrite L, <- str_app_assoc.
  apply rstrip_app_keep; [apply str_nat_nonempty | apply rstrip_str_nat].
Qed.

Lemma no_semicolon_indexed name n :
  name = "$CBT" \/ name = "$CFT" \/ name = "$CRN" ->
  Py.contains ";" (name ++ " " ++ Py.str_nat n) = false.
Proof.
  intro H. rewrite <- str_app_assoc, contains_app.
  rewrite (digits_no_semicolon _ (str_nat_digits n)).
  destruct H as [-> | [-> | ->]]; reflexivity.
Qed.

Lemma value_separator_indexed name rest :
  name = "$CBT" \/ name = "$CFT" ->
  value_separator (name ++ " " ++ rest) = ",".
Proof.
  unfold value_separator, Py.startswith. intros [-> | ->].
  - change ("$CBT" ++ " " ++ rest) with ("$CBT " ++ rest).
    now rewrite prefix_app.
  - change ("$CFT" ++ " " ++ rest) with ("$CFT " ++ rest).
    rewrite (prefix_app "$CFT "). now rewrite orb_true_r.
Qed.

Lemma full_cmd_indexed name n value :
  name = "$CBT" \/ name = "$CFT" ->
  build_full_cmd (Py.strip (name ++ " " ++ Py.str_nat n)) value
  = Ok (name ++ " " ++ Py.str_nat n ++ "," ++ value).
Proof.
  intro H.
  assert (H3 : name = "$CBT" \/ name = "$CFT" \/ name = "$CRN") by tauto.
  rewrite (build_full_cmd_segments _ value [] (name ++ " " ++ Py.str_nat n)).
  - rewrite value_separator_indexed by exact H.
    cbn [app Py.join]. now rewrite !str_app_assoc.
  - rewrite strip_indexed_cmd by exact H3.
    unfold segments. now rewrite no_semicolon_indexed.
Qed.

Lemma strip_range_cmd r tail :
  tail = "$CMJ" \/ tail = "$CMN" ->
  Py.strip ("$CRN " ++ Py.str_nat r ++ ";" ++ tail) = "$CRN " ++ Py.str_nat r ++ ";" ++ tail.
Proof.
  intro H. unfold Py.strip.
  change (Py.lstrip ("$CRN " ++ Py.str_nat r ++ ";" ++ tail))
    with ("$CRN " ++ Py.str_nat r ++ ";" ++ tail).
  rewrite <- !str_app_assoc.
  apply rstrip_app_keep; destruct H as [-> | ->]; (discriminate || reflexivity).
Qed.

Lemma segments_range_cmd r tail :
  tail = "$CMJ" \/ tail = "$CMN" ->
  segments ("$CRN " ++ Py.str_nat r ++ ";" ++ tail) = ["$CRN " ++ Py.str_nat r; tail].
Proof.
  intro H. unfold segments.
  assert (N : Py.contains ";" ("$CRN " ++ Py.str_nat r) = false)
    by (apply (no_semicolon_indexed "$CRN"); auto).
  rewrite <- str_app_assoc, contains_app, N.
  change (";" ++ tail) with (String ";" tail).
  rewrite split_at_sep by exact N.
  assert (S1 : Py.strip ("$CRN " ++ Py.str_nat r) = "$CRN " ++ Py.str_nat r)
    by (apply (strip_indexed_cmd "$CRN"); auto).
  assert (S2 : Py.strip tail = tail /\ (tail =? "") = false
               /\ Py.split ";" tail = [tail])
    by (destruct H as [-> | ->]; repeat split; reflexivity).
  destruct S2 as [S2 [E2 P2]].
  rewrite orb_true_r, P2. cbn [filter]. rewrite S1, S2, E2.
  change ("$CRN " ++ Py.str_nat r =? "") with false.
  cbn [negb map]. now rewrite S1, S2.
Qed.

Lemma full_cmd_range r tail value :
  tail = "$CMJ" \/ tail = "$CMN" ->
  build_full_cmd (Py.strip ("$CRN " ++ Py.str_nat r ++ ";" ++ tail)) value
  = Ok ("$CRN " ++ Py.str_nat r ++ ";" ++ tail ++ " " ++ value).
Proof.
  intro H.
  rewrite (build_full_cmd_segments _ value ["$CRN " ++ Py.str_nat r] tail).
  - assert (V : value_separator tail = " ") by (destruct H as [-> | ->]; reflexivity).
    rewrite V. cbn [app Py.join]. now rewrite !str_app_assoc.
  - rewrite strip_range_cmd by exact H. now apply segments_range_cmd.
Qed.

(** ** The catalog *)

Lemma nodupb_sound l : nodupb l = true -> NoDup l.
Proof.
  induction l as [| x l IH]; simpl; intro H; constructor.
  - apply andb_prop in H as [H _]. apply negb_true_iff in H.
    intro Hin. assert (T : existsb (String.eqb x) l = true).
    { rewrite existsb_exists. exists x. split; [exact Hin | apply String.eqb_refl]. }
    congruence.
  - apply andb_prop in H as [_ H]. now apply IH.
Qed.

Ltac key_clash H :=
  apply (f_equal it_key) in H; simpl in H; discriminate H.

Lemma cbt_item_inj i j : cbt_item i = cbt_item j -> i = j.
Proof.
  intro H. apply (f_equal it_cmd_write) in H. simpl in H.
  apply str_nat_inj. now injection H.
Qed.

Lemma cft_item_inj i j : cft_item i = cft_item j -> i = j.
Proof.
  intro H. apply (f_equal it_cmd_write) in H. simpl in H.
  apply str_nat_inj. now injection H.
Qed.

Lemma cmj_item_inj i j : cmj_item i = cmj_item j -> i = j.
Proof.
  intro H. apply (f_equal it_key) in H. simpl in H.
  apply str_nat_inj. now injection H.
Qed.

Lemma cmn_item_inj i j : cmn_item i = cmn_item j -> i = j.
Proof.
  intro H. apply (f_equal it_key) in H. simpl in H.
  apply str_nat_inj. now injection H.
Qed.

Lemma in_catalog (x : item) :
  In x (build_dump_items tt) <->
  (x = mk_item "IDN" "*IDN?" "" "global" "Instrument ID string"
   \/ x = mk_item "FRQ" "$FRQ?" "$FRQ" "global"
            ("Frequency correction factor (ppm, " ++ String "177"%char "10000, 0.1ppm)")
   \/ x = mk_item "RND" "$RND?" "$RND" "global" "Rounding (-1 auto, 0..3 fixed digits)")
  \/ (exists i, i <= CBT_MAX_I /\ x = cbt_item i)
  \/ (exists r, r <= CRN_MAX /\ (x = cmj_item r \/ x = cmn_item r))
  \/ (exists i, i <= CFT_MAX_I /\ x = cft_item i).
Proof.
  unfold build_dump_items, range_incl, CBT_MIN_I, CRN_MIN, CFT_MIN_I.
  rewrite !in_app_iff, !in_map_iff, in_flat_map.
  split.
  - intros [H | [H | [H | H]]].
    + left. simpl in H. intuition auto.
    + right; left. destruct H as [i [E Hi]]. apply in_seq in Hi. exists i. split; [lia | auto].
    + right; right; left. destruct H as [r [Hr E]]. apply in_seq in Hr. exists r.
      split; [lia |]. simpl in E. intuition auto.
    + right; right; right. destruct H as [i [E Hi]]. apply in_seq in Hi.
      exists i. split; [lia | auto].
  - intros [H | [H | [H | H]]].
    + left. simpl. intuition auto.
    + right; left. destruct H as [i [Hi E]]. exists i. split; [auto |]. apply in_seq. lia.
    + right; right; left. destruct H as [r [Hr E]]. exists r. split; [apply in_seq; lia |].
      simpl. intuition auto.
    + right; right; right. destruct H as [i [Hi E]]. exists i. split; [auto |].
      apply in_seq. lia.
Qed.

(** C7: the catalog builder reads nothing but constants, so any two calls give
    the same ordered list; its keys are pairwise different; an amplitude
    descriptor is listed exactly for the indices 0..94 (95 of them), a
    floating-point descriptor exactly for 0..120 (121 of them), and a major and
    a minor range descriptor exactly for each range 0..3 (4 each). *)
Theorem build_dump_items_catalog :
  (forall u u' : unit, build_dump_items u = build_dump_items u')
  /\ NoDup (map it_key (build_dump_items tt))
  /\ (forall i, In (cbt_item i) (build_dump_items tt) <-> i <= 94)
  /\ (forall i, In (cft_item i) (build_dump_items tt) <-> i <= 120)
  /\ (forall r, In (cmj_item r) (build_dump_items tt) <-> r <= 3)
  /\ (forall r, In (cmn_item r) (build_dump_items tt) <-> r <= 3)
  /\ List.length (filter (fun it => Py.startswith (it_key it) "CBT[") (build_dump_items tt)) = 95
  /\ List.length (filter (fun it => Py.startswith (it_key it) "CFT[") (build_dump_items tt)) = 121
  /\ List.length (filter (fun it => Py.startswith (it_key it) "CMJ@R") (build_dump_items tt)) = 4
  /\ List.length (filter (fun it => Py.startswith (it_key it) "CMN@R") (build_dump_items tt)) = 4
  /\ List.length (build_dump_items tt) = 3 + 95 + 2 * 4 + 121.
Proof.
  split; [now intros [] [] |].
  split; [apply nodupb_sound; vm_compute; reflexivity |].
  split; [| split; [| split; [| split]]].
  - intro i. rewrite in_catalog. unfold CBT_MAX_I. split.
    + intros [[H | [H | H]] | [[j [Hj H]] | [[j [Hj [H | H]]] | [j [Hj H]]]]];
        try (key_clash H).
      apply cbt_item_inj in H. lia.
    + intro Hi. right; left. now exists i.
  - intro i. rewrite in_catalog. unfold CFT_MAX_I. split.
    + intros [[H | [H | H]] | [[j [Hj H]] | [[j [Hj [H | H]]] | [j [Hj H]]]]];
        try (key_clash H).
      apply cft_item_inj in H. lia.
    + intro Hi. right; right; right. now exists i.
  - intro r. rewrite in_catalog. unfold CRN_MAX. split.
    + intros [[H | [H | H]] | [[j [Hj H]] | [[j [Hj [H | H]]] | [j [Hj H]]]]];
        try (key_clash H).
      apply cmj_item_inj in H. lia.
    + intro Hr. right; right; left. exists r. auto.
  - intro r. rewrite in_catalog. unfold CRN_MAX. split.
    + intros [[H | [H | H]] | [[j [Hj H]] | [[j [Hj [H | H]]] | [j [Hj H]]]]];
        try (key_clash H).
      apply cmn_item_inj in H. lia.
    + intro Hr. right; right; left. exists r. auto.
  - repeat split; vm_compute; reflexivity.
Qed.

(** ** C1: the value goes to the last segment *)

(** C1: when restore builds the command of a row, the segments before the
    last one are joined unchanged and the value is appended to the last one
    only, after a comma when that segment is an indexed amplitude or
    floating-point write ([$CBT i], [$CFT i]) and after a blank otherwise.
    For every index [i] and value [v] the amplitude write gives [$CBT i,v]
    (likewise [$CFT i,v]), and a range-scoped write gives
    [$CRN r;$CMJ v] (likewise [$CMN]). *)
Theorem restore_full_cmd_value_on_last_segment :
  (forall cmd_write value pre target,
      segments (Py.strip cmd_write) = (pre ++ [target])%list ->
      build_full_cmd (Py.strip cmd_write) value
      = Ok (Py.join ";" (pre ++ [(target ++ value_separator target ++ value)%string])%list))
  /\ (forall target,
         value_separator target
         = if Py.startswith target "$CBT " || Py.startswith target "$CFT "
           then "," else " ")
  /\ (forall i v,
         build_full_cmd (Py.strip (it_cmd_write (cbt_item i))) v
         = Ok ("$CBT " ++ Py.str_nat i ++ "," ++ v))
  /\ (forall i v,
         build_full_cmd (Py.strip (it_cmd_write (cft_item i))) v
         = Ok ("$CFT " ++ Py.str_nat i ++ "," ++ v))
  /\ (forall r v,
         build_full_cmd (Py.strip (it_cmd_write (cmj_item r))) v
         = Ok ("$CRN " ++ Py.str_nat r ++ ";$CMJ " ++ v))
  /\ (forall r v,
         build_full_cmd (Py.strip (it_cmd_write (cmn_item r))) v
         = Ok ("$CRN " ++ Py.str_nat r ++ ";$CMN " ++ v)).
Proof.
  split; [exact build_full_cmd_segments |].
  split; [reflexivity |].
  split; [| split; [| split]].
  - intros i v. apply (full_cmd_indexed "$CBT"). now left.
  - intros i v. apply (full_cmd_indexed "$CFT"). now right.
  - intros r v. apply (full_cmd_range r "$CMJ"). now left.
  - intros r v. apply (full_cmd_range r "$CMN"). now right.
Qed.

Lemma restore_full_cmd_value_on_last_segment_witness :
  segments (Py.strip " $CRN 2 ; $CFT 7 ") = (["$CRN 2"] ++ ["$CFT 7"])%list
  /\ build_full_cmd (Py.strip " $CRN 2 ; $CFT 7 ") "1.5" = Ok "$CRN 2;$CFT 7,1.5".
Proof.
  split.
  - reflexivity.
  - exact (proj1 restore_full_cmd_value_on_last_segment
             " $CRN 2 ; $CFT 7 " "1.5" ["$CRN 2"] "$CFT 7" eq_refl).
Defined.

(** ** The transport *)

Lemma ser_write_eq data w :
  ser_write data w
  = if fault_at 0 w then (Raise SerialTimeoutException, faulted w)
    else (Ok tt, wrote data w).
Proof.
  unfold ser_write, fault_at, faulted, wrote.
  destruct (ser_faults (w_ser w)) as [| [] fs]; reflexivity.
Qed.

Lemma ser_readline_eq w : ser_readline w = (Ok (next_raw w), did_read w).
Proof.
  unfold ser_readline, next_raw, did_read.
  destruct w as [[wr ls fs] lg]; simpl. destruct ls; reflexivity.
Qed.

Lemma fault_at_wrote k data w : fault_at k (wrote data w) = fault_at (S k) w.
Proof.
  unfold fault_at, wrote; simpl. destruct (ser_faults (w_ser w)); [now destruct k | reflexivity].
Qed.

Lemma response_of_empty : response_of EmptyString = EmptyString.
Proof. reflexivity. Qed.

Lemma read_line_eq w :
  read_line w
  = if fault_at 0 w then (Raise SerialTimeoutException, faulted w)
    else (Ok (response_of (next_raw (wrote LF w))), did_read (wrote LF w)).
Proof.
  unfold read_line, clear_com_buffer, bind. rewrite ser_write_eq.
  destruct (fault_at 0 w); [reflexivity |].
  rewrite ser_readline_eq. destruct (next_raw (wrote LF w)); reflexivity.
Qed.

Lemma send_cmd_eq cmd eol w :
  send_cmd cmd eol w
  = if fault_at 0 w then (Raise SerialTimeoutException, faulted w)
    else if fault_at 1 w then (Raise SerialTimeoutException, faulted (wrote LF w))
    else (Ok tt, wrote (Py.encode_ascii (cmd ++ eol)) (wrote LF w)).
Proof.
  unfold send_cmd, clear_com_buffer, bind. rewrite ser_write_eq.
  destruct (fault_at 0 w); [reflexivity |].
  rewrite ser_write_eq, fault_at_wrote. reflexivity.
Qed.

Lemma next_raw_wrote data w : next_raw (wrote data w) = next_raw w.
Proof. reflexivity. Qed.

(** What [try_query] does, whatever the port has in store. *)
Lemma try_query_eq cmd eol w :
  try_query cmd eol w
  = if fault_at 0 w then (Raise SerialTimeoutException, faulted w)
    else if fault_at 1 w then (Raise SerialTimeoutException, faulted (wrote LF w))
    else if fault_at 2 w then
      (Raise SerialTimeoutException,
       faulted (wrote (Py.encode_ascii (cmd ++ eol)) (wrote LF w)))
    else
      let resp := response_of (next_raw w) in
      (Ok (negb (String.eqb resp ""), resp), after_query cmd eol w).
Proof.
  unfold try_query, query, bind. rewrite send_cmd_eq.
  destruct (fault_at 0 w); [reflexivity |].
  destruct (fault_at 1 w); [reflexivity |].
  rewrite read_line_eq, !fault_at_wrote, !next_raw_wrote.
  destruct (fault_at 2 w); [reflexivity |].
  cbv zeta. unfold after_query.
  destruct (String.eqb (response_of (next_raw w)) "") eqn:E; [| reflexivity].
  apply String.eqb_eq in E. rewrite E. reflexivity.
Qed.

Lemma fault_at_logged k text w : fault_at k (logged text w) = fault_at k w.
Proof. reflexivity. Qed.

Lemma no_faults_fault_at k w : no_faults w = true -> fault_at k w = false.
Proof.
  unfold no_faults, fault_at. generalize (ser_faults (w_ser w)). intro fs.
  revert k. induction fs as [| b fs IH]; intros k H; [now destruct k |].
  simpl in H. apply andb_prop in H as [Hb Hfs].
  destruct k; simpl; [now destruct b | now apply IH].
Qed.

Lemma no_faults_wrote data w : no_faults w = true -> no_faults (wrote data w) = true.
Proof.
  unfold no_faults, wrote; simpl. destruct (ser_faults (w_ser w)); simpl; [auto |].
  intro H. now apply andb_prop in H.
Qed.

Lemma no_faults_did_read w : no_faults (did_read w) = no_faults w.
Proof. reflexivity. Qed.

Lemma no_faults_logged text w : no_faults (logged text w) = no_faults w.
Proof. reflexivity. Qed.

Lemma no_faults_after_query cmd eol w :
  no_faults w = true -> no_faults (after_query cmd eol w) = true.
Proof.
  intro H. unfold after_query. rewrite no_faults_did_read.
  now repeat apply no_faults_wrote.
Qed.

Lemma try_query_no_faults cmd eol w :
  no_faults w = true ->
  try_query cmd eol w
  = (Ok (negb (String.eqb (response_of (next_raw w)) ""), response_of (next_raw w)),
     after_query cmd eol w).
Proof.
  intro H. rewrite try_query_eq, !no_faults_fault_at by exact H. reflexivity.
Qed.

Lemma log_write_eq text w : log_write text w = (Ok tt, logged text w).
Proof. reflexivity. Qed.

(** ** C5: a query fails exactly when the answer is empty *)

(** C5: whatever the command, when [try_query] returns, its success flag is
    false exactly when the response is the empty string; the response is the
    line read from the port, decoded and trimmed, which is empty in the
    failure case and non-empty in the success case.  It does return
    whenever none of its three writes raises. *)
Theorem try_query_success_iff_nonempty :
  forall cmd eol w,
    (forall ok resp w',
        try_query cmd eol w = (Ok (ok, resp), w') ->
        (ok = false <-> resp = EmptyString)
        /\ resp = response_of (next_raw w)
        /\ (ok = true -> resp <> EmptyString)
        /\ (ok = false -> resp = EmptyString))
    /\ (fault_at 0 w = false -> fault_at 1 w = false -> fault_at 2 w = false ->
        exists ok resp w', try_query cmd eol w = (Ok (ok, resp), w')).
Proof.
  intros cmd eol w. split.
  - intros ok resp w' H. rewrite try_query_eq in H.
    destruct (fault_at 0 w); [discriminate H |].
    destruct (fault_at 1 w); [discriminate H |].
    destruct (fault_at 2 w); [discriminate H |].
    cbv zeta in H. injection H as Hok Hresp _. subst ok.
    destruct (String.eqb_spec (response_of (next_raw w)) "") as [E | N].
    + rewrite E in Hresp. subst resp. simpl. intuition congruence.
    + subst resp. simpl. intuition congruence.
  - intros H0 H1 H2. rewrite try_query_eq, H0, H1, H2. cbv zeta. eauto.
Qed.

Lemma try_query_success_iff_nonempty_witness :
  exists ok resp w',
    try_query "*IDN?" LF (mk_world (mk_serial [] [" SR720 " ++ LF] []) [])
    = (Ok (ok, resp), w').
Proof.
  exact (proj2 (try_query_success_iff_nonempty "*IDN?" LF
                  (mk_world (mk_serial [] [" SR720 " ++ LF] []) []))
               eq_refl eq_refl eq_refl).
Defined.

(** ** C8: the dump *)

Lemma written_after_query cmd eol w :
  ser_written (w_ser (after_query cmd eol w))
  = (ser_written (w_ser w) ++ query_writes cmd eol)%list.
Proof. unfold after_query, query_writes; simpl. now rewrite <- !app_assoc. Qed.

Lemma lines_after_query cmd eol w :
  ser_lines (w_ser (after_query cmd eol w)) = tl (ser_lines (w_ser w)).
Proof. reflexivity. Qed.

Lemma dump_item_eq cfg it rows ok_count fail_count w :
  no_faults w = true ->
  exists text,
    dump_item cfg it (rows, ok_count, fail_count) w
    = (Ok ((rows ++ [mk_snap it (response_of (next_raw w))])%list,
           (if String.eqb (response_of (next_raw w)) "" then ok_count else S ok_count),
           (if String.eqb (response_of (next_raw w)) "" then S fail_count else fail_count)),
       logged text (after_query (it_cmd_read it) (cfg_eol cfg) w)).
Proof.
  intro H. unfold dump_item, bind. rewrite try_query_no_faults by exact H.
  destruct (String.eqb_spec (response_of (next_raw w)) "") as [E | N]; simpl.
  - rewrite E. eexists. reflexivity.
  - eexists. reflexivity.
Qed.

Lemma dump_loop cfg items : forall rows ok_count fail_count w,
  no_faults w = true ->
  exists w',
    for_each items (dump_item cfg) (rows, ok_count, fail_count) w
    = (Ok ((rows ++ dump_rows items (ser_lines (w_ser w)))%list,
           ok_count + List.length (filter has_value (dump_rows items (ser_lines (w_ser w)))),
           fail_count + List.length (filter (fun r => negb (has_value r))
                                        (dump_rows items (ser_lines (w_ser w))))),
       w')
    /\ no_faults w' = true
    /\ ser_written (w_ser w')
       = (ser_written (w_ser w)
          ++ flat_map (fun it => query_writes (it_cmd_read it) (cfg_eol cfg)) items)%list.
Proof.
  induction items as [| it items IH]; intros rows ok_count fail_count w H.
  - exists w. simpl. rewrite !app_nil_r, !Nat.add_0_r. auto.
  - destruct (dump_item_eq cfg it rows ok_count fail_count w H) as [text E].
    cbn [for_each]. unfold bind at 1. rewrite E.
    set (w1 := logged text (after_query (it_cmd_read it) (cfg_eol cfg) w)).
    assert (H1 : no_faults w1 = true) by (apply no_faults_after_query; exact H).
    destruct (IH (rows ++ [mk_snap it (response_of (next_raw w))])%list
                 (if String.eqb (response_of (next_raw w)) "" then ok_count else S ok_count)
                 (if String.eqb (response_of (next_raw w)) "" then S fail_count else fail_count)
                 w1 H1) as [w' [E' [F' W']]].
    exists w'. split; [| split; [exact F' |]].
    + rewrite E'. cbn [dump_rows filter].
      change (ser_lines (w_ser w1)) with (tl (ser_lines (w_ser w))).
      change (hd EmptyString (ser_lines (w_ser w))) with (next_raw w).
      change (has_value (mk_snap it (response_of (next_raw w))))
        with (negb (String.eqb (response_of (next_raw w)) "")).
      rewrite <- app_assoc. cbn [app].
      destruct (String.eqb (response_of (next_raw w)) ""); cbn [negb filter List.length].
      all: repeat match goal with
                  | |- (_, _) = (_, _) => f_equal
                  | |- Ok _ = Ok _ => f_equal
                  end; lia.
    + rewrite W'. unfold w1. cbn [flat_map]. cbn [logged w_ser].
      rewrite written_after_query. now rewrite <- app_assoc.
Qed.

Lemma dump_rows_items items : forall lines, map sn_item (dump_rows items lines) = items.
Proof. induction items as [| it items IH]; intro lines; simpl; [| rewrite IH]; reflexivity. Qed.

Lemma dump_rows_length items lines :
  List.length (dump_rows items lines) = List.length items.
Proof. rewrite <- (dump_rows_items items lines) at 2. now rewrite length_map. Qed.

Lemma dump_rows_nth items : forall lines n r,
  nth_error (dump_rows items lines) n = Some r ->
  nth_error items n = Some (sn_item r)
  /\ sn_value r = response_of (nth n lines EmptyString).
Proof.
  induction items as [| it items IH]; intros lines n r H.
  - now destruct n.
  - destruct n as [| n]; simpl in H.
    + injection H as <-. split; [reflexivity |]. now destruct lines.
    + apply IH in H as [H1 H2]. split; [exact H1 |]. rewrite H2.
      destruct lines; [now destruct n | reflexivity].
Qed.

Lemma filter_partition_length {A} (f : A -> bool) l :
  List.length (filter f l) + List.length (filter (fun x => negb (f x)) l) = List.length l.
Proof.
  induction l as [| x l IH]; simpl; [reflexivity |].
  destruct (f x); simpl; lia.
Qed.

(** C8: when no write to the port raises, the dump returns; the rows handed
    to the snapshot file are one per catalog descriptor, in catalog order,
    each carrying its descriptor unchanged and as value the trimmed answer to
    the descriptor's read command, which is the empty string when the read
    failed; rows of failed reads are written too; the port saw exactly one
    query per descriptor; and the counts satisfy
    [ok + fail = total = number of descriptors], [ok] counting the rows with
    a value. *)
Theorem dump_one_row_per_descriptor :
  forall env cfg w,
    no_faults w = true ->
    exists rows stats w',
      dump_to_csv env cfg w = (Ok (rows, stats), w')
      /\ map sn_item rows = build_dump_items tt
      /\ rows = dump_rows (build_dump_items tt) (ser_lines (w_ser w))
      /\ (forall n r, nth_error rows n = Some r ->
            nth_error (build_dump_items tt) n = Some (sn_item r)
            /\ sn_value r = response_of (nth n (ser_lines (w_ser w)) EmptyString))
      /\ ser_written (w_ser w')
         = (ser_written (w_ser w)
            ++ flat_map (fun it => query_writes (it_cmd_read it) (cfg_eol cfg))
                        (build_dump_items tt))%list
      /\ dump_total stats = List.length rows
      /\ dump_total stats = List.length (build_dump_items tt)
      /\ dump_total stats = 227
      /\ dump_ok stats + dump_fail stats = dump_total stats
      /\ dump_ok stats = List.length (filter has_value rows)
      /\ dump_fail stats = List.length (filter (fun r => negb (has_value r)) rows).
Proof.
  intros env cfg w H. unfold dump_to_csv, bind. rewrite log_write_eq.
  set (w0 := logged _ w).
  assert (H0 : no_faults w0 = true) by exact H.
  destruct (dump_loop cfg (build_dump_items tt) [] 0 0 w0 H0) as [w1 [E [_ W]]].
  rewrite E. cbn [app Nat.add]. rewrite log_write_eq.
  change (ser_lines (w_ser w0)) with (ser_lines (w_ser w)).
  set (rows := dump_rows (build_dump_items tt) (ser_lines (w_ser w))).
  eexists rows, _, _. split; [reflexivity |].
  split; [apply dump_rows_items |]. split; [reflexivity |].
  split; [apply dump_rows_nth |]. split; [exact W |].
  cbn [dump_total dump_ok dump_fail].
  assert (L : List.length rows = List.length (build_dump_items tt))
    by apply dump_rows_length.
  split; [reflexivity |]. split; [exact L |].
  split; [rewrite L; reflexivity |].
  split; [apply filter_partition_length |].
  split; reflexivity.
Qed.

Lemma dump_one_row_per_descriptor_witness :
  exists rows stats w',
    dump_to_csv (mk_env "Wed Nov  4 10:00:00 2026" (fun _ => "1e-06"))
                (mk_cfg "COM5" 9600 8 "N" 1 F64.one F64.one LF)
                (mk_world (mk_serial [] ["SR720" ++ LF; "12.5" ++ LF] []) [])
    = (Ok (rows, stats), w')
    /\ dump_total stats = 227
    /\ dump_ok stats + dump_fail stats = dump_total stats.
Proof.
  destruct (dump_one_row_per_descriptor
              (mk_env "Wed Nov  4 10:00:00 2026" (fun _ => "1e-06"))
              (mk_cfg "COM5" 9600 8 "N" 1 F64.one F64.one LF)
              (mk_world (mk_serial [] ["SR720" ++ LF; "12.5" ++ LF] []) [])
              eq_refl)
    as [rows [stats [w' [E [_ [_ [_ [_ [_ [_ [T [S _]]]]]]]]]]]].
  exists rows, stats, w'. auto.
Defined.

(** ** Restore: one row *)

Lemma in_world_eq {A} (m : M World A) s :
  in_world m s = (fst (m (rs_world s)), mk_rstate (snd (m (rs_world s))) (rs_counts s)).
Proof. unfold in_world, zoom. now destruct (m (rs_world s)). Qed.

Lemma restore_row_skipped cfg dry_run r s :
  is_skipped r = true ->
  restore_row cfg dry_run r tt s
  = (Ok tt, mk_rstate (logged (skip_line r) (rs_world s)) (inc_skip (rs_counts s))).
Proof.
  unfold is_skipped, row_write_text, row_value_text. intro H.
  unfold restore_row. rewrite H. reflexivity.
Qed.

Lemma restore_row_unbuildable cfg dry_run r s e :
  is_skipped r = false -> row_full_cmd r = Raise e ->
  restore_row cfg dry_run r tt s = (Raise e, s).
Proof.
  unfold is_skipped, row_full_cmd, row_write_text, row_value_text. intros H B.
  unfold restore_row. rewrite H, B. reflexivity.
Qed.

Lemma restore_row_dry cfg r s full_cmd :
  is_skipped r = false -> row_full_cmd r = Ok full_cmd ->
  restore_row cfg true r tt s
  = (Ok tt, mk_rstate (logged (dry_line (row_key_text r) full_cmd) (rs_world s))
                      (inc_dry (rs_counts s))).
Proof.
  unfold is_skipped, row_full_cmd, row_write_text, row_value_text. intros H B.
  unfold restore_row. rewrite H, B. reflexivity.
Qed.

(** The comparator never raises at tolerance zero. *)
Lemma compare_values_zero_tol expected actual :
  exists is_match delta, compare_values expected actual F64.zero = Ok (is_match, delta).
Proof.
  unfold compare_values.
  destruct (String.eqb (Py.strip expected) (Py.strip actual)); [eauto |].
  destruct (to_float_or_none (Py.strip expected)) as [x |]; [| eauto].
  destruct (to_float_or_none (Py.strip actual)) as [y |]; [| eauto].
  unfold F64.isclose.
  change (F64.ltb F64.zero F64.zero) with false. cbn [orb].
  destruct (F64.eqb x y); [eauto |].
  destruct (F64.is_inf x || F64.is_inf y); [eauto |].
  destruct (F64.leb (F64.abs (F64.sub y x)) (F64.abs (F64.mul F64.zero y))
            || F64.leb (F64.abs (F64.sub y x)) (F64.abs (F64.mul F64.zero x))
            || F64.leb (F64.abs (F64.sub y x)) F64.zero); eauto.
Qed.

(** A row that is written: the cases of the write and of the readback. *)
Lemma restore_row_live cfg r s full_cmd :
  is_skipped r = false -> row_full_cmd r = Ok full_cmd ->
  written_row_cases cfg r s full_cmd.
Proof.
  unfold written_row_cases.
  unfold is_skipped, row_full_cmd, row_write_text, row_value_text, row_read_text, row_key_text.
  intros H B. cbv zeta.
  assert (R : forall body : M RState unit,
             restore_row cfg false r tt s
             = try_except
                 (in_world (send_cmd full_cmd (cfg_eol cfg)) ;;
                  count inc_write ;;
                  ' (status, verify) <-
                    verify_row cfg (Py.strip (Py.or_empty (row_cmd_read r)))
                               (Py.strip (Py.or_empty (row_value r))) ;;
                  in_world (log_write (verify_line status (Py.strip (Py.or_empty (row_key r)))
                                                   full_cmd
                                                   (Py.strip (Py.or_empty (row_value r))) verify)))
                 (fun e =>
                    count inc_write_fail ;; count inc_failures ;;
                    in_world (log_write (fail_line (Py.strip (Py.or_empty (row_key r)))
                                                   full_cmd e))) s).
  { intros _. unfold restore_row. rewrite H, B. reflexivity. }
  specialize (R (ret tt)).
  split.
  - intros e w1 E. rewrite R. unfold try_except, bind. rewrite in_world_eq, E. reflexivity.
  - intros w1 E. split; [| intro N; repeat split].
    + intro C. rewrite R. unfold try_except, bind. rewrite in_world_eq, E. cbn [fst snd].
      unfold verify_row. rewrite C. reflexivity.
    + intros e w2 Q. rewrite R. unfold try_except, bind. rewrite in_world_eq, E. cbn [fst snd].
      unfold verify_row. apply String.eqb_neq in N. rewrite N.
      unfold count, modify, bind. rewrite in_world_eq. cbn [rs_world]. rewrite Q. reflexivity.
    + intros resp w2 Q. rewrite R. unfold try_except, bind. rewrite in_world_eq, E. cbn [fst snd].
      unfold verify_row. apply String.eqb_neq in N. rewrite N.
      unfold count, modify, bind. rewrite in_world_eq. cbn [rs_world]. rewrite Q. reflexivity.
    + intros resp w2 delta Q V. rewrite R. unfold try_except, bind.
      rewrite in_world_eq, E. cbn [fst snd].
      unfold verify_row. apply String.eqb_neq in N. rewrite N.
      unfold count, modify, bind. rewrite in_world_eq. cbn [rs_world]. rewrite Q.
      cbn [fst snd]. rewrite V. reflexivity.
    + intros resp w2 delta Q V. rewrite R. unfold try_except, bind.
      rewrite in_world_eq, E. cbn [fst snd].
      unfold verify_row. apply String.eqb_neq in N. rewrite N.
      unfold count, modify, bind. rewrite in_world_eq. cbn [rs_world]. rewrite Q.
      cbn [fst snd]. rewrite V. reflexivity.
Qed.

(** ** C2: rows without a write command or a value *)

(** C2: a row whose trimmed write command or trimmed value is empty is
    skipped by restore, in a dry run or not: the row returns without touching
    the port (nothing written, nothing read), its only effect is the [SKIP]
    log line and the skipped counter going up by one; the writes counter and
    the other counters stay as they are. *)
Theorem restore_skips_blank_rows :
  forall cfg dry_run r s,
    row_write_text r = EmptyString \/ row_value_text r = EmptyString ->
    exists s',
      restore_row cfg dry_run r tt s = (Ok tt, s')
      /\ w_ser (rs_world s') = w_ser (rs_world s)
      /\ w_log (rs_world s') = (w_log (rs_world s) ++ [skip_line r])%list
      /\ skip_count (rs_counts s') = S (skip_count (rs_counts s))
      /\ write_count (rs_counts s') = write_count (rs_counts s)
      /\ dry_count (rs_counts s') = dry_count (rs_counts s)
      /\ bad_verify_count (rs_counts s') = bad_verify_count (rs_counts s)
      /\ write_fail_count (rs_counts s') = write_fail_count (rs_counts s)
      /\ failures (rs_counts s') = failures (rs_counts s).
Proof.
  intros cfg dry_run r s H.
  assert (K : is_skipped r = true).
  { unfold is_skipped. destruct H as [-> | ->]; [reflexivity | apply orb_true_r]. }
  eexists. split; [apply restore_row_skipped; exact K |].
  repeat split.
Qed.

Lemma restore_skips_blank_rows_witness :
  exists s',
    restore_row (mk_cfg "COM5" 9600 8 "N" 1 F64.one F64.one LF) false
                (mk_row (Some "RND") (Some "$RND?") (Some "$RND") (Some "global")
                        (Some "  ") None)
                tt (mk_rstate (mk_world (mk_serial [] ["1" ++ LF] []) []) no_counts)
    = (Ok tt, s')
    /\ ser_written (w_ser (rs_world s')) = []
    /\ skip_count (rs_counts s') = 1
    /\ write_count (rs_counts s') = 0.
Proof.
  destruct (restore_skips_blank_rows
              (mk_cfg "COM5" 9600 8 "N" 1 F64.one F64.one LF) false
              (mk_row (Some "RND") (Some "$RND?") (Some "$RND") (Some "global")
                      (Some "  ") None)
              (mk_rstate (mk_world (mk_serial [] ["1" ++ LF] []) []) no_counts)
              (or_intror eq_refl))
    as [s' [E [P [_ [K [W _]]]]]].
  exists s'. rewrite P. auto.
Defined.

(** ** Restore: the loop *)

Lemma dry_loop cfg rows : forall s,
  forallb buildable rows = true ->
  for_each rows (restore_row cfg true) tt s
  = (Ok tt,
     mk_rstate (mk_world (w_ser (rs_world s))
                         (w_log (rs_world s) ++ map dry_run_line rows))
               (dry_counts rows (rs_counts s))).
Proof.
  induction rows as [| r rows IH]; intros s H.
  - destruct s as [[p lg] [f sk d wr b wf]]. cbn. unfold dry_counts; cbn.
    now rewrite app_nil_r, !Nat.add_0_r.
  - cbn [forallb] in H. apply andb_prop in H as [Hr Hrows].
    cbn [for_each]. unfold bind at 1.
    unfold buildable in Hr. cbn [map filter].
    destruct (is_skipped r) eqn:K.
    + assert (D : dry_run_line r = skip_line r) by (unfold dry_run_line; now rewrite K).
      rewrite restore_row_skipped by exact K. rewrite IH by exact Hrows. rewrite D.
      cbn [rs_world rs_counts logged w_ser w_log negb]. unfold dry_counts, inc_skip.
      cbn [failures skip_count dry_count write_count bad_verify_count write_fail_count
           filter]. rewrite K. cbn [negb List.length].
      rewrite <- app_assoc. cbn [app]. f_equal. f_equal; try reflexivity. f_equal; lia.
    + cbn [orb] in Hr. destruct (row_full_cmd r) as [full_cmd | e] eqn:B; [| discriminate Hr].
      assert (D : dry_run_line r = dry_line (row_key_text r) full_cmd)
        by (unfold dry_run_line; now rewrite K, B).
      rewrite (restore_row_dry cfg r s full_cmd K B). rewrite IH by exact Hrows. rewrite D.
      cbn [rs_world rs_counts logged w_ser w_log negb]. unfold dry_counts, inc_dry.
      cbn [failures skip_count dry_count write_count bad_verify_count write_fail_count
           filter]. rewrite K. cbn [negb List.length].
      rewrite <- app_assoc. cbn [app]. f_equal. f_equal; try reflexivity. f_equal; lia.
Qed.

Lemma restore_row_balanced cfg dry_run r s :
  buildable r = true ->
  exists s',
    restore_row cfg dry_run r tt s = (Ok tt, s')
    /\ (balanced (rs_counts s) -> balanced (rs_counts s')).
Proof.
  unfold buildable. intro Hb. destruct (is_skipped r) eqn:K.
  - eexists. split; [apply restore_row_skipped; exact K |].
    unfold balanced; cbn. auto.
  - cbn [orb] in Hb. destruct (row_full_cmd r) as [full_cmd | e] eqn:B; [| discriminate Hb].
    destruct dry_run.
    + eexists. split; [apply restore_row_dry; eassumption |]. unfold balanced; cbn. auto.
    + destruct (restore_row_live cfg r s full_cmd K B) as [F L].
      destruct (send_cmd full_cmd (cfg_eol cfg) (rs_world s)) as [[[] | e] w1] eqn:E.
      * destruct (L w1 eq_refl) as [L0 L1].
        destruct (String.eqb_spec (row_read_text r) "") as [C | C].
        -- eexists. split; [apply L0; exact C |]. unfold balanced; cbn. auto.
        -- destruct (L1 C) as [Q1 [Q2 [Q3 Q4]]].
           destruct (try_query (row_read_text r) (cfg_eol cfg) w1)
             as [[[[] resp] | e] w2] eqn:Q.
           ++ destruct (compare_values_zero_tol (row_value_text r) (Py.strip resp))
                as [[] [delta V]].
              ** eexists. split; [eapply Q3; [reflexivity | exact V] |].
                 unfold balanced; cbn. auto.
              ** eexists. split; [eapply Q4; [reflexivity | exact V] |].
                 unfold balanced; cbn. lia.
           ++ eexists. split; [eapply Q2; reflexivity |]. unfold balanced; cbn. auto.
           ++ eexists. split; [eapply Q1; reflexivity |]. unfold balanced; cbn. lia.
      * eexists. split; [apply F; reflexivity |]. unfold balanced; cbn. lia.
Qed.

Lemma restore_loop_balanced cfg dry_run rows : forall s,
  forallb buildable rows = true ->
  exists s',
    for_each rows (restore_row cfg dry_run) tt s = (Ok tt, s')
    /\ (balanced (rs_counts s) -> balanced (rs_counts s')).
Proof.
  induction rows as [| r rows IH]; intros s H.
  - exists s. split; [reflexivity | auto].
  - cbn [forallb] in H. apply andb_prop in H as [Hr Hrows].
    destruct (restore_row_balanced cfg dry_run r s Hr) as [s1 [E1 B1]].
    destruct (IH s1 Hrows) as [s' [E' B']].
    exists s'. split; [| auto].
    cbn [for_each]. unfold bind at 1. now rewrite E1.
Qed.

(** ** Restore: the whole run *)

Lemma restore_from_csv_eq env cfg rows dry_run w :
  fault_at 0 w = false -> fault_at 1 w = false -> fault_at 2 w = false ->
  restore_from_csv env cfg rows dry_run w
  = match for_each rows (restore_row cfg dry_run) tt
            (mk_rstate (restore_start env cfg dry_run w) no_counts) with
    | (Ok _, s) =>
        (Ok (stats_of rows (rs_counts s)),
         mk_world (w_ser (rs_world s))
                  (w_log (rs_world s) ++ restore_end_lines (rs_counts s)))
    | (Raise e, s) => (Raise e, rs_world s)
    end.
Proof.
  intros F0 F1 F2. unfold restore_from_csv, restore_body.
  unfold bind at 1. rewrite in_world_eq, log_write_eq. cbn [fst snd rs_world rs_counts].
  fold (restore_banner env dry_run).
  unfold bind at 1. rewrite in_world_eq. cbn [rs_world rs_counts].
  rewrite try_query_eq, !fault_at_logged, F0, F1, F2. cbv zeta. cbn [fst snd].
  unfold bind at 1. rewrite in_world_eq, log_write_eq. cbn [fst snd rs_world rs_counts].
  unfold bind at 1.
  change (next_raw (logged (restore_banner env dry_run) w)) with (next_raw w).
  match goal with
  | |- context [for_each rows _ tt ?s0] =>
      replace s0 with (mk_rstate (restore_start env cfg dry_run w) no_counts)
  end.
  2:{ unfold restore_start, idn_line.
      destruct (String.eqb (response_of (next_raw w)) ""); reflexivity. }
  destruct (for_each rows (restore_row cfg dry_run) tt
              (mk_rstate (restore_start env cfg dry_run w) no_counts)) as [[[] | e] s1];
    [| reflexivity].
  unfold restore_end_lines, stats_of.
  destruct (0 <? failures (rs_counts s1))%nat eqn:Z.
  - unfold bind. rewrite in_world_eq, log_write_eq. cbn [fst snd rs_world rs_counts].
    rewrite in_world_eq, log_write_eq. cbn [fst snd rs_world rs_counts ret].
    unfold logged. cbn [w_ser w_log]. rewrite <- app_assoc. reflexivity.
  - unfold bind, ret. rewrite in_world_eq, log_write_eq.
    cbn [fst snd rs_world rs_counts]. reflexivity.
Qed.

(** ** C9: a dry run *)

(** C9, as the code has it: a dry run does send one thing, the identity
    query [*IDN?] that restore issues before it looks at the rows, and reads
    its answer.  Apart from that query nothing is written to the port and
    nothing is read: for every row that is not skipped the full write command
    is built and logged in a [DRY ] line, the dry-run counter ends as the
    number of these rows, the skipped counter as the number of the others,
    and the writes, bad-verify, write-exception and failure counters stay
    zero.  (The run completes when the identity query does not raise and
    every write command to replay has a last segment.) *)
Theorem dry_run_sends_only_identity_query :
  forall env cfg rows w,
    fault_at 0 w = false -> fault_at 1 w = false -> fault_at 2 w = false ->
    forallb buildable rows = true ->
    exists stats w',
      restore_from_csv env cfg rows true w = (Ok stats, w')
      /\ ser_written (w_ser w')
         = (ser_written (w_ser w) ++ query_writes "*IDN?" (cfg_eol cfg))%list
      /\ ser_lines (w_ser w') = tl (ser_lines (w_ser w))
      /\ w_log w'
         = (w_log w
            ++ [restore_banner env true; idn_line (response_of (next_raw w))]
            ++ map dry_run_line rows
            ++ restore_end_lines no_counts)%list
      /\ (forall r, In r rows -> is_skipped r = false ->
            exists full_cmd,
              row_full_cmd r = Ok full_cmd
              /\ dry_run_line r = dry_line (row_key_text r) full_cmd)
      /\ rst_total stats = List.length rows
      /\ rst_dry_run stats = List.length (filter (fun r => negb (is_skipped r)) rows)
      /\ rst_skipped stats = List.length (filter is_skipped rows)
      /\ rst_writes stats = 0
      /\ rst_bad_verify stats = 0
      /\ rst_write_fail stats = 0
      /\ rst_failures stats = 0.
Proof.
  intros env cfg rows w F0 F1 F2 B.
  rewrite restore_from_csv_eq by assumption. rewrite dry_loop by exact B.
  eexists. eexists. split; [reflexivity |].
  cbn [w_ser w_log rs_world rs_counts restore_start logged].
  split; [rewrite written_after_query; reflexivity |]. split; [reflexivity |].
  split.
  { change (w_log (after_query "*IDN?" (cfg_eol cfg) (logged (restore_banner env true) w)))
      with (w_log w ++ [restore_banner env true])%list.
    change (restore_end_lines (dry_counts rows no_counts))
      with (restore_end_lines no_counts).
    now rewrite <- !app_assoc. }
  split; [| repeat split].
  intros r Hin K. rewrite forallb_forall in B. specialize (B r Hin).
  unfold buildable in B. rewrite K in B. cbn [orb] in B.
  destruct (row_full_cmd r) as [full_cmd |] eqn:E; [| discriminate B].
  exists full_cmd. split; [reflexivity |]. unfold dry_run_line. now rewrite K, E.
Qed.

Lemma dry_run_sends_only_identity_query_witness :
  exists stats w',
    restore_from_csv (mk_env "Wed Nov  4 10:00:00 2026" (fun _ => "1e-06"))
                     (mk_cfg "COM5" 9600 8 "N" 1 F64.one F64.one LF)
                     [mk_row (Some "CBT[5]") (Some "$CBT? 5") (Some "$CBT 5")
                             (Some "global") (Some "200") None;
                      mk_row (Some "IDN") (Some "*IDN?") (Some "") (Some "global")
                             (Some "SR720") None]
                     true
                     (mk_world (mk_serial [] ["SR720" ++ LF] []) [])
    = (Ok stats, w')
    /\ rst_dry_run stats = 1 /\ rst_skipped stats = 1 /\ rst_writes stats = 0.
Proof.
  destruct (dry_run_sends_only_identity_query
              (mk_env "Wed Nov  4 10:00:00 2026" (fun _ => "1e-06"))
              (mk_cfg "COM5" 9600 8 "N" 1 F64.one F64.one LF)
              [mk_row (Some "CBT[5]") (Some "$CBT? 5") (Some "$CBT 5")
                      (Some "global") (Some "200") None;
               mk_row (Some "IDN") (Some "*IDN?") (Some "") (Some "global")
                      (Some "SR720") None]
              (mk_world (mk_serial [] ["SR720" ++ LF] []) [])
              eq_refl eq_refl eq_refl eq_refl)
    as [stats [w' [E [_ [_ [_ [_ [_ [D [K [W _]]]]]]]]]]].
  exists stats, w'. auto.
Defined.

(** C9 as stated fails: a dry run over a snapshot with a single row writes
    the identity query to a port that had seen nothing. *)
Lemma dry_run_writes_identity_query :
  exists stats w',
    restore_from_csv (mk_env "Wed Nov  4 10:00:00 2026" (fun _ => "1e-06"))
                     (mk_cfg "COM5" 9600 8 "N" 1 F64.one F64.one LF)
                     [mk_row (Some "CBT[5]") (Some "$CBT? 5") (Some "$CBT 5")
                             (Some "global") (Some "200") None]
                     true
                     (mk_world (mk_serial [] ["SR720" ++ LF] []) [])
    = (Ok stats, w')
    /\ ser_written (w_ser w') = [LF; "*IDN?" ++ LF; LF]
    /\ ser_lines (w_ser w') = [].
Proof.
  eexists. eexists. split; [vm_compute; reflexivity |]. split; reflexivity.
Qed.

(** ** C6: verification after a write, and the failure counters *)



(** ** Floats: order and subtraction *)

Lemma SFcompare_antisym x y :
  SFcompare y x = option_map CompOpp (SFcompare x y).
Proof.
  destruct x as [sx | sx | | sx mx ex], y as [sy | sy | | sy my ey]; simpl;
    try (destruct sx); try (destruct sy); try reflexivity.
  all: rewrite (Z.compare_antisym ex ey); destruct (ex ?= ey)%Z; simpl; try reflexivity.
  all: rewrite (Pos.compare_cont_antisym mx my Eq); reflexivity.
Qed.

Lemma eqb_sym x y : F64.eqb x y = F64.eqb y x.
Proof.
  unfold F64.eqb, SFeqb. rewrite (SFcompare_antisym x y).
  destruct (SFcompare x y) as [[] |]; reflexivity.
Qed.

Lemma binary_round_aux_opp s m e l :
  binary_round_aux F64.prec F64.emax (negb s) m e l
  = SFopp (binary_round_aux F64.prec F64.emax s m e l).
Proof.
  unfold binary_round_aux.
  destruct (shr_fexp F64.prec F64.emax m e l) as [mrs' e'].
  destruct (shr_fexp F64.prec F64.emax _ e' loc_Exact) as [mrs'' e''].
  destruct (shr_m mrs''); simpl; try reflexivity.
  match goal with |- context [if ?c then _ else _] => destruct c end; reflexivity.
Qed.

Lemma binary_normalize_opp m e :
  m <> 0%Z ->
  binary_normalize F64.prec F64.emax (- m) e false
  = SFopp (binary_normalize F64.prec F64.emax m e false).
Proof.
  intro H. destruct m as [| p | p]; [congruence | |]; simpl; unfold binary_round;
    destruct (shl_align _ _ _) as [mz ez].
  - apply (binary_round_aux_opp false).
  - rewrite <- (binary_round_aux_opp true). reflexivity.
Qed.

Lemma sub_antisym_finite sx mx ex sy my ey :
  F64.sub (S754_finite sx mx ex) (S754_finite sy my ey)
  = F64.opp (F64.sub (S754_finite sy my ey) (S754_finite sx mx ex))
  \/ (F64.sub (S754_finite sy my ey) (S754_finite sx mx ex) = F64.zero
      /\ F64.sub (S754_finite sx mx ex) (S754_finite sy my ey) = F64.zero).
Proof.
  cbv beta iota zeta delta [F64.sub SFsub F64.opp F64.zero].
  rewrite (Z.min_comm ey ex).
  set (a := cond_Zopp sx (Z.pos (fst (shl_align mx ex (Z.min ex ey))))).
  set (b := cond_Zopp sy (Z.pos (fst (shl_align my ey (Z.min ex ey))))).
  destruct (Z.eq_dec (b - a) 0) as [Z0 | NZ].
  - right. replace (a - b)%Z with 0%Z by lia. rewrite Z0. split; reflexivity.
  - left. replace (a - b)%Z with (- (b - a))%Z by lia.
    apply binary_normalize_opp. exact NZ.
Qed.

(** [x - y] and [y - x] are opposite, except that both are [+0] when the
    exact difference is zero. *)
Lemma sub_antisym x y :
  F64.sub x y = F64.opp (F64.sub y x)
  \/ (F64.sub y x = F64.zero /\ F64.sub x y = F64.zero).
Proof.
  destruct x as [sx | sx | | sx mx ex], y as [sy | sy | | sy my ey];
    try apply sub_antisym_finite;
    unfold F64.sub, F64.opp, F64.zero; simpl;
    try (destruct sx); try (destruct sy); simpl; auto.
Qed.

Lemma abs_opp x : F64.abs (F64.opp x) = F64.abs x.
Proof. now destruct x. Qed.

Lemma abs_sub_sym x y : F64.abs (F64.sub y x) = F64.abs (F64.sub x y).
Proof.
  destruct (sub_antisym x y) as [E | [E1 E2]].
  - rewrite E. now rewrite abs_opp.
  - now rewrite E1, E2.
Qed.

Lemma isclose_sym a b rel_tol abs_tol :
  F64.isclose a b rel_tol abs_tol = F64.isclose b a rel_tol abs_tol.
Proof.
  unfold F64.isclose.
  destruct (F64.ltb rel_tol F64.zero || F64.ltb abs_tol F64.zero); [reflexivity |].
  rewrite (eqb_sym b a). destruct (F64.eqb a b); [reflexivity |].
  rewrite (orb_comm (F64.is_inf b)). destruct (F64.is_inf a || F64.is_inf b); [reflexivity |].
  rewrite (abs_sub_sym b a).
  rewrite (orb_comm (F64.leb _ (F64.abs (F64.mul rel_tol a)))). reflexivity.
Qed.

(** ** C10: the comparator is symmetric *)

(** C10: for all strings [e], [a] and every tolerance, [compare_values e a]
    and [compare_values a e] give the same verdict (and raise alike for a
    negative tolerance); when both arguments parse as numbers [x] and [y] and
    a delta is reported (the trimmed strings differ), the two deltas are the
    renderings of [y - x] and of [x - y], which are negations of each other
    as numbers; for identical trimmed strings both deltas are empty. *)
Theorem compare_values_symmetric :
  forall e a tol,
    verdict (compare_values e a tol) = verdict (compare_values a e tol)
    /\ (forall x y is_match delta is_match' delta',
           to_float_or_none (Py.strip e) = Some x ->
           to_float_or_none (Py.strip a) = Some y ->
           compare_values e a tol = Ok (is_match, delta) ->
           compare_values a e tol = Ok (is_match', delta') ->
           (Py.strip e = Py.strip a /\ delta = EmptyString /\ delta' = EmptyString)
           \/ (Py.strip e <> Py.strip a
               /\ delta = F64.format_g12 (F64.sub y x)
               /\ delta' = F64.format_g12 (F64.sub x y)
               /\ negation_of (F64.sub y x) (F64.sub x y))).
Proof.
  intros e a tol. unfold compare_values. rewrite (String.eqb_sym (Py.strip a)).
  destruct (String.eqb_spec (Py.strip e) (Py.strip a)) as [E | N].
  - split; [reflexivity |]. intros x y m d m' d' _ _ H H'.
    injection H as _ <-. injection H' as _ <-. left. auto.
  - destruct (to_float_or_none (Py.strip e)) as [x |],
             (to_float_or_none (Py.strip a)) as [y |];
      try (split; [reflexivity | intros; discriminate]).
    rewrite (isclose_sym y x).
    destruct (F64.isclose x y tol tol) as [[] | ex].
    + split; [reflexivity |]. intros x' y' m d m' d' [= <-] [= <-] H H'.
      injection H as _ <-. injection H' as _ <-. right.
      repeat split; [exact N | apply sub_antisym].
    + split; [reflexivity |]. intros x' y' m d m' d' [= <-] [= <-] H H'.
      injection H as _ <-. injection H' as _ <-. right.
      repeat split; [exact N | apply sub_antisym].
    + split; [reflexivity |]. intros; discriminate.
Qed.

Lemma compare_values_symmetric_witness :
  (Py.strip "1.5" = Py.strip "2.5" /\ "1" = EmptyString /\ "-1" = EmptyString)
  \/ (Py.strip "1.5" <> Py.strip "2.5"
      /\ "1" = F64.format_g12 (F64.sub (F64.of_decimal false 25 (-1))
                                       (F64.of_decimal false 15 (-1)))
      /\ "-1" = F64.format_g12 (F64.sub (F64.of_decimal false 15 (-1))
                                        (F64.of_decimal false 25 (-1)))
      /\ negation_of (F64.sub (F64.of_decimal false 25 (-1)) (F64.of_decimal false 15 (-1)))
                     (F64.sub (F64.of_decimal false 15 (-1)) (F64.of_decimal false 25 (-1)))).
Proof.
  exact (proj2 (compare_values_symmetric "1.5" "2.5" F64.zero)
           (F64.of_decimal false 15 (-1)) (F64.of_decimal false 25 (-1))
           false "1" false "-1"
           eq_refl eq_refl eq_refl eq_refl).
Defined.

(** ** C4: compare *)

(** The comparator returns for every tolerance that is not negative. *)
Lemma compare_values_total expected actual tol :
  F64.ltb tol F64.zero = false ->
  exists is_match delta, compare_values expected actual tol = Ok (is_match, delta).
Proof.
  intro T. unfold compare_values.
  destruct (String.eqb (Py.strip expected) (Py.strip actual)); [eauto |].
  destruct (to_float_or_none (Py.strip expected)) as [x |]; [| eauto].
  destruct (to_float_or_none (Py.strip actual)) as [y |]; [| eauto].
  unfold F64.isclose. rewrite T. cbn [orb].
  destruct (F64.eqb x y); [eauto |].
  destruct (F64.is_inf x || F64.is_inf y); [eauto |].
  destruct (F64.leb (F64.abs (F64.sub y x)) (F64.abs (F64.mul tol y))
            || F64.leb (F64.abs (F64.sub y x)) (F64.abs (F64.mul tol x))
            || F64.leb (F64.abs (F64.sub y x)) tol); eauto.
Qed.

(** The only exception of the comparator is the [ValueError] of
    [math.isclose]. *)
Lemma compare_values_raise expected actual tol e :
  compare_values expected actual tol = Raise e -> e = ValueError.
Proof.
  unfold compare_values.
  destruct (String.eqb (Py.strip expected) (Py.strip actual)); [discriminate |].
  destruct (to_float_or_none (Py.strip expected)) as [x |]; [| discriminate].
  destruct (to_float_or_none (Py.strip actual)) as [y |]; [| discriminate].
  unfold F64.isclose.
  destruct (F64.ltb tol F64.zero || F64.ltb tol F64.zero); [intros [= <-]; reflexivity |].
  destruct (F64.eqb x y); [discriminate |].
  destruct (F64.is_inf x || F64.is_inf y); [discriminate |].
  destruct (F64.leb (F64.abs (F64.sub y x)) (F64.abs (F64.mul tol y))
            || F64.leb (F64.abs (F64.sub y x)) (F64.abs (F64.mul tol x))
            || F64.leb (F64.abs (F64.sub y x)) tol); discriminate.
Qed.

(** The comparison of a row raises exactly when the tolerance is negative
    and the expected value and the answer are numbers of different text. *)
Lemma row_raises_cases tol r actual :
  row_raises tol r actual = true
  <-> (cmp_skipped r = false /\ actual <> EmptyString
       /\ F64.ltb tol F64.zero = true
       /\ Py.strip (row_value_text r) <> Py.strip actual
       /\ to_float_or_none (Py.strip (row_value_text r)) <> None
       /\ to_float_or_none (Py.strip actual) <> None).
Proof.
  unfold row_raises, compare_values.
  destruct (cmp_skipped r); cbn [negb andb]; [intuition discriminate |].
  destruct (String.eqb_spec actual "") as [E | N]; cbn [negb andb];
    [intuition (discriminate || congruence) |].
  destruct (String.eqb_spec (Py.strip (row_value_text r)) (Py.strip actual)) as [E | N'];
    [intuition (discriminate || congruence) |].
  destruct (to_float_or_none (Py.strip (row_value_text r))) as [x |];
    [| intuition (discriminate || congruence)].
  destruct (to_float_or_none (Py.strip actual)) as [y |];
    [| intuition (discriminate || congruence)].
  unfold F64.isclose. destruct (F64.ltb tol F64.zero); cbn [orb].
  - intuition (discriminate || congruence).
  - destruct (F64.eqb x y); [intuition discriminate |].
    destruct (F64.is_inf x || F64.is_inf y); [intuition discriminate |].
    destruct (F64.leb (F64.abs (F64.sub y x)) (F64.abs (F64.mul tol y))
              || F64.leb (F64.abs (F64.sub y x)) (F64.abs (F64.mul tol x))
              || F64.leb (F64.abs (F64.sub y x)) tol); intuition discriminate.
Qed.

Lemma compare_row_eq cfg tol r acc w :
  no_faults w = true -> row_raises tol r (response_of (next_raw w)) = false ->
  exists w1,
    compare_row cfg tol r acc w
    = (Ok (acc_plus acc [report_of tol r (response_of (next_raw w))]), w1)
    /\ no_faults w1 = true
    /\ ser_lines (w_ser w1)
       = (if cmp_skipped r then ser_lines (w_ser w) else tl (ser_lines (w_ser w))).
Proof.
  intros F T. unfold compare_row.
  fold (row_key_text r) (row_read_text r) (row_value_text r).
  unfold row_raises in T.
  unfold report_of, row_status, acc_plus, count_status.
  change (String.eqb (row_read_text r) "" || String.eqb (row_value_text r) "")
    with (cmp_skipped r).
  assert (A0 : forall n, n + 0 = n) by (intro; lia).
  assert (A1 : forall n, n + 1 = S n) by (intro; lia).
  destruct (cmp_skipped r) eqn:K.
  - unfold bind. rewrite log_write_eq. eexists.
    split; [cbn; unfold ret; rewrite !A0, !A1; reflexivity |].
    split; [exact F | reflexivity].
  - unfold bind at 1. rewrite try_query_no_faults by exact F.
    destruct (String.eqb (response_of (next_raw w)) "") eqn:E; cbn [negb andb] in T |- *.
    + unfold bind. rewrite log_write_eq. eexists.
      split; [cbn; unfold ret; rewrite !A0, !A1; reflexivity |].
      split; [apply no_faults_after_query; exact F | reflexivity].
    + destruct (compare_values (row_value_text r) (response_of (next_raw w)) tol)
        as [[[] delta] | e]; [| | discriminate T]; cbn [verdict].
      * unfold bind. rewrite log_write_eq. eexists.
        split; [cbn; unfold ret; rewrite !A0, !A1; reflexivity |].
        split; [apply no_faults_after_query; exact F | reflexivity].
      * unfold bind. rewrite log_write_eq. eexists.
        split; [cbn; unfold ret; rewrite !A0, !A1; reflexivity |].
        split; [apply no_faults_after_query; exact F | reflexivity].
Qed.

(** A comparison that raises leaves the loop body: nothing is added to the
    report or to the counts. *)
Lemma compare_row_raises cfg tol r acc w :
  no_faults w = true -> row_raises tol r (response_of (next_raw w)) = true ->
  exists w1, compare_row cfg tol r acc w = (Raise ValueError, w1).
Proof.
  intros F T. unfold compare_row.
  fold (row_key_text r) (row_read_text r) (row_value_text r).
  unfold row_raises in T.
  change (String.eqb (row_read_text r) "" || String.eqb (row_value_text r) "")
    with (cmp_skipped r).
  destruct (cmp_skipped r); [discriminate T |].
  unfold bind at 1. rewrite try_query_no_faults by exact F.
  destruct (String.eqb (response_of (next_raw w)) ""); [discriminate T |].
  cbn [negb andb] in T |- *.
  destruct (compare_values (row_value_text r) (response_of (next_raw w)) tol)
    as [p | e] eqn:V; [discriminate T |].
  apply compare_values_raise in V. subst e. eexists. reflexivity.
Qed.

Lemma count_status_cons status rep reps :
  count_status status (rep :: reps)
  = count_status status [rep] + count_status status reps.
Proof.
  unfold count_status. cbn [filter].
  destruct (String.eqb (rep_status rep) status); reflexivity.
Qed.

Lemma acc_plus_cons acc rep reps :
  acc_plus (acc_plus acc [rep]) reps = acc_plus acc (rep :: reps).
Proof.
  unfold acc_plus. cbn [c_results c_match c_mismatch c_skip c_read_fail].
  rewrite !(count_status_cons _ rep reps), <- app_assoc, !Nat.add_assoc. reflexivity.
Qed.

Lemma acc_plus_nil acc : acc_plus acc [] = acc.
Proof.
  destruct acc. unfold acc_plus, count_status. cbn.
  now rewrite app_nil_r, !Nat.add_0_r.
Qed.

(** The loop stops with [ValueError] at the first comparison that raises;
    when none does it goes through every row. *)
Lemma compare_loop cfg tol rows : forall acc w,
  no_faults w = true ->
  exists w',
    for_each rows (compare_row cfg tol) acc w
    = (if any_raises tol rows (ser_lines (w_ser w)) then Raise ValueError
       else Ok (acc_plus acc (classify tol rows (ser_lines (w_ser w)))), w').
Proof.
  induction rows as [| r rows IH]; intros acc w F.
  - exists w. cbn. now rewrite acc_plus_nil.
  - cbn [for_each any_raises classify]. fold (next_raw w). unfold bind at 1.
    destruct (row_raises tol r (response_of (next_raw w))) eqn:T; cbn [orb].
    + destruct (compare_row_raises cfg tol r acc w F T) as [w1 E].
      exists w1. now rewrite E.
    + destruct (compare_row_eq cfg tol r acc w F T) as [w1 [E [F1 L1]]].
      destruct (IH (acc_plus acc [report_of tol r (response_of (next_raw w))]) w1 F1)
        as [w' E'].
      rewrite L1 in E'. exists w'. rewrite E, E'.
      destruct (any_raises tol rows (if cmp_skipped r then _ else _)); [reflexivity |].
      rewrite acc_plus_cons. reflexivity.
Qed.

Lemma classify_length tol rows : forall lines,
  List.length (classify tol rows lines) = List.length rows.
Proof. induction rows as [| r rows IH]; intro lines; cbn; [| rewrite IH]; reflexivity. Qed.

Lemma nth_tl {A} (l : list A) k d : nth k (tl l) d = nth (S k) l d.
Proof. destruct l; [now destruct k | reflexivity]. Qed.

Lemma classify_nth tol rows : forall lines n r,
  nth_error rows n = Some r ->
  nth_error (classify tol rows lines) n
  = Some (report_of tol r (response_of (nth (line_index rows n) lines EmptyString))).
Proof.
  induction rows as [| r0 rows IH]; intros lines n r H.
  - now destruct n.
  - destruct n as [| n]; cbn in H.
    + injection H as <-. cbn. now destruct lines.
    + cbn [classify nth_error]. rewrite (IH _ n r H).
      unfold line_index. cbn [firstn filter].
      destruct (cmp_skipped r0); cbn [negb List.length]; [reflexivity |].
      now rewrite nth_tl.
Qed.

(** Some comparison raises exactly when the comparison of some row with the
    answer to its own re-query does. *)
Lemma any_raises_nth tol rows : forall lines n r,
  nth_error rows n = Some r ->
  row_raises tol r (response_of (nth (line_index rows n) lines EmptyString)) = true ->
  any_raises tol rows lines = true.
Proof.
  induction rows as [| r0 rows IH]; intros lines n r H T.
  - now destruct n.
  - cbn [any_raises]. apply orb_true_iff.
    destruct n as [| n]; cbn in H.
    + injection H as <-. left. revert T. unfold line_index. cbn.
      now destruct lines.
    + right. apply (IH _ n r H). revert T.
      unfold line_index. cbn [firstn filter].
      destruct (cmp_skipped r0); cbn [negb List.length]; [trivial |].
      now rewrite nth_tl.
Qed.

Lemma any_raises_none tol rows : forall lines,
  (forall n r,
      nth_error rows n = Some r ->
      row_raises tol r (response_of (nth (line_index rows n) lines EmptyString)) = false) ->
  any_raises tol rows lines = false.
Proof.
  induction rows as [| r0 rows IH]; intros lines H; [reflexivity |].
  cbn [any_raises]. apply orb_false_iff. split.
  - specialize (H 0 r0 eq_refl). revert H. unfold line_index. cbn. now destruct lines.
  - apply IH. intros n r Hn. specialize (H (S n) r Hn). revert H.
    unfold line_index. cbn [firstn filter].
    destruct (cmp_skipped r0); cbn [negb List.length]; [trivial |].
    now rewrite nth_tl.
Qed.

Lemma row_status_four tol r actual :
  In (row_status tol r actual) ["match"; "mismatch"; "read_fail"; "skipped"].
Proof.
  unfold row_status. destruct (cmp_skipped r); [cbn; auto |].
  destruct (String.eqb actual ""); [cbn; auto |].
  destruct (verdict _) as [[] |]; cbn; auto.
Qed.

(** The four statuses, by the row and the answer. *)
Lemma row_status_cases tol r actual :
  (row_status tol r actual = "skipped" <-> cmp_skipped r = true)
  /\ (row_status tol r actual = "read_fail"
      <-> cmp_skipped r = false /\ actual = EmptyString)
  /\ (row_status tol r actual = "match"
      <-> cmp_skipped r = false /\ actual <> EmptyString
          /\ verdict (compare_values (row_value_text r) actual tol) = Ok true)
  /\ (row_status tol r actual = "mismatch"
      <-> cmp_skipped r = false /\ actual <> EmptyString
          /\ verdict (compare_values (row_value_text r) actual tol) <> Ok true).
Proof.
  unfold row_status. destruct (cmp_skipped r).
  - repeat split; intros; try discriminate; intuition discriminate.
  - destruct (String.eqb_spec actual "") as [E | N].
    + repeat split; intros; try discriminate; intuition (discriminate || congruence).
    + destruct (verdict _) as [[] |];
        repeat split; intros; try discriminate; intuition (discriminate || congruence).
Qed.

Lemma count_status_total reps :
  Forall (fun rep => In (rep_status rep) ["match"; "mismatch"; "read_fail"; "skipped"]) reps ->
  count_status "match" reps + count_status "mismatch" reps
  + count_status "read_fail" reps + count_status "skipped" reps
  = List.length reps.
Proof.
  induction 1 as [| rep reps H _ IH]; [reflexivity |].
  rewrite !(count_status_cons _ rep reps). cbn [List.length].
  assert (count_status "match" [rep] + count_status "mismatch" [rep]
          + count_status "read_fail" [rep] + count_status "skipped" [rep] = 1).
  { unfold count_status. cbn [filter].
    destruct H as [<- | [<- | [<- | [<- | []]]]]; reflexivity. }
  lia.
Qed.

Lemma classify_statuses tol rows : forall lines,
  Forall (fun rep => In (rep_status rep) ["match"; "mismatch"; "read_fail"; "skipped"])
         (classify tol rows lines).
Proof.
  induction rows as [| r rows IH]; intro lines; cbn [classify]; constructor.
  - apply row_status_four.
  - apply IH.
Qed.

Lemma compare_from_csv_eq env cfg rows tol w :
  no_faults w = true ->
  exists w',
    compare_from_csv env cfg rows tol w
    = (if any_raises tol rows (tl (ser_lines (w_ser w))) then Raise ValueError
       else
         Ok (classify tol rows (tl (ser_lines (w_ser w))),
             mk_compare_stats
               (count_status "match" (classify tol rows (tl (ser_lines (w_ser w)))))
               (count_status "mismatch" (classify tol rows (tl (ser_lines (w_ser w)))))
               (count_status "read_fail" (classify tol rows (tl (ser_lines (w_ser w)))))
               (count_status "skipped" (classify tol rows (tl (ser_lines (w_ser w)))))
               (List.length (classify tol rows (tl (ser_lines (w_ser w)))))),
       w').
Proof.
  intros F. unfold compare_from_csv.
  unfold bind at 1. rewrite log_write_eq.
  unfold bind at 1. rewrite try_query_no_faults by exact F.
  unfold bind at 1. rewrite log_write_eq.
  unfold bind at 1.
  match goal with
  | |- context [for_each rows _ _ ?w0] =>
      destruct (compare_loop cfg tol rows (mk_cacc [] 0 0 0 0) w0) as [w1 E];
      [apply no_faults_after_query; exact F |]; rewrite E
  end.
  cbn [logged w_ser]. rewrite lines_after_query. cbn [logged w_ser].
  destruct (any_raises tol rows (tl (ser_lines (w_ser w)))).
  - exists w1. reflexivity.
  - unfold bind. rewrite log_write_eq. eexists. reflexivity.
Qed.

(** C4: on a port that raises nothing, and for every tolerance, compare
    either goes through every row or stops with [ValueError].
    (1) When no comparison raises, compare returns, and its report has
    exactly one row per snapshot row, in order, whose status is one of the
    four: [skipped] exactly when the trimmed read command or the trimmed
    expected value is empty, else [read_fail] exactly when the answer to the
    re-query is empty, else [match] or [mismatch] as the comparator says; the
    four counts are the numbers of rows of each status and add up to the
    total, the number of snapshot rows.
    (2) When the comparison of some row with the answer to its re-query
    raises, [ValueError] leaves compare: there is no report and there are no
    counts.
    (3) A comparison raises exactly when the row is not skipped, its re-query
    is answered, the tolerance is negative and the expected value and the
    answer are numbers of different text; so none does for a tolerance that
    is not negative, and then the comparator returns a verdict.
    (4) The four statuses, by the row and the answer.
    (5) For three rows A (read command, value and an answer), B (empty value)
    and C (no answer): when the comparison of A does not raise, there is one
    match-or-mismatch row, one skipped row, one read_fail row and total 3;
    when it raises, compare raises [ValueError]. *)
Theorem compare_classifies_every_row :
  forall env cfg tol w,
    no_faults w = true ->
    (forall rows,
        (forall n r,
            nth_error rows n = Some r ->
            row_raises tol r
              (response_of (nth (line_index rows n)
                                (tl (ser_lines (w_ser w))) EmptyString)) = false) ->
        exists reps stats w',
          compare_from_csv env cfg rows tol w = (Ok (reps, stats), w')
          /\ List.length reps = List.length rows
          /\ (forall n r,
                 nth_error rows n = Some r ->
                 exists rep,
                   nth_error reps n = Some rep
                   /\ rep_key rep = row_key_text r
                   /\ rep_status rep
                      = row_status tol r
                          (response_of (nth (line_index rows n)
                                            (tl (ser_lines (w_ser w))) EmptyString))
                   /\ In (rep_status rep) ["match"; "mismatch"; "read_fail"; "skipped"])
          /\ cst_match stats = count_status "match" reps
          /\ cst_mismatch stats = count_status "mismatch" reps
          /\ cst_read_fail stats = count_status "read_fail" reps
          /\ cst_skipped stats = count_status "skipped" reps
          /\ cst_total stats = List.length rows
          /\ cst_match stats + cst_mismatch stats + cst_read_fail stats + cst_skipped stats
             = cst_total stats)
    /\ (forall rows n r,
           nth_error rows n = Some r ->
           row_raises tol r
             (response_of (nth (line_index rows n)
                               (tl (ser_lines (w_ser w))) EmptyString)) = true ->
           exists w', compare_from_csv env cfg rows tol w = (Raise ValueError, w'))
    /\ (forall r actual,
           (row_raises tol r actual = true
            <-> (cmp_skipped r = false /\ actual <> EmptyString
                 /\ F64.ltb tol F64.zero = true
                 /\ Py.strip (row_value_text r) <> Py.strip actual
                 /\ to_float_or_none (Py.strip (row_value_text r)) <> None
                 /\ to_float_or_none (Py.strip actual) <> None))
           /\ (F64.ltb tol F64.zero = false -> row_raises tol r actual = false)
           /\ (row_raises tol r actual = false ->
               cmp_skipped r = false -> actual <> EmptyString ->
               exists is_match,
                 verdict (compare_values (row_value_text r) actual tol) = Ok is_match))
    /\ (forall r actual,
           (row_status tol r actual = "skipped" <-> cmp_skipped r = true)
           /\ (row_status tol r actual = "read_fail"
               <-> cmp_skipped r = false /\ actual = EmptyString)
           /\ (row_status tol r actual = "match"
               <-> cmp_skipped r = false /\ actual <> EmptyString
                   /\ verdict (compare_values (row_value_text r) actual tol) = Ok true)
           /\ (row_status tol r actual = "mismatch"
               <-> cmp_skipped r = false /\ actual <> EmptyString
                   /\ verdict (compare_values (row_value_text r) actual tol) <> Ok true))
    /\ (forall ra rb rc,
           cmp_skipped ra = false ->
           row_value_text rb = EmptyString ->
           cmp_skipped rc = false ->
           response_of (nth 0 (tl (ser_lines (w_ser w))) EmptyString) <> EmptyString ->
           response_of (nth 1 (tl (ser_lines (w_ser w))) EmptyString) = EmptyString ->
           (row_raises tol ra
              (response_of (nth 0 (tl (ser_lines (w_ser w))) EmptyString)) = false ->
            exists sa reps stats w',
              compare_from_csv env cfg [ra; rb; rc] tol w = (Ok (reps, stats), w')
              /\ map rep_status reps = [sa; "skipped"; "read_fail"]
              /\ (sa = "match" \/ sa = "mismatch")
              /\ cst_match stats + cst_mismatch stats = 1
              /\ cst_skipped stats = 1
              /\ cst_read_fail stats = 1
              /\ cst_total stats = 3)
           /\ (row_raises tol ra
                 (response_of (nth 0 (tl (ser_lines (w_ser w))) EmptyString)) = true ->
               exists w',
                 compare_from_csv env cfg [ra; rb; rc] tol w = (Raise ValueError, w'))).
Proof.
  intros env cfg tol w F. split; [| split; [| split; [| split]]].
  - intros rows NR. destruct (compare_from_csv_eq env cfg rows tol w F) as [w' E].
    rewrite (any_raises_none tol rows _ NR) in E.
    eexists. eexists. exists w'. split; [exact E |].
    cbn [cst_match cst_mismatch cst_read_fail cst_skipped cst_total].
    split; [apply classify_length |].
    split.
    { intros n r H. eexists. split; [apply classify_nth; exact H |].
      split; [reflexivity |]. split; [reflexivity | apply row_status_four]. }
    repeat (split; [reflexivity |]).
    split; [apply classify_length |].
    rewrite count_status_total by apply classify_statuses. reflexivity.
  - intros rows n r H T. destruct (compare_from_csv_eq env cfg rows tol w F) as [w' E].
    rewrite (any_raises_nth tol rows _ n r H T) in E. exists w'. exact E.
  - intros r actual. split; [apply row_raises_cases |]. split.
    + intro T. destruct (row_raises tol r actual) eqn:R; [| reflexivity].
      apply row_raises_cases in R. destruct R as [_ [_ [R _]]]. congruence.
    + unfold row_raises. intros T K N. rewrite K in T.
      apply String.eqb_neq in N. rewrite N in T. cbn [negb andb] in T.
      destruct (compare_values (row_value_text r) actual tol) as [[m d] | e];
        [| discriminate T]. exists m. reflexivity.
  - intros r actual. apply row_status_cases.
  - intros ra rb rc Ka Vb Kc Ra Rc.
    destruct (compare_from_csv_eq env cfg [ra; rb; rc] tol w F) as [w' E].
    assert (Kb : cmp_skipped rb = true)
      by (unfold cmp_skipped; rewrite Vb; apply orb_true_r).
    set (lines := tl (ser_lines (w_ser w))) in *.
    assert (Ha : hd EmptyString lines = nth 0 lines EmptyString) by now destruct lines.
    assert (Hc : hd EmptyString (tl lines) = nth 1 lines EmptyString)
      by (destruct lines as [| l0 [| l1 ls]]; reflexivity).
    assert (AR : any_raises tol [ra; rb; rc] lines
                 = row_raises tol ra (response_of (nth 0 lines EmptyString))).
    { cbn [any_raises]. rewrite Ka, Kb, Ha, Hc, Rc.
      unfold row_raises at 2 3. rewrite Kb, Kc. cbn [negb andb String.eqb].
      now rewrite !orb_false_r. }
    rewrite AR in E. split; intro T; rewrite T in E; [| exists w'; exact E].
    assert (C3 : map rep_status (classify tol [ra; rb; rc] lines)
                 = [row_status tol ra (response_of (nth 0 lines EmptyString));
                    "skipped"; "read_fail"]).
    { cbn [classify map]. rewrite Ka, Kb. cbn [report_of rep_status].
      rewrite Ha, Hc, Rc. unfold row_status at 2 3. rewrite Kb, Kc. reflexivity. }
    assert (Sa : row_status tol ra (response_of (nth 0 lines EmptyString)) = "match"
                 \/ row_status tol ra (response_of (nth 0 lines EmptyString)) = "mismatch").
    { unfold row_status. rewrite Ka.
      destruct (String.eqb_spec (response_of (nth 0 lines EmptyString)) "") as [E0 | _];
        [contradiction |].
      destruct (verdict _) as [[] |]; auto. }
    exists (row_status tol ra (response_of (nth 0 lines EmptyString))).
    eexists. eexists. exists w'. split; [exact E |].
    cbn [cst_match cst_mismatch cst_read_fail cst_skipped cst_total].
    split; [exact C3 |]. split; [exact Sa |].
    assert (CS : forall st,
               count_status st (classify tol [ra; rb; rc] lines)
               = List.length (filter (fun x => String.eqb x st)
                                (map rep_status (classify tol [ra; rb; rc] lines)))).
    { intro st. unfold count_status.
      generalize (classify tol [ra; rb; rc] lines). intro l.
      induction l as [| x l IH]; cbn; [reflexivity |].
      destruct (String.eqb (rep_status x) st); cbn; now rewrite IH. }
    rewrite !CS, C3. rewrite classify_length.
    destruct Sa as [-> | ->]; repeat split; reflexivity.
Qed.

Lemma compare_classifies_every_row_witness :
  (exists sa reps stats w',
      compare_from_csv (mk_env "Wed Nov  4 10:00:00 2026" (fun _ => "1e-06"))
                       (mk_cfg "COM5" 9600 8 "N" 1 F64.one F64.one LF)
                       [mk_row (Some "FRQ") (Some "$FRQ?") (Some "$FRQ") (Some "global")
                               (Some "1.5") (Some "ppm");
                        mk_row (Some "RND") (Some "$RND?") (Some "$RND") (Some "global")
                               (Some "") None;
                        mk_row (Some "CBT[0]") (Some "$CBT? 0") (Some "$CBT 0")
                               (Some "global") (Some "12") None]
                       tol_1e_6
                       (mk_world (mk_serial [] ["SR720" ++ LF; "1.50" ++ LF; ""] []) [])
      = (Ok (reps, stats), w')
      /\ map rep_status reps = [sa; "skipped"; "read_fail"]
      /\ (sa = "match" \/ sa = "mismatch")
      /\ cst_match stats + cst_mismatch stats = 1
      /\ cst_skipped stats = 1
      /\ cst_read_fail stats = 1
      /\ cst_total stats = 3)
  /\ (exists sa reps stats w',
         compare_from_csv (mk_env "Wed Nov  4 10:00:00 2026" (fun _ => "-1.0"))
                          (mk_cfg "COM5" 9600 8 "N" 1 F64.one F64.one LF)
                          [mk_row (Some "FRQ") (Some "$FRQ?") (Some "$FRQ") (Some "global")
                                  (Some "1.5") (Some "ppm");
                           mk_row (Some "RND") (Some "$RND?") (Some "$RND") (Some "global")
                                  (Some "") None;
                           mk_row (Some "CBT[0]") (Some "$CBT? 0") (Some "$CBT 0")
                                  (Some "global") (Some "12") None]
                          (F64.opp F64.one)
                          (mk_world (mk_serial [] ["SR720" ++ LF; "1.5" ++ LF; ""] []) [])
         = (Ok (reps, stats), w')
         /\ map rep_status reps = [sa; "skipped"; "read_fail"]
         /\ (sa = "match" \/ sa = "mismatch")
         /\ cst_match stats + cst_mismatch stats = 1
         /\ cst_skipped stats = 1
         /\ cst_read_fail stats = 1
         /\ cst_total stats = 3).
Proof.
  split.
  - apply (proj2 (proj2 (proj2 (proj2 (compare_classifies_every_row
             (mk_env "Wed Nov  4 10:00:00 2026" (fun _ => "1e-06"))
             (mk_cfg "COM5" 9600 8 "N" 1 F64.one F64.one LF)
             tol_1e_6
             (mk_world (mk_serial [] ["SR720" ++ LF; "1.50" ++ LF; ""] []) [])
             eq_refl)))));
      try reflexivity.
    vm_compute. discriminate.
  - apply (proj2 (proj2 (proj2 (proj2 (compare_classifies_every_row
             (mk_env "Wed Nov  4 10:00:00 2026" (fun _ => "-1.0"))
             (mk_cfg "COM5" 9600 8 "N" 1 F64.one F64.one LF)
             (F64.opp F64.one)
             (mk_world (mk_serial [] ["SR720" ++ LF; "1.5" ++ LF; ""] []) [])
             eq_refl)))));
      try reflexivity.
    vm_compute. discriminate.
Defined.

(** C4 as stated fails for a negative tolerance, which [--tol] accepts: in
    the three-row example with the value [1.5] of row A answered by [1.50],
    the comparison of A raises [ValueError], which leaves compare: no row
    gets a status and no counts are returned. *)
Lemma compare_raises_on_a_negative_tolerance :
  fst (compare_from_csv (mk_env "Wed Nov  4 10:00:00 2026" (fun _ => "-1.0"))
                        (mk_cfg "COM5" 9600 8 "N" 1 F64.one F64.one LF)
                        [mk_row (Some "FRQ") (Some "$FRQ?") (Some "$FRQ") (Some "global")
                                (Some "1.5") (Some "ppm");
                         mk_row (Some "RND") (Some "$RND?") (Some "$RND") (Some "global")
                                (Some "") None;
                         mk_row (Some "CBT[0]") (Some "$CBT? 0") (Some "$CBT 0")
                                (Some "global") (Some "12") None]
                        (F64.opp F64.one)
                        (mk_world (mk_serial [] ["SR720" ++ LF; "1.50" ++ LF; ""] []) []))
  = Raise ValueError
  /\ F64.ltb (F64.opp F64.one) F64.zero = true.
Proof. repeat split; vm_compute; reflexivity. Qed.

(** ** C3: the three steps of the comparator *)

Lemma str_app_nonempty_r (a b : string) : b <> EmptyString -> a ++ b <> EmptyString.
Proof. intro H. destruct a; [exact H | discriminate]. Qed.

Lemma str_app_nonempty_l (a b : string) : a <> EmptyString -> a ++ b <> EmptyString.
Proof. intro H. destruct a; [contradiction | discriminate]. Qed.

Lemma layout_g_nonempty precision digits decpt :
  F64.layout_g precision digits decpt <> EmptyString.
Proof.
  unfold F64.layout_g.
  destruct ((decpt <=? -4)%Z || (precision <? decpt)%Z).
  - apply str_app_nonempty_r, str_app_nonempty_r. discriminate.
  - destruct (decpt <=? 0)%Z eqn:D0; [discriminate |].
    destruct (decpt <? Z.of_nat (String.length digits))%Z eqn:D1.
    + apply str_app_nonempty_r. discriminate.
    + destruct digits as [| c d]; [| discriminate].
      apply Z.leb_gt in D0. cbn [String.length Z.of_nat append].
      rewrite Z.sub_0_r. destruct (Z.to_nat decpt) eqn:N; [lia | discriminate].
Qed.

Lemma format_g12_nonempty x : F64.format_g12 x <> EmptyString.
Proof.
  unfold F64.format_g12. apply str_app_nonempty_r.
  destruct x as [s | s | | s m e]; try discriminate.
  unfold F64.format_abs_g12. destruct (F64.dtoa 12 m e) as [d p].
  apply layout_g_nonempty.
Qed.

Lemma compare_values_numbers expected actual tol x y :
  F64.ltb tol F64.zero = false ->
  Py.strip expected <> Py.strip actual ->
  to_float_or_none (Py.strip expected) = Some x ->
  to_float_or_none (Py.strip actual) = Some y ->
  compare_values expected actual tol
  = Ok (within_tolerance x y tol, F64.format_g12 (F64.sub y x)).
Proof.
  intros T N X Y. unfold compare_values. apply String.eqb_neq in N. rewrite N, X, Y.
  unfold F64.isclose, within_tolerance. rewrite T. cbn [orb].
  destruct (F64.eqb x y); [reflexivity |].
  destruct (F64.is_inf x || F64.is_inf y); [reflexivity |]. cbn [negb andb orb].
  destruct (F64.leb (F64.abs (F64.sub y x)) (F64.abs (F64.mul tol y))
            || F64.leb (F64.abs (F64.sub y x)) (F64.abs (F64.mul tol x))
            || F64.leb (F64.abs (F64.sub y x)) tol); reflexivity.
Qed.

(** C3, as the code has it: for a tolerance that is not negative,
    [compare_values] (1) matches identical trimmed strings with an empty
    delta; (2) else reports a mismatch with an empty delta unless both trimmed
    strings parse as floats; (3) else, with [delta = actual - expected] in
    binary64, reports a match exactly when the two numbers are equal, or
    neither is infinite and [|delta|] is at most [|tol * actual|],
    [|tol * expected|] or [tol] (the closeness test of [math.isclose] with
    both tolerances [tol]), and the delta string is the non-empty rendering
    of [delta] with twelve significant digits whatever the verdict.  So
    [("1.0000", "1.0000001", 1e-6)] is a match with delta
    [1.00000000058e-07], [("abc", "abc", 0)] is a match and
    [("abc", "def", 1)] a mismatch with empty delta. *)
Theorem compare_values_three_steps :
  forall expected actual tol,
    F64.ltb tol F64.zero = false ->
    (Py.strip expected = Py.strip actual ->
     compare_values expected actual tol = Ok (true, EmptyString))
    /\ (Py.strip expected <> Py.strip actual ->
        to_float_or_none (Py.strip expected) = None
        \/ to_float_or_none (Py.strip actual) = None ->
        compare_values expected actual tol = Ok (false, EmptyString))
    /\ (forall x y,
           Py.strip expected <> Py.strip actual ->
           to_float_or_none (Py.strip expected) = Some x ->
           to_float_or_none (Py.strip actual) = Some y ->
           compare_values expected actual tol
           = Ok (within_tolerance x y tol, F64.format_g12 (F64.sub y x))
           /\ F64.format_g12 (F64.sub y x) <> EmptyString)
    /\ compare_values "1.0000" "1.0000001" tol_1e_6 = Ok (true, "1.00000000058e-07")
    /\ compare_values "abc" "abc" F64.zero = Ok (true, EmptyString)
    /\ compare_values "abc" "def" F64.one = Ok (false, EmptyString).
Proof.
  intros expected actual tol T. split; [| split; [| split]].
  - intro E. unfold compare_values. rewrite E, String.eqb_refl. reflexivity.
  - intros N P. unfold compare_values. apply String.eqb_neq in N. rewrite N.
    destruct P as [P | P]; rewrite P; [reflexivity |].
    destruct (to_float_or_none (Py.strip expected)); reflexivity.
  - intros x y N X Y. split; [now apply compare_values_numbers | apply format_g12_nonempty].
  - repeat split; vm_compute; reflexivity.
Qed.

Lemma compare_values_three_steps_witness :
  compare_values "2.5" " 2.75" tol_1e_6
  = Ok (within_tolerance (F64.of_decimal false 25 (-1)) (F64.of_decimal false 275 (-2)) tol_1e_6,
        F64.format_g12 (F64.sub (F64.of_decimal false 275 (-2)) (F64.of_decimal false 25 (-1))))
  /\ F64.format_g12 (F64.sub (F64.of_decimal false 275 (-2)) (F64.of_decimal false 25 (-1)))
     <> EmptyString.
Proof.
  apply (proj1 (proj2 (proj2 (compare_values_three_steps "2.5" " 2.75" tol_1e_6 eq_refl)))).
  - vm_compute. discriminate.
  - reflexivity.
  - reflexivity.
Defined.

(** C3 as stated fails on infinities: the two spellings of infinity are
    different strings and equal numbers, so the code reports a match (with
    delta [nan]), while [|delta| <= tol * max(...)] is false for a delta that
    is not a number. *)
Lemma compare_values_infinity_spellings :
  compare_values "inf" "Infinity" tol_1e_6 = Ok (true, "nan")
  /\ compare_spec "inf" "Infinity" tol_1e_6 = (false, "nan").
Proof. split; vm_compute; reflexivity. Qed.

(** ** Binary64 rounding *)

Section Rounding_facts.

Import Round.
Local Open Scope Z_scope.
Local Notation "'fexp64'" := (fexp F64.prec F64.emax).

Lemma fexp64_eq e : fexp64 e = Z.max (e - 53) (-1074).
Proof. reflexivity. Qed.

Lemma digits2_pos_bounds p :
  2 ^ (Z.pos (digits2_pos p) - 1) <= Z.pos p < 2 ^ Z.pos (digits2_pos p).
Proof.
  induction p as [p IH | p IH |]; cbn [digits2_pos].
  - rewrite Pos2Z.inj_succ, Z.pow_succ_r by lia.
    replace (Z.succ (Z.pos (digits2_pos p)) - 1) with (Z.succ (Z.pos (digits2_pos p) - 1)) by lia.
    rewrite Z.pow_succ_r by lia. lia.
  - rewrite Pos2Z.inj_succ, Z.pow_succ_r by lia.
    replace (Z.succ (Z.pos (digits2_pos p)) - 1) with (Z.succ (Z.pos (digits2_pos p) - 1)) by lia.
    rewrite Z.pow_succ_r by lia. lia.
  - cbn. lia.
Qed.

Lemma Zdigits2_bounds m :
  0 < m -> 2 ^ (Zdigits2 m - 1) <= m < 2 ^ Zdigits2 m.
Proof. destruct m as [| p | p]; try lia. intros _. apply digits2_pos_bounds. Qed.

Lemma Zdigits2_pos m : 0 < m -> 0 < Zdigits2 m.
Proof. destruct m; cbn; lia. Qed.

Lemma Zdigits2_unique m d :
  0 < d -> 2 ^ (d - 1) <= m < 2 ^ d -> Zdigits2 m = d.
Proof.
  intros Hd [Hl Hu].
  assert (Hm : 0 < m) by (assert (0 < 2 ^ (d - 1)) by (apply Z.pow_pos_nonneg; lia); lia).
  destruct (Zdigits2_bounds m Hm) as [Bl Bu].
  pose proof (Zdigits2_pos m Hm) as Hp.
  destruct (Z.lt_trichotomy (Zdigits2 m) d) as [L | [E | G]]; [| exact E |].
  - assert (2 ^ Zdigits2 m <= 2 ^ (d - 1)) by (apply Z.pow_le_mono_r; lia). lia.
  - assert (2 ^ d <= 2 ^ (Zdigits2 m - 1)) by (apply Z.pow_le_mono_r; lia). lia.
Qed.

Lemma Zdigits2_le m n : 0 < m -> m <= n -> Zdigits2 m <= Zdigits2 n.
Proof.
  intros Hm Hmn.
  destruct (Zdigits2_bounds m Hm) as [Bl _].
  destruct (Zdigits2_bounds n ltac:(lia)) as [_ Cu].
  destruct (Z.le_gt_cases (Zdigits2 m) (Zdigits2 n)) as [L | G]; [exact L |].
  assert (2 ^ Zdigits2 n <= 2 ^ (Zdigits2 m - 1)) by (apply Z.pow_le_mono_r; lia). lia.
Qed.

Lemma Zdigits2_shift m j : 0 < m -> 0 <= j -> Zdigits2 (m * 2 ^ j) = Zdigits2 m + j.
Proof.
  intros Hm Hj. pose proof (Zdigits2_pos m Hm). destruct (Zdigits2_bounds m Hm) as [Bl Bu].
  apply Zdigits2_unique; [lia |].
  replace (Zdigits2 m + j - 1) with ((Zdigits2 m - 1) + j) by lia.
  rewrite !Z.pow_add_r by lia.
  assert (0 < 2 ^ j) by (apply Z.pow_pos_nonneg; lia). nia.
Qed.

(** [iter_pos] as an iteration over [nat] *)
Lemma nat_iter_add {A} (f : A -> A) n m x :
  iter_nat f (n + m) x = iter_nat f n (iter_nat f m x).
Proof. induction n as [| n IH]; cbn; [reflexivity | now rewrite IH]. Qed.

Lemma iter_pos_nat {A} (f : A -> A) p x :
  iter_pos f p x = iter_nat f (Pos.to_nat p) x.
Proof.
  revert x. induction p as [p IH | p IH |]; intro x; cbn [iter_pos].
  - rewrite !IH, Pos2Nat.inj_xI.
    replace (S (2 * Pos.to_nat p)) with (Pos.to_nat p + (Pos.to_nat p + 1))%nat by lia.
    rewrite !nat_iter_add. reflexivity.
  - rewrite !IH, Pos2Nat.inj_xO.
    replace (2 * Pos.to_nat p)%nat with (Pos.to_nat p + Pos.to_nat p)%nat by lia.
    now rewrite nat_iter_add.
  - reflexivity.
Qed.

(** One shift to the right *)
Lemma shr_1_spec m r s :
  0 <= m ->
  exists q b, shr_1 (Build_shr_record m r s) = Build_shr_record q b (r || s)
              /\ m = 2 * q + (if b then 1 else 0) /\ 0 <= q.
Proof.
  intro H. destruct m as [| p | p]; [| | lia].
  - exists 0, false. cbn. repeat split; lia.
  - destruct p as [p | p |].
    + exists (Z.pos p), true. cbn. repeat split; lia.
    + exists (Z.pos p), false. cbn. repeat split; lia.
    + exists 0, true. cbn. repeat split; lia.
Qed.

Lemma shr_iter_exact m n :
  0 <= m ->
  exists q r s rem,
    iter_nat shr_1 n (Build_shr_record m false false) = Build_shr_record q r s
    /\ m = q * 2 ^ Z.of_nat n + rem /\ 0 <= rem < 2 ^ Z.of_nat n
    /\ loc_ok (2 ^ Z.of_nat n) rem r s /\ 0 <= q.
Proof.
  intro Hm. induction n as [| n IH].
  - exists m, false, false, 0. cbn. repeat split; lia.
  - destruct IH as [q [r [s [rem [E [Hq [Hr [Hl Hq0]]]]]]]].
    destruct (shr_1_spec q r s Hq0) as [q2 [b [E2 [Hq2 Hq20]]]].
    cbn [iter_nat]. rewrite E, E2.
    rewrite Nat2Z.inj_succ, Z.pow_succ_r by lia.
    set (P := 2 ^ Z.of_nat n) in *.
    assert (HP : 0 < P) by (apply Z.pow_pos_nonneg; lia).
    exists q2, b, (r || s), ((if b then P else 0) + rem).
    split; [reflexivity |].
    clearbody P. clear E E2.
    destruct b, r, s; unfold loc_ok in *; cbn [orb]; repeat split; try lia; nia.
Qed.

Lemma shr_m_iter m r s n :
  0 <= m ->
  shr_m (iter_nat shr_1 n (Build_shr_record m r s)) = m / 2 ^ Z.of_nat n
  /\ 0 <= m / 2 ^ Z.of_nat n.
Proof.
  intro Hm. revert r s. induction n as [| n IH]; intros r s.
  - cbn. rewrite Z.div_1_r. lia.
  - cbn [iter_nat]. destruct (IH r s) as [E Hq].
    destruct (iter_nat shr_1 n (Build_shr_record m r s)) as [q r' s'] eqn:It.
    cbn in E. subst q.
    destruct (shr_1_spec _ r' s' Hq) as [q2 [b [E2 [Hq2 Hq20]]]].
    rewrite E2. cbn [shr_m].
    rewrite Nat2Z.inj_succ, Z.pow_succ_r by lia.
    assert (HP : 0 < 2 ^ Z.of_nat n) by (apply Z.pow_pos_nonneg; lia).
    split; [| apply Z.div_pos; lia].
    rewrite (Z.mul_comm 2), <- Z.div_div by lia.
    apply Z.div_unique with (r := if b then 1 else 0); [destruct b; lia | lia].
Qed.

(** *** Rounding to nearest even, on integers *)

Lemma rne_bounds m P : 0 < P -> m / P <= rne m P <= m / P + 1.
Proof.
  intro HP. unfold rne.
  destruct (2 * (m mod P) <? P); [lia |].
  destruct (2 * (m mod P) =? P); [destruct (Z.even (m / P)); lia | lia].
Qed.

Lemma rne_mono m1 m2 P : 0 < P -> m1 <= m2 -> rne m1 P <= rne m2 P.
Proof.
  intros HP H.
  pose proof (Z.div_le_mono m1 m2 P HP H) as Hq.
  pose proof (rne_bounds m1 P HP) as B1.
  pose proof (rne_bounds m2 P HP) as B2.
  destruct (Z.eq_dec (m1 / P) (m2 / P)) as [Eq | Ne]; [| lia].
  assert (Hr : m1 mod P <= m2 mod P).
  { pose proof (Z.div_mod m1 P ltac:(lia)). pose proof (Z.div_mod m2 P ltac:(lia)).
    rewrite Eq in *. lia. }
  unfold rne. rewrite Eq.
  destruct (Z.ltb_spec (2 * (m1 mod P)) P); destruct (Z.ltb_spec (2 * (m2 mod P)) P);
    destruct (Z.eqb_spec (2 * (m1 mod P)) P); destruct (Z.eqb_spec (2 * (m2 mod P)) P);
    destruct (Z.even (m2 / P)); lia.
Qed.

Lemma rne_scale m P c : 0 < P -> 0 < c -> rne (m * c) (P * c) = rne m P.
Proof.
  intros HP Hc. unfold rne.
  rewrite Z.div_mul_cancel_r by lia.
  rewrite Z.mul_mod_distr_r by lia.
  destruct (Z.ltb_spec (2 * (m mod P)) P); destruct (Z.ltb_spec (2 * (m mod P * c)) (P * c));
    try nia; try reflexivity.
  destruct (Z.eqb_spec (2 * (m mod P)) P); destruct (Z.eqb_spec (2 * (m mod P * c)) (P * c));
    try nia; reflexivity.
Qed.

Lemma rne_exact m : rne m 1 = m.
Proof. unfold rne. rewrite Z.mod_1_r, Z.div_1_r. reflexivity. Qed.

Lemma rne_of_iter m n :
  0 <= m ->
  round_nearest_even (shr_m (iter_nat shr_1 n (Build_shr_record m false false)))
                     (loc_of_shr_record (iter_nat shr_1 n (Build_shr_record m false false)))
  = rne m (2 ^ Z.of_nat n).
Proof.
  intro Hm.
  destruct (shr_iter_exact m n Hm) as [q [r [s [rem [E [Hq [Hr [Hl Hq0]]]]]]]].
  rewrite E. cbn [shr_m].
  set (P := 2 ^ Z.of_nat n) in *.
  assert (HP : 0 < P) by (apply Z.pow_pos_nonneg; lia).
  assert (Dq : m / P = q) by (symmetry; apply Z.div_unique with (r := rem); lia).
  assert (Dr : m mod P = rem) by (symmetry; apply Z.mod_unique with (q := q); lia).
  unfold rne. rewrite Dq, Dr.
  destruct r, s; unfold loc_ok in Hl; cbn [loc_of_shr_record round_nearest_even].
  - destruct (Z.ltb_spec (2 * rem) P); [lia |]. destruct (Z.eqb_spec (2 * rem) P); [lia | reflexivity].
  - destruct (Z.ltb_spec (2 * rem) P); [lia |]. destruct (Z.eqb_spec (2 * rem) P); [reflexivity | lia].
  - destruct (Z.ltb_spec (2 * rem) P); [reflexivity | lia].
  - destruct (Z.ltb_spec (2 * rem) P); [reflexivity | lia].
Qed.

(** *** The two stages of [binary_round_aux] *)

Lemma shr_nonneg mrs e n :
  0 <= n -> shr mrs e n = (iter_nat shr_1 (Z.to_nat n) mrs, e + n).
Proof.
  intro H. destruct n as [| p | p]; [| | lia].
  - cbn. now rewrite Z.add_0_r.
  - cbn [shr]. rewrite iter_pos_nat. reflexivity.
Qed.

Lemma shr_nonpos mrs e n : n <= 0 -> shr mrs e n = (mrs, e).
Proof. intro H. destruct n as [| p | p]; [reflexivity | lia | reflexivity]. Qed.

Lemma second_stage s q E :
  0 <= q <= 2 ^ 53 -> -1074 <= E ->
  (let '(mrs, e) := shr_fexp F64.prec F64.emax q E loc_Exact in
   match shr_m mrs with
   | Z0 => S754_zero s
   | Zpos m => if Z.leb e (F64.emax - F64.prec) then S754_finite s m e else S754_infinity s
   | Zneg _ => S754_nan
   end) = fin s q E.
Proof.
  intros [Hq0 Hq] HE. unfold shr_fexp. cbn [shr_record_of_loc].
  change (F64.emax - F64.prec) with 971.
  destruct (Z.eq_dec q 0) as [-> | Hn].
  - rewrite shr_nonpos; [reflexivity |]. rewrite fexp64_eq. cbn [Zdigits2]. lia.
  - destruct (Z.eq_dec q (2 ^ 53)) as [-> | Hlt].
    + change (Zdigits2 (2 ^ 53)) with 54. rewrite fexp64_eq.
      replace (Z.max (54 + E - 53) (-1074) - E) with 1 by lia.
      cbn [shr iter_pos]. reflexivity.
    + assert (Hpos : 0 < q) by lia.
      assert (Hd : Zdigits2 q <= 53).
      { change 53 with (Zdigits2 (2 ^ 53 - 1)). apply Zdigits2_le; lia. }
      rewrite shr_nonpos by (rewrite fexp64_eq; lia).
      cbn [shr_m]. unfold fin. destruct q as [| p | p]; try lia.
      destruct (Z.ltb_spec (Z.pos p) (2 ^ 53)); [reflexivity | lia].
Qed.

Lemma shr_record_of_loc_eta m l :
  shr_record_of_loc m l
  = Build_shr_record m (shr_r (shr_record_of_loc m l)) (shr_s (shr_record_of_loc m l)).
Proof. destruct l as [| []]; reflexivity. Qed.

Lemma round_nearest_even_bounds q l : q <= round_nearest_even q l <= q + 1.
Proof. destruct l as [| []]; cbn; try lia. destruct (Z.even q); lia. Qed.

Lemma quotient_below m k :
  0 <= m -> 0 <= k -> Zdigits2 m - 53 <= k -> m / 2 ^ k < 2 ^ 53.
Proof.
  intros Hm Hk Hd.
  assert (HP : 0 < 2 ^ k) by (apply Z.pow_pos_nonneg; lia).
  apply Z.div_lt_upper_bound; [lia |].
  rewrite <- Z.pow_add_r by lia.
  destruct (Z.eq_dec m 0) as [-> | Hn]; [apply Z.pow_pos_nonneg; lia |].
  destruct (Zdigits2_bounds m ltac:(lia)) as [_ Bu].
  assert (2 ^ Zdigits2 m <= 2 ^ (k + 53)) by (apply Z.pow_le_mono_r; lia).
  lia.
Qed.

Lemma quotient_above m k :
  0 < m -> 0 <= k -> k = Zdigits2 m - 53 -> 2 ^ 52 <= m / 2 ^ k.
Proof.
  intros Hm Hk Hd.
  assert (HP : 0 < 2 ^ k) by (apply Z.pow_pos_nonneg; lia).
  apply Z.div_le_lower_bound; [lia |].
  rewrite <- Z.pow_add_r by lia.
  destruct (Zdigits2_bounds m Hm) as [Bl _].
  replace (k + 52) with (Zdigits2 m - 1) by lia. exact Bl.
Qed.

(** [binary_round_aux] on a mantissa not yet too short for its exponent:
    one shift to the target exponent, one rounding, one renormalisation. *)
Lemma bra_general s m e l :
  0 <= m -> e <= fexp64 (Zdigits2 m + e) ->
  exists q',
    m / 2 ^ (fexp64 (Zdigits2 m + e) - e) <= q' <= m / 2 ^ (fexp64 (Zdigits2 m + e) - e) + 1
    /\ 0 <= q' <= 2 ^ 53
    /\ (l = loc_Exact -> q' = rne m (2 ^ (fexp64 (Zdigits2 m + e) - e)))
    /\ binary_round_aux F64.prec F64.emax s m e l = fin s q' (fexp64 (Zdigits2 m + e)).
Proof.
  intros Hm He.
  set (E := fexp64 (Zdigits2 m + e)) in *.
  assert (HE : -1074 <= E) by (unfold E; rewrite fexp64_eq; lia).
  assert (Hk : 0 <= E - e) by lia.
  unfold binary_round_aux, shr_fexp. fold E.
  rewrite shr_nonneg by exact Hk.
  replace (e + (E - e)) with E by lia.
  set (rec := iter_nat shr_1 (Z.to_nat (E - e)) (shr_record_of_loc m l)).
  assert (Hrec : shr_m rec = m / 2 ^ (E - e) /\ 0 <= m / 2 ^ (E - e)).
  { unfold rec. rewrite shr_record_of_loc_eta.
    replace (E - e) with (Z.of_nat (Z.to_nat (E - e))) at 2 3 by lia.
    apply shr_m_iter. exact Hm. }
  destruct Hrec as [Hrec Hq0].
  pose proof (round_nearest_even_bounds (shr_m rec) (loc_of_shr_record rec)) as Hb.
  assert (Hlt : m / 2 ^ (E - e) < 2 ^ 53).
  { apply quotient_below; try lia. unfold E. rewrite fexp64_eq. lia. }
  assert (Hx : l = loc_Exact ->
               round_nearest_even (shr_m rec) (loc_of_shr_record rec) = rne m (2 ^ (E - e))).
  { intros ->. unfold rec. cbn [shr_record_of_loc].
    rewrite rne_of_iter by exact Hm. f_equal. f_equal. lia. }
  set (q' := round_nearest_even (shr_m rec) (loc_of_shr_record rec)) in *.
  rewrite Hrec in Hb.
  exists q'.
  split; [exact Hb |]. split; [lia |]. split; [exact Hx |].
  assert (Hs := second_stage s q' E).
  unfold shr_fexp in Hs. apply Hs; [lia | exact HE].
Qed.

(** *** Results are binary64 values *)

Lemma digits_53_low p : 2 ^ 52 <= Z.pos p -> 53 <= Zdigits2 (Z.pos p).
Proof.
  intro H. assert (E : Zdigits2 (2 ^ 52) = 53) by reflexivity.
  rewrite <- E. apply Zdigits2_le; lia.
Qed.

Lemma digits_53_high m : 0 < m -> m < 2 ^ 53 -> Zdigits2 m <= 53.
Proof.
  intros H0 H. assert (E : Zdigits2 (2 ^ 53 - 1) = 53) by reflexivity.
  rewrite <- E. apply Zdigits2_le; lia.
Qed.

Lemma valid_finite s m e :
  valid (S754_finite s m e)
  <-> fexp64 (Zdigits2 (Z.pos m) + e) = e /\ e <= 971.
Proof.
  unfold valid. cbn [valid_binary]. unfold bounded, canonical_mantissa.
  rewrite andb_true_iff, Z.eqb_eq, Z.leb_le. reflexivity.
Qed.

Lemma fin_valid s q E :
  0 <= q <= 2 ^ 53 -> -1074 <= E -> (E = -1074 \/ 2 ^ 52 <= q) -> valid (fin s q E).
Proof.
  intros [H0 H1] HE Hc. unfold fin.
  destruct q as [| p | p]; [reflexivity | | reflexivity].
  destruct (Z.ltb_spec (Z.pos p) (2 ^ 53)) as [Hlt | Hge].
  - destruct (Z.leb_spec E 971); [| reflexivity].
    apply valid_finite. split; [| assumption].
    rewrite fexp64_eq.
    pose proof (digits_53_high (Z.pos p) ltac:(lia) Hlt).
    destruct Hc as [-> | Hc]; [lia |].
    pose proof (digits_53_low p Hc). lia.
  - destruct (Z.leb_spec (E + 1) 971); [| reflexivity].
    apply valid_finite. split; [| assumption].
    rewrite fexp64_eq. change (Zdigits2 (Z.pos 4503599627370496)) with 53. lia.
Qed.

(** [binary_round_aux]: the rounded mantissa is normal unless the exponent
    is the least one. *)
Lemma bra_fin s m e l :
  0 <= m -> e <= fexp64 (Zdigits2 m + e) ->
  exists q',
    0 <= q' <= 2 ^ 53
    /\ (fexp64 (Zdigits2 m + e) = -1074 \/ 2 ^ 52 <= q')
    /\ m / 2 ^ (fexp64 (Zdigits2 m + e) - e) <= q'
    /\ (l = loc_Exact -> q' = rne m (2 ^ (fexp64 (Zdigits2 m + e) - e)))
    /\ binary_round_aux F64.prec F64.emax s m e l = fin s q' (fexp64 (Zdigits2 m + e)).
Proof.
  intros Hm He.
  destruct (bra_general s m e l Hm He) as [q' [Hb [Hq [Hx Hr]]]].
  exists q'. split; [exact Hq |]. split; [| split; [lia | split; assumption]].
  destruct (Z.eq_dec (fexp64 (Zdigits2 m + e)) (-1074)) as [E | N]; [left; exact E | right].
  rewrite fexp64_eq in He, N, Hb.
  assert (Hm' : 0 < m).
  { destruct (Z.eq_dec m 0) as [-> |]; [cbn [Zdigits2] in *; lia | lia]. }
  assert (2 ^ 52 <= m / 2 ^ (Z.max (Zdigits2 m + e - 53) (-1074) - e)).
  { apply quotient_above; lia. }
  lia.
Qed.

Lemma bra_valid s m e l :
  0 <= m -> e <= fexp64 (Zdigits2 m + e) ->
  valid (binary_round_aux F64.prec F64.emax s m e l).
Proof.
  intros Hm He.
  destruct (bra_fin s m e l Hm He) as [q' [Hq [Hc [_ [_ ->]]]]].
  apply fin_valid; [exact Hq | rewrite fexp64_eq; lia | exact Hc].
Qed.

Lemma pos_iter_xO p d : Z.pos (Pos.iter xO p d) = Z.pos p * 2 ^ Z.pos d.
Proof.
  induction d as [| d IH] using Pos.peano_ind.
  - cbn [Pos.iter]. rewrite Pos2Z.inj_xO. change (2 ^ 1) with 2. lia.
  - rewrite Pos.iter_succ, Pos2Z.inj_succ, Z.pow_succ_r by lia.
    rewrite Pos2Z.inj_xO, IH. lia.
Qed.

Lemma shl_align_spec p e e' :
  exists mz, shl_align p e e' = (mz, Z.min e e')
             /\ Z.pos mz = Z.pos p * 2 ^ (e - Z.min e e').
Proof.
  unfold shl_align. destruct (e' - e) as [| d | d] eqn:D.
  - exists p. replace (Z.min e e') with e by lia. rewrite Z.sub_diag. split; [reflexivity | lia].
  - exists p. replace (Z.min e e') with e by lia. rewrite Z.sub_diag. split; [reflexivity | lia].
  - exists (Pos.iter xO p d). replace (Z.min e e') with e' by lia.
    split; [reflexivity |]. rewrite pos_iter_xO. f_equal. f_equal. lia.
Qed.

(** [binary_round]: the float of [p * 2^e], which is not zero when [e] is
    at least the least exponent. *)
Lemma binary_round_fin s p e :
  exists q,
    0 <= q <= 2 ^ 53
    /\ (fexp64 (Zdigits2 (Z.pos p) + e) = -1074 \/ 2 ^ 52 <= q)
    /\ (-1074 <= e -> 0 < q)
    /\ binary_round F64.prec F64.emax s p e = fin s q (fexp64 (Zdigits2 (Z.pos p) + e)).
Proof.
  unfold binary_round.
  change (Z.pos (digits2_pos p)) with (Zdigits2 (Z.pos p)).
  set (E := fexp64 (Zdigits2 (Z.pos p) + e)).
  destruct (shl_align_spec p e E) as [mz [-> Hz]].
  assert (Hd : Zdigits2 (Z.pos mz) + Z.min e E = Zdigits2 (Z.pos p) + e).
  { rewrite Hz, Zdigits2_shift by lia. lia. }
  assert (Hp : Z.min e E <= fexp64 (Zdigits2 (Z.pos mz) + Z.min e E)).
  { rewrite Hd. fold E. lia. }
  destruct (bra_fin s (Z.pos mz) (Z.min e E) loc_Exact ltac:(lia) Hp)
    as [q [Hq [Hc [Hl [Hx Hr]]]]].
  rewrite Hd in Hc, Hl, Hx, Hr. fold E in Hc, Hl, Hx, Hr.
  exists q. split; [exact Hq |]. split; [exact Hc |]. split; [| exact Hr].
  intro He. destruct Hc as [Hc | Hc]; [| lia].
  assert (HE : -1074 <= E) by (unfold E; rewrite fexp64_eq; lia).
  replace (E - Z.min e E) with 0 in Hl by lia.
  change (2 ^ 0) with 1 in Hl. rewrite Z.div_1_r in Hl. lia.
Qed.

Lemma binary_round_valid s p e : valid (binary_round F64.prec F64.emax s p e).
Proof.
  destruct (binary_round_fin s p e) as [q [Hq [Hc [_ ->]]]].
  apply fin_valid; [exact Hq | rewrite fexp64_eq; lia | exact Hc].
Qed.

Lemma binary_normalize_valid m e sz : valid (binary_normalize F64.prec F64.emax m e sz).
Proof. destruct m; [reflexivity | apply binary_round_valid ..]. Qed.

Lemma fin_not_zero s q E s' : 0 < q -> fin s q E <> S754_zero s'.
Proof.
  intros Hq. unfold fin. destruct q as [| p | p]; try lia.
  destruct (Z.pos p <? 2 ^ 53); [destruct (E <=? 971) | destruct (E + 1 <=? 971)]; discriminate.
Qed.

Lemma binary_normalize_zero m e sz s' :
  -1074 <= e ->
  binary_normalize F64.prec F64.emax m e sz = S754_zero s' -> m = 0.
Proof.
  intros He H. destruct m as [| p | p]; [reflexivity | exfalso ..].
  - cbn [binary_normalize] in H.
    destruct (binary_round_fin false p e) as [q [_ [_ [Hpos Hr]]]].
    rewrite Hr in H. exact (fin_not_zero _ _ _ _ (Hpos He) H).
  - cbn [binary_normalize] in H.
    destruct (binary_round_fin true p e) as [q [_ [_ [Hpos Hr]]]].
    rewrite Hr in H. exact (fin_not_zero _ _ _ _ (Hpos He) H).
Qed.

Lemma sub_valid x y : valid x -> valid y -> valid (F64.sub x y).
Proof.
  intros Hx Hy. unfold F64.sub, SFsub.
  destruct x as [sx | sx | | sx mx ex]; destruct y as [sy | sy | | sy my ey];
    try (destruct sx); try (destruct sy); try reflexivity; try assumption;
    try apply binary_normalize_valid.
Qed.

(** *** The quotient of two integers *)

Lemma div_core_precondition m1 e1 m2 e2 :
  0 < m1 -> 0 < m2 ->
  exists q e' l,
    SFdiv_core_binary F64.prec F64.emax m1 e1 m2 e2 = (q, e', l)
    /\ 0 <= q /\ e' <= fexp64 (Zdigits2 q + e').
Proof.
  intros H1 H2. unfold SFdiv_core_binary.
  set (d1 := Zdigits2 m1). set (d2 := Zdigits2 m2).
  set (G := fexp64 (d1 + e1 - (d2 + e2))).
  set (e' := Z.min G (e1 - e2)).
  set (s := e1 - e2 - e').
  assert (HG : G = Z.max (d1 + e1 - (d2 + e2) - 53) (-1074)) by reflexivity.
  assert (He' : e' = Z.min G (e1 - e2)) by reflexivity.
  assert (Hs : s = e1 - e2 - e') by reflexivity.
  destruct (Zdigits2_bounds m1 H1) as [B1 _]. fold d1 in B1.
  destruct (Zdigits2_bounds m2 H2) as [_ B2]. fold d2 in B2.
  pose proof (Zdigits2_pos m1 H1) as P1. fold d1 in P1.
  pose proof (Zdigits2_pos m2 H2) as P2. fold d2 in P2.
  clearbody G e' s d1 d2.
  set (m' := match s with Z.pos _ => Z.shiftl m1 s | 0 => m1 | Z.neg _ => 0 end).
  assert (Hm' : m' = m1 * 2 ^ s).
  { unfold m'. destruct s as [| p | p]; [lia | | lia].
    now rewrite Z.shiftl_mul_pow2 by lia. }
  clearbody m'.
  assert (HP : 0 < 2 ^ s) by (apply Z.pow_pos_nonneg; lia).
  pose proof (Z_div_mod m' m2 ltac:(lia)) as DM.
  destruct (Z.div_eucl m' m2) as [q r]. destruct DM as [DM Hr].
  exists q, e', (new_location m2 r).
  split; [reflexivity |].
  assert (Hq : 0 <= q) by nia.
  split; [exact Hq |].
  rewrite fexp64_eq.
  destruct (Z.le_gt_cases e' (-1074)) as [Hle | Hgt]; [lia |].
  assert (Hs2 : 53 + d2 - d1 <= s) by lia.
  assert (Hbig : 2 ^ 52 * 2 ^ d2 <= m1 * 2 ^ s).
  { assert (Hx : 2 ^ (52 + d2) <= 2 ^ ((d1 - 1) + s)) by (apply Z.pow_le_mono_r; lia).
    rewrite !Z.pow_add_r in Hx by lia. nia. }
  assert (Hq52 : 2 ^ 52 <= q).
  { destruct (Z.le_gt_cases (2 ^ 52) q) as [L | L]; [exact L | exfalso].
    assert (m2 * (q + 1) <= 2 ^ d2 * 2 ^ 52) by nia.
    nia. }
  destruct q as [| pq | pq]; try lia.
  pose proof (digits_53_low pq Hq52). lia.
Qed.

Lemma div_valid x y : valid x -> valid y -> valid (F64.div x y).
Proof.
  intros Hx Hy. unfold F64.div, SFdiv.
  destruct x as [sx | sx | | sx mx ex]; destruct y as [sy | sy | | sy my ey];
    try reflexivity.
  destruct (div_core_precondition (Z.pos mx) ex (Z.pos my) ey ltac:(lia) ltac:(lia))
    as [q [e' [l [-> [Hq Hp]]]]].
  apply bra_valid; assumption.
Qed.

Lemma of_Z_valid s n : valid (F64.of_Z s n).
Proof. destruct n; [reflexivity | apply binary_normalize_valid | reflexivity]. Qed.

Lemma of_decimal_valid s m k : valid (F64.of_decimal s m k).
Proof.
  unfold F64.of_decimal. destruct m as [| p | p]; [reflexivity | | reflexivity].
  destruct (0 <=? k); [apply of_Z_valid |].
  unfold F64.div, SFdiv.
  destruct (div_core_precondition (Z.pos p) 0 (Z.pos (Z.to_pos (10 ^ (- k)))) 0
              ltac:(lia) ltac:(lia)) as [q [e' [l [-> [Hq Hp]]]]].
  apply bra_valid; assumption.
Qed.

Lemma parse_decimal_valid neg s x : F64.parse_decimal neg s = Some x -> valid x.
Proof.
  unfold F64.parse_decimal.
  destruct (F64.span_digits s) as [ip r1].
  destruct (match r1 with
            | String "."%char r => F64.span_digits r
            | _ => (EmptyString, r1)
            end) as [fp r2].
  destruct (_ =? 0)%nat; [discriminate |].
  destruct r2 as [| c r3].
  - intro H. injection H as <-. apply of_decimal_valid.
  - destruct (Ascii.eqb (F64.lower c) "e"%char); [| discriminate].
    destruct (F64.take_sign r3) as [eneg r4].
    destruct (F64.span_digits r4) as [ed r5].
    destruct ed; [discriminate |]. destruct r5; [| discriminate].
    intro H. injection H as <-. apply of_decimal_valid.
Qed.

Lemma float_of_str_valid s x : F64.float_of_str s = Some x -> valid x.
Proof.
  unfold F64.float_of_str.
  destruct (F64.strip_underscores _ _) as [t |]; [| discriminate].
  destruct (F64.take_sign _) as [neg body].
  destruct (F64.parse_decimal neg body) as [x' |] eqn:P.
  - intro H. injection H as <-. exact (parse_decimal_valid _ _ _ P).
  - unfold F64.parse_inf_or_nan.
    destruct (_ || _); [intro H; injection H as <-; reflexivity |].
    destruct (String.eqb _ _); [intro H; injection H as <-; reflexivity | discriminate].
Qed.

(** *** The order of the floats *)

Lemma leb_not_nan x y : F64.leb x y = true -> not_nan x /\ not_nan y.
Proof.
  unfold F64.leb, SFleb.
  destruct x, y; simpl; intro H; try discriminate H; split; exact I.
Qed.

Lemma leb_key x y :
  not_nan x -> not_nan y -> (F64.leb x y = true <-> lex_le (key x) (key y)).
Proof.
  intros Hx Hy. unfold F64.leb, SFleb.
  destruct x as [sx | sx | | sx mx ex]; destruct y as [sy | sy | | sy my ey];
    try contradiction; try (destruct sx); try (destruct sy);
    cbn [SFcompare key lex_le];
    try (split; intro H; [lia | reflexivity]);
    try (split; intro H; [discriminate H | exfalso; lia]).
  - change (Pos.compare_cont Eq mx my) with (Pos.compare mx my).
    destruct (Z.compare_spec ex ey); [destruct (Pos.compare_spec mx my) | |]; cbn [CompOpp];
      (split; intro HH; first [reflexivity | discriminate HH | lia | exfalso; lia]).
  - change (Pos.compare_cont Eq mx my) with (Pos.compare mx my).
    destruct (Z.compare_spec ex ey); [destruct (Pos.compare_spec mx my) | |]; cbn [CompOpp];
      (split; intro HH; first [reflexivity | discriminate HH | lia | exfalso; lia]).
Qed.

Lemma lex_le_trans a b c : lex_le a b -> lex_le b c -> lex_le a c.
Proof.
  destruct a as [[a1 a2] a3], b as [[b1 b2] b3], c as [[c1 c2] c3]. cbn. lia.
Qed.

Lemma lex_le_total a b : lex_le a b \/ lex_le b a.
Proof. destruct a as [[a1 a2] a3], b as [[b1 b2] b3]. cbn. lia. Qed.

Lemma leb_trans x y z :
  F64.leb x y = true -> F64.leb y z = true -> F64.leb x z = true.
Proof.
  intros H1 H2.
  destruct (leb_not_nan _ _ H1) as [Nx Ny], (leb_not_nan _ _ H2) as [_ Nz].
  apply (proj2 (leb_key x z Nx Nz)).
  apply lex_le_trans with (key y);
    [apply (proj1 (leb_key x y Nx Ny)) | apply (proj1 (leb_key y z Ny Nz))]; assumption.
Qed.

Lemma leb_total x y : not_nan x -> not_nan y -> F64.leb x y = true \/ F64.leb y x = true.
Proof.
  intros Nx Ny. destruct (lex_le_total (key x) (key y)) as [H | H];
    [left; apply (proj2 (leb_key x y Nx Ny)) | right; apply (proj2 (leb_key y x Ny Nx))];
    exact H.
Qed.

Lemma leb_refl x : not_nan x -> F64.leb x x = true.
Proof. intro N. destruct (leb_total x x N N); assumption. Qed.

Lemma ltb_leb x y : F64.ltb x y = true -> F64.leb x y = true.
Proof.
  unfold F64.ltb, F64.leb, SFltb, SFleb.
  destruct (SFcompare x y) as [[] |]; congruence.
Qed.

Lemma not_ltb_leb x y :
  not_nan x -> not_nan y -> F64.ltb x y = false -> F64.leb y x = true.
Proof.
  intros Nx Ny H. destruct (leb_total x y Nx Ny) as [L | L]; [| exact L].
  revert H L. unfold F64.ltb, F64.leb, SFltb, SFleb.
  rewrite (SFcompare_antisym x y).
  destruct (SFcompare x y) as [[] |]; cbn; congruence.
Qed.

Lemma fmax_cases x y : fmax x y = x \/ fmax x y = y.
Proof. unfold fmax. destruct (F64.ltb x y); auto. Qed.

Lemma fmax_ge_l x y : not_nan x -> not_nan y -> F64.leb x (fmax x y) = true.
Proof.
  intros Nx Ny. unfold fmax. destruct (F64.ltb x y) eqn:L.
  - apply ltb_leb, L.
  - apply leb_refl, Nx.
Qed.

Lemma fmax_ge_r x y : not_nan x -> not_nan y -> F64.leb y (fmax x y) = true.
Proof.
  intros Nx Ny. unfold fmax. destruct (F64.ltb x y) eqn:L.
  - apply leb_refl, Ny.
  - apply not_ltb_leb; assumption.
Qed.

(** *** Rounding is monotone *)

Lemma fin_not_nan s q E : not_nan (fin s q E).
Proof.
  unfold fin. destruct q as [| p | p]; try exact I.
  destruct (Z.pos p <? 2 ^ 53); [destruct (E <=? 971) | destruct (E + 1 <=? 971)]; exact I.
Qed.

Lemma fin_mono q1 E1 q2 E2 :
  0 <= q1 <= 2 ^ 53 -> 0 <= q2 <= 2 ^ 53 ->
  (E1 = E2 /\ q1 <= q2) \/ (E1 < E2 /\ 2 ^ 52 <= q2) ->
  F64.leb (fin false q1 E1) (fin false q2 E2) = true.
Proof.
  intros H1 H2 H.
  apply (proj2 (leb_key _ _ (fin_not_nan _ _ _) (fin_not_nan _ _ _))).
  unfold fin.
  destruct q1 as [| p1 | p1]; destruct q2 as [| p2 | p2]; try lia;
    repeat match goal with
           | |- context [Z.ltb ?a ?b] => destruct (Z.ltb_spec a b)
           | |- context [Z.leb ?a ?b] => destruct (Z.leb_spec a b)
           end;
    cbn [key lex_le]; lia.
Qed.

Lemma leb_zero_fin s q E : 0 <= q -> F64.leb (S754_zero s) (fin false q E) = true.
Proof.
  intro H. unfold fin. destruct q as [| p | p]; try lia; [destruct s; reflexivity |].
  destruct (Z.pos p <? 2 ^ 53); [destruct (E <=? 971) | destruct (E + 1 <=? 971)];
    destruct s; reflexivity.
Qed.

(** Shifting the mantissa to the left and the exponent down changes nothing. *)
Lemma bra_shift s m e j :
  0 < m -> 0 <= j -> e + j <= fexp64 (Zdigits2 m + (e + j)) ->
  binary_round_aux F64.prec F64.emax s (m * 2 ^ j) e loc_Exact
  = binary_round_aux F64.prec F64.emax s m (e + j) loc_Exact.
Proof.
  intros Hm Hj Hp.
  assert (HP : 0 < 2 ^ j) by (apply Z.pow_pos_nonneg; lia).
  assert (Hd : Zdigits2 (m * 2 ^ j) + e = Zdigits2 m + (e + j)).
  { rewrite Zdigits2_shift by lia. lia. }
  assert (Hp' : e <= fexp64 (Zdigits2 (m * 2 ^ j) + e)) by (rewrite Hd; lia).
  destruct (bra_fin s (m * 2 ^ j) e loc_Exact ltac:(nia) Hp') as [q1 [_ [_ [_ [X1 ->]]]]].
  destruct (bra_fin s m (e + j) loc_Exact ltac:(lia) Hp) as [q2 [_ [_ [_ [X2 ->]]]]].
  rewrite (X1 eq_refl), (X2 eq_refl), Hd.
  f_equal.
  set (E := fexp64 (Zdigits2 m + (e + j))) in *.
  replace (E - e) with ((E - (e + j)) + j) by lia.
  rewrite Z.pow_add_r by lia.
  apply rne_scale; [apply Z.pow_pos_nonneg; lia | exact HP].
Qed.

Lemma bra_mono_same m1 m2 e :
  0 < m1 -> m1 <= m2 -> e <= fexp64 (Zdigits2 m1 + e) ->
  F64.leb (binary_round_aux F64.prec F64.emax false m1 e loc_Exact)
          (binary_round_aux F64.prec F64.emax false m2 e loc_Exact) = true.
Proof.
  intros H1 H12 Hp1.
  pose proof (Zdigits2_le m1 m2 H1 H12) as Hd.
  assert (Hp2 : e <= fexp64 (Zdigits2 m2 + e)) by (unfold fexp, emin, F64.prec, F64.emax in *; lia).
  destruct (bra_fin false m1 e loc_Exact ltac:(lia) Hp1) as [q1 [Q1 [_ [_ [X1 ->]]]]].
  destruct (bra_fin false m2 e loc_Exact ltac:(lia) Hp2) as [q2 [Q2 [C2 [_ [X2 ->]]]]].
  apply fin_mono; [exact Q1 | exact Q2 |].
  destruct (Z.eq_dec (fexp64 (Zdigits2 m1 + e)) (fexp64 (Zdigits2 m2 + e))) as [Eq | Ne].
  - left. split; [exact Eq |].
    rewrite (X1 eq_refl), (X2 eq_refl), Eq.
    apply rne_mono; [apply Z.pow_pos_nonneg; lia | exact H12].
  - right. unfold fexp, emin, F64.prec, F64.emax in *. lia.
Qed.

Lemma bra_mono m1 e1 m2 e2 :
  0 < m1 -> 0 < m2 -> e1 <= e2 ->
  e1 <= fexp64 (Zdigits2 m1 + e1) -> e2 <= fexp64 (Zdigits2 m2 + e2) ->
  m1 <= m2 * 2 ^ (e2 - e1) ->
  F64.leb (binary_round_aux F64.prec F64.emax false m1 e1 loc_Exact)
          (binary_round_aux F64.prec F64.emax false m2 e2 loc_Exact) = true.
Proof.
  intros H1 H2 He P1 P2 Hm.
  replace e2 with (e1 + (e2 - e1)) at 1 by lia.
  rewrite <- bra_shift; [| exact H2 | lia | replace (e1 + (e2 - e1)) with e2 by lia; exact P2].
  apply bra_mono_same; assumption.
Qed.

(** *** Products *)

Lemma digits_mul_lower a b :
  0 < a -> 0 < b -> Zdigits2 a + Zdigits2 b - 1 <= Zdigits2 (a * b).
Proof.
  intros Ha Hb.
  destruct (Zdigits2_bounds a Ha) as [A _]. destruct (Zdigits2_bounds b Hb) as [B _].
  destruct (Zdigits2_bounds (a * b) ltac:(nia)) as [_ C].
  pose proof (Zdigits2_pos a Ha). pose proof (Zdigits2_pos b Hb).
  destruct (Z.le_gt_cases (Zdigits2 a + Zdigits2 b - 1) (Zdigits2 (a * b))) as [L | G];
    [exact L | exfalso].
  assert (0 < Zdigits2 (a * b)) by (apply Zdigits2_pos; nia).
  assert (X : 2 ^ Zdigits2 (a * b) <= 2 ^ ((Zdigits2 a - 1) + (Zdigits2 b - 1)))
    by (apply Z.pow_le_mono_r; lia).
  rewrite Z.pow_add_r in X by lia.
  assert (0 < 2 ^ (Zdigits2 a - 1)) by (apply Z.pow_pos_nonneg; lia).
  assert (0 < 2 ^ (Zdigits2 b - 1)) by (apply Z.pow_pos_nonneg; lia).
  nia.
Qed.

Lemma mul_precondition sx mx ex sy my ey :
  valid (S754_finite sx mx ex) -> valid (S754_finite sy my ey) ->
  ex + ey <= fexp64 (Zdigits2 (Z.pos (mx * my)) + (ex + ey)).
Proof.
  intros Vx Vy.
  apply valid_finite in Vx. apply valid_finite in Vy.
  destruct Vx as [Vx _], Vy as [Vy _].
  unfold fexp, emin, F64.prec, F64.emax in *.
  pose proof (digits_mul_lower (Z.pos mx) (Z.pos my) ltac:(lia) ltac:(lia)) as D.
  rewrite <- Pos2Z.inj_mul in D.
  pose proof (Zdigits2_pos (Z.pos mx) ltac:(lia)).
  pose proof (Zdigits2_pos (Z.pos my) ltac:(lia)).
  lia.
Qed.

Lemma abs_bra s m e l :
  F64.abs (binary_round_aux F64.prec F64.emax s m e l)
  = F64.abs (binary_round_aux F64.prec F64.emax false m e l).
Proof.
  unfold binary_round_aux.
  destruct (shr_fexp F64.prec F64.emax m e l) as [mrs' e'].
  destruct (shr_fexp F64.prec F64.emax _ e' loc_Exact) as [mrs'' e''].
  destruct (shr_m mrs''); [reflexivity | | reflexivity].
  destruct (e'' <=? F64.emax - F64.prec); reflexivity.
Qed.

Lemma abs_fin q E : F64.abs (fin false q E) = fin false q E.
Proof.
  unfold fin. destruct q as [| p | p]; try reflexivity.
  destruct (Z.pos p <? 2 ^ 53); [destruct (E <=? 971) | destruct (E + 1 <=? 971)]; reflexivity.
Qed.

Lemma bra_canonical s m e :
  valid (S754_finite s m e) ->
  binary_round_aux F64.prec F64.emax s (Z.pos m) e loc_Exact = S754_finite s m e.
Proof.
  intro V. apply valid_finite in V. destruct V as [Vc Ve].
  destruct (bra_fin s (Z.pos m) e loc_Exact ltac:(lia) ltac:(lia)) as [q [_ [_ [_ [X ->]]]]].
  rewrite (X eq_refl), Vc, Z.sub_diag. change (2 ^ 0) with 1. rewrite rne_exact.
  unfold fin.
  assert (Hd : Zdigits2 (Z.pos m) <= 53) by (rewrite fexp64_eq in Vc; lia).
  destruct (Z.ltb_spec (Z.pos m) (2 ^ 53)) as [L | G].
  - destruct (Z.leb_spec e 971); [reflexivity | lia].
  - exfalso.
    assert (Zdigits2 (2 ^ 53) = 54) by reflexivity.
    pose proof (Zdigits2_le (2 ^ 53) (Z.pos m) ltac:(lia) G). lia.
Qed.

Lemma abs_bra_false m e l :
  F64.abs (binary_round_aux F64.prec F64.emax false m e l)
  = binary_round_aux F64.prec F64.emax false m e l.
Proof.
  unfold binary_round_aux.
  destruct (shr_fexp F64.prec F64.emax m e l) as [mrs' e'].
  destruct (shr_fexp F64.prec F64.emax _ e' loc_Exact) as [mrs'' e''].
  destruct (shr_m mrs''); [reflexivity | | reflexivity].
  destruct (e'' <=? F64.emax - F64.prec); reflexivity.
Qed.

Lemma valid_abs x : valid x -> valid (F64.abs x).
Proof. destruct x; intro H; exact H. Qed.

Lemma not_nan_abs x : not_nan x -> not_nan (F64.abs x).
Proof. destruct x; intro H; exact H. Qed.

Lemma finite_not_nan x : F64.is_finite x = true -> not_nan x.
Proof. destruct x; intro H; try discriminate H; exact I. Qed.

Lemma mul_one mt et :
  valid (S754_finite false mt et) ->
  F64.mul (S754_finite false mt et) F64.one = S754_finite false mt et.
Proof.
  intro V. unfold F64.mul, SFmul, F64.one. cbn [xorb].
  rewrite Pos2Z.inj_mul. change (Z.pos 4503599627370496) with (2 ^ 52).
  rewrite bra_shift.
  - replace (et + -52 + 52) with et by lia. apply bra_canonical, V.
  - lia.
  - lia.
  - replace (et + -52 + 52) with et by lia.
    apply valid_finite in V. lia.
Qed.

Lemma mul_abs mt et x :
  F64.is_finite x = true ->
  F64.abs (F64.mul (S754_finite false mt et) x)
  = F64.mul (S754_finite false mt et) (F64.abs x).
Proof.
  intro Fx. destruct x as [sx | sx | | sx mx ex]; try discriminate Fx.
  - reflexivity.
  - unfold F64.mul, SFmul. cbn [F64.abs SFabs xorb].
    change SFabs with F64.abs. rewrite abs_bra. apply abs_bra_false.
Qed.

Lemma mul_comm x y : F64.mul x y = F64.mul y x.
Proof.
  unfold F64.mul, SFmul.
  destruct x as [sx | sx | | sx mx ex]; destruct y as [sy | sy | | sy my ey];
    try reflexivity; rewrite (xorb_comm sx sy); try reflexivity.
  now rewrite (Pos.mul_comm mx my), (Z.add_comm ex ey).
Qed.

(** A product of numbers that are not negative is not negative. *)
Lemma mul_nonneg mt et x :
  valid (S754_finite false mt et) -> valid x -> F64.is_finite x = true ->
  F64.leb (S754_zero false) (F64.mul (S754_finite false mt et) (F64.abs x)) = true.
Proof.
  intros Vt Vx Fx. destruct x as [sx | sx | | sx mx ex]; try discriminate Fx.
  - reflexivity.
  - unfold F64.mul, SFmul. cbn [F64.abs SFabs xorb].
    pose proof (mul_precondition false mt et false mx ex Vt Vx) as P.
    destruct (bra_fin false (Z.pos (mt * mx)) (et + ex) loc_Exact ltac:(lia) P)
      as [q [Q [_ [_ [_ ->]]]]].
    apply leb_zero_fin. lia.
Qed.

(** Multiplying by a positive number is monotone. *)
Lemma mul_mono mt et x y :
  valid (S754_finite false mt et) -> valid x -> valid y ->
  F64.is_finite x = true -> F64.is_finite y = true ->
  F64.leb (F64.abs x) (F64.abs y) = true ->
  F64.leb (F64.mul (S754_finite false mt et) (F64.abs x))
          (F64.mul (S754_finite false mt et) (F64.abs y)) = true.
Proof.
  intros Vt Vx Vy Fx Fy L.
  destruct x as [sx | sx | | sx mx ex]; try discriminate Fx.
  - change (F64.mul (S754_finite false mt et) (F64.abs (S754_zero sx)))
      with (S754_zero false).
    apply mul_nonneg; assumption.
  - destruct y as [sy | sy | | sy my ey]; try discriminate Fy.
    + discriminate L.
    + cbn [F64.abs SFabs] in L |- *.
      apply (proj1 (leb_key (S754_finite false mx ex) (S754_finite false my ey) I I)) in L. cbn [key lex_le] in L.
      unfold F64.mul, SFmul. cbn [xorb].
      pose proof (mul_precondition false mt et false mx ex Vt Vx) as Px.
      pose proof (mul_precondition false mt et false my ey Vt Vy) as Py.
      apply valid_finite in Vx. apply valid_finite in Vy.
      destruct Vx as [Cx _], Vy as [Cy _].
      destruct (Zdigits2_bounds (Z.pos mx) ltac:(lia)) as [_ Ux].
      destruct (Zdigits2_bounds (Z.pos my) ltac:(lia)) as [Ly _].
      pose proof (Zdigits2_pos (Z.pos mx) ltac:(lia)) as Dx.
      apply bra_mono; try lia; try assumption.
      rewrite !Pos2Z.inj_mul.
      replace (et + ey - (et + ex)) with (ey - ex) by lia.
      destruct L as [L | [_ [L | [E L]]]]; [lia | |].
      * assert (Hdx : Zdigits2 (Z.pos mx) <= 53)
          by (unfold fexp, emin, F64.prec, F64.emax in Cx; lia).
        assert (Hdy : Zdigits2 (Z.pos my) = 53)
          by (unfold fexp, emin, F64.prec, F64.emax in Cx, Cy; lia).
        rewrite Hdy in Ly. change (2 ^ (53 - 1)) with (2 ^ 52) in Ly.
        assert (Hx : Z.pos mx < 2 ^ 53).
        { assert (2 ^ Zdigits2 (Z.pos mx) <= 2 ^ 53) by (apply Z.pow_le_mono_r; lia). lia. }
        assert (H2 : 2 ^ 1 <= 2 ^ (ey - ex)) by (apply Z.pow_le_mono_r; lia).
        change (2 ^ 1) with 2 in H2.
        assert (H53 : 2 ^ 53 = 2 * 2 ^ 52) by reflexivity.
        assert (Hm : Z.pos mx <= Z.pos my * 2 ^ (ey - ex)).
        { rewrite H53 in Hx. revert Hx Ly H2.
          generalize (2 ^ 52) (2 ^ (ey - ex)). intros c P Hx Ly H2.
          assert (2 * c <= Z.pos my * P) by nia. lia. }
        rewrite <- Z.mul_assoc. apply Z.mul_le_mono_nonneg_l; [lia | exact Hm].
      * rewrite E, Z.sub_diag. change (2 ^ 0) with 1. nia.
Qed.

(** *** Differences *)

Lemma binary_normalize_not_nan m e sz : not_nan (binary_normalize F64.prec F64.emax m e sz).
Proof.
  destruct m as [| p | p]; [exact I | |]; cbn [binary_normalize].
  - destruct (binary_round_fin false p e) as [q [_ [_ [_ ->]]]]. apply fin_not_nan.
  - destruct (binary_round_fin true p e) as [q [_ [_ [_ ->]]]]. apply fin_not_nan.
Qed.

Lemma sub_finite_not_nan x y :
  F64.is_finite x = true -> F64.is_finite y = true -> not_nan (F64.sub y x).
Proof.
  intros Fx Fy. unfold F64.sub, SFsub.
  destruct x as [sx | sx | | sx mx ex]; try discriminate Fx;
    destruct y as [sy | sy | | sy my ey]; try discriminate Fy;
    try (destruct sx); try (destruct sy); try exact I;
    apply binary_normalize_not_nan.
Qed.

(** Equal finite numbers have a zero difference. *)
Lemma eqb_sub_zero x y :
  F64.is_finite x = true -> F64.is_finite y = true -> F64.eqb x y = true ->
  F64.abs (F64.sub y x) = S754_zero false.
Proof.
  intros Fx Fy E. unfold F64.eqb, SFeqb in E.
  destruct x as [sx | sx | | sx mx ex]; try discriminate Fx;
    destruct y as [sy | sy | | sy my ey]; try discriminate Fy.
  - destruct sx, sy; reflexivity.
  - cbn in E. destruct sy; discriminate E.
  - cbn in E. destruct sx; discriminate E.
  - cbn [SFcompare] in E.
    assert (H : sx = sy /\ ex = ey /\ mx = my).
    { destruct sx, sy; try discriminate E;
        destruct (Z.compare_spec ex ey); try discriminate E;
        change (Pos.compare_cont Eq mx my) with (Pos.compare mx my) in E;
        destruct (Pos.compare_spec mx my); try discriminate E; auto. }
    destruct H as [-> [-> ->]].
    unfold F64.sub, SFsub. cbv zeta. rewrite Z.sub_diag. reflexivity.
Qed.

Lemma leb_zero_sign d s : F64.leb d (S754_zero s) = F64.leb d (S754_zero false).
Proof. destruct d as [sd | sd | | sd md ed]; try reflexivity. Qed.

Lemma leb_inf d : not_nan d -> F64.leb d (S754_infinity false) = true.
Proof.
  destruct d as [sd | sd | | sd md ed]; intro N; try contradiction; try reflexivity.
  destruct sd; reflexivity.
Qed.

Lemma leb_ltb_false a b : F64.leb a b = true -> F64.ltb b a = false.
Proof.
  unfold F64.leb, F64.ltb, SFleb, SFltb. rewrite (SFcompare_antisym a b).
  destruct (SFcompare a b) as [[] |]; cbn; congruence.
Qed.

(** *** The tolerance test on finite numbers *)

(** [max(1, max(|x|, |y|))] is one of the three numbers and at least each. *)
Lemma fmax_three x y :
  F64.is_finite x = true -> F64.is_finite y = true ->
  valid x -> valid y ->
  exists z,
    fmax F64.one (fmax (F64.abs x) (F64.abs y)) = F64.abs z
    /\ (z = F64.one \/ z = x \/ z = y)
    /\ valid z /\ F64.is_finite z = true
    /\ F64.leb F64.one (F64.abs z) = true
    /\ F64.leb (F64.abs x) (F64.abs z) = true
    /\ F64.leb (F64.abs y) (F64.abs z) = true.
Proof.
  intros Fx Fy Vx Vy.
  pose proof (not_nan_abs x (finite_not_nan x Fx)) as Nx.
  pose proof (not_nan_abs y (finite_not_nan y Fy)) as Ny.
  assert (N1 : not_nan F64.one) by exact I.
  set (N := fmax (F64.abs x) (F64.abs y)).
  assert (NN : not_nan N) by (destruct (fmax_cases (F64.abs x) (F64.abs y)) as [E | E];
                              unfold N; rewrite E; assumption).
  pose proof (fmax_ge_l (F64.abs x) (F64.abs y) Nx Ny) as Lx. fold N in Lx.
  pose proof (fmax_ge_r (F64.abs x) (F64.abs y) Nx Ny) as Ly. fold N in Ly.
  pose proof (fmax_ge_l F64.one N N1 NN) as L1.
  pose proof (fmax_ge_r F64.one N N1 NN) as LN.
  set (M := fmax F64.one N) in *.
  pose proof (leb_trans _ _ _ Lx LN) as LxM.
  pose proof (leb_trans _ _ _ Ly LN) as LyM.
  destruct (fmax_cases F64.one N) as [E | E]; fold M in E.
  - exists F64.one. rewrite E in *. repeat split; auto.
  - destruct (fmax_cases (F64.abs x) (F64.abs y)) as [E' | E']; fold N in E'.
    + exists x. rewrite E, E' in *. repeat split; auto.
    + exists y. rewrite E, E' in *. repeat split; auto.
Qed.

Lemma abs_ge_one_finite z :
  F64.is_finite z = true -> F64.leb F64.one (F64.abs z) = true ->
  exists m e, F64.abs z = S754_finite false m e.
Proof.
  intros Fz L. destruct z as [sz | sz | | sz mz ez]; try discriminate Fz.
  - discriminate L.
  - exists mz, ez. reflexivity.
Qed.

(** For finite numbers and a tolerance that is a number and not negative,
    the three-way test of the code is the single test against
    [tol * max(1, max(|x|, |y|))]. *)
Lemma within_tolerance_formula x y tol :
  valid x -> valid y -> valid tol ->
  F64.is_finite x = true -> F64.is_finite y = true ->
  F64.leb F64.zero tol = true ->
  within_tolerance x y tol
  = F64.leb (F64.abs (F64.sub y x))
            (F64.mul tol (fmax F64.one (fmax (F64.abs x) (F64.abs y)))).
Proof.
  intros Vx Vy Vt Fx Fy T.
  destruct (fmax_three x y Fx Fy Vx Vy) as [z [EM [Hz [Vz [Fz [L1 [Lx Ly]]]]]]].
  rewrite EM.
  assert (ND : not_nan (F64.abs (F64.sub y x)))
    by (apply not_nan_abs, sub_finite_not_nan; assumption).
  unfold within_tolerance.
  assert (Ix : F64.is_inf x = false) by (destruct x; try discriminate Fx; reflexivity).
  assert (Iy : F64.is_inf y = false) by (destruct y; try discriminate Fy; reflexivity).
  rewrite Ix, Iy. cbn [orb negb andb].
  set (D := F64.abs (F64.sub y x)) in *.
  destruct (abs_ge_one_finite z Fz L1) as [mz [ez Ez]].
  destruct tol as [st | st | | st mt et].
  - (* a zero tolerance *)
    assert (Ay : F64.abs (F64.mul (S754_zero st) y) = S754_zero false)
      by (destruct y; try discriminate Fy; reflexivity).
    assert (Ax : F64.abs (F64.mul (S754_zero st) x) = S754_zero false)
      by (destruct x; try discriminate Fx; reflexivity).
    rewrite Ay, Ax, Ez. cbn [F64.mul SFmul]. unfold F64.mul; cbn [SFmul].
    rewrite (leb_zero_sign D st), (leb_zero_sign D (xorb st false)).
    destruct (F64.eqb x y) eqn:E.
    + unfold D. rewrite (eqb_sub_zero x y Fx Fy E). reflexivity.
    + cbn [orb]. now destruct (F64.leb D (S754_zero false)).
  - (* an infinite tolerance *)
    destruct st; [discriminate T |].
    rewrite Ez. unfold F64.mul at 3; cbn [SFmul xorb].
    rewrite (leb_inf D ND). now rewrite !orb_true_r.
  - discriminate T.
  - (* a positive tolerance *)
    destruct st; [discriminate T |].
    rewrite (mul_abs mt et y Fy), (mul_abs mt et x Fx).
    rewrite <- (mul_one mt et Vt) at 3.
    change F64.one with (F64.abs F64.one) at 1.
    assert (V1 : valid F64.one) by reflexivity.
    assert (F1 : F64.is_finite F64.one = true) by reflexivity.
    pose proof (mul_mono mt et y z Vt Vy Vz Fy Fz Ly) as My.
    pose proof (mul_mono mt et x z Vt Vx Vz Fx Fz Lx) as Mx.
    pose proof (mul_mono mt et F64.one z Vt V1 Vz F1 Fz L1) as M1.
    pose proof (mul_nonneg mt et z Vt Vz Fz) as M0.
    set (T0 := F64.mul (S754_finite false mt et)) in *.
    apply Bool.eq_iff_eq_true. split.
    + intro H. apply orb_true_iff in H as [H | H].
      * unfold D. rewrite (eqb_sub_zero x y Fx Fy H). exact M0.
      * apply orb_true_iff in H as [H | H]; [apply orb_true_iff in H as [H | H] |].
        -- exact (leb_trans _ _ _ H My).
        -- exact (leb_trans _ _ _ H Mx).
        -- exact (leb_trans _ _ _ H M1).
    + intro H. apply orb_true_iff. right.
      destruct Hz as [-> | [-> | ->]].
      * rewrite H. now rewrite !orb_true_r.
      * rewrite H. now rewrite !orb_true_r.
      * now rewrite H.
Qed.

(** When one of the two numbers is infinite or a NaN, only equal numbers
    match. *)
Lemma within_tolerance_non_finite x y tol :
  F64.is_finite x && F64.is_finite y = false ->
  within_tolerance x y tol = F64.eqb x y.
Proof.
  intro H. unfold within_tolerance.
  destruct x as [sx | sx | | sx mx ex]; destruct y as [sy | sy | | sy my ey];
    try discriminate H; cbn [F64.is_inf orb negb andb]; try apply orb_false_r.
  all: unfold F64.sub, SFsub, F64.abs, SFabs, F64.leb, SFleb; cbn [SFcompare];
    try (destruct sx); try (destruct sy); reflexivity.
Qed.


(** *** A zero difference means equal numbers *)

Lemma valid_exponent s m e : valid (S754_finite s m e) -> -1074 <= e.
Proof.
  intro V. apply valid_finite in V. unfold fexp, emin, F64.prec, F64.emax in V. lia.
Qed.

(** Two binary64 numbers with the same value have the same mantissa and
    exponent. *)
Lemma canonical_unique s1 m1 e1 s2 m2 e2 j1 j2 :
  valid (S754_finite s1 m1 e1) -> valid (S754_finite s2 m2 e2) ->
  0 <= j1 -> 0 <= j2 -> e1 - j1 = e2 - j2 ->
  Z.pos m1 * 2 ^ j1 = Z.pos m2 * 2 ^ j2 ->
  e1 = e2 /\ m1 = m2.
Proof.
  intros V1 V2 H1 H2 He Hm.
  apply valid_finite in V1. apply valid_finite in V2.
  destruct V1 as [C1 _], V2 as [C2 _].
  assert (Hd : Zdigits2 (Z.pos m1) + j1 = Zdigits2 (Z.pos m2) + j2).
  { rewrite <- (Zdigits2_shift (Z.pos m1) j1), <- (Zdigits2_shift (Z.pos m2) j2) by lia.
    now rewrite Hm. }
  assert (Hs : Zdigits2 (Z.pos m1) + e1 = Zdigits2 (Z.pos m2) + e2) by lia.
  rewrite Hs in C1.
  assert (E : e1 = e2) by congruence.
  split; [exact E |].
  assert (J : j1 = j2) by lia. subst j2.
  assert (HP : 0 < 2 ^ j1) by (apply Z.pow_pos_nonneg; lia).
  apply Z.mul_reg_r in Hm; [congruence | lia].
Qed.

Lemma sub_zero_eqb x y s :
  valid x -> valid y -> F64.is_finite x = true -> F64.is_finite y = true ->
  F64.sub y x = S754_zero s -> F64.eqb x y = true.
Proof.
  intros Vx Vy Fx Fy H.
  destruct x as [sx | sx | | sx mx ex]; try discriminate Fx;
    destruct y as [sy | sy | | sy my ey]; try discriminate Fy.
  - reflexivity.
  - discriminate H.
  - unfold F64.sub, SFsub in H. destruct sx; discriminate H.
  - unfold F64.sub, SFsub in H. cbv zeta in H.
    pose proof (valid_exponent _ _ _ Vx) as Ex.
    pose proof (valid_exponent _ _ _ Vy) as Ey.
    apply binary_normalize_zero in H; [| lia].
    destruct (shl_align_spec my ey (Z.min ey ex)) as [ay [Ay Hy]].
    destruct (shl_align_spec mx ex (Z.min ey ex)) as [ax [Ax Hx]].
    rewrite Ay, Ax in H. cbn [fst] in H.
    replace (Z.min ey (Z.min ey ex)) with (Z.min ey ex) in Hy by lia.
    replace (Z.min ex (Z.min ey ex)) with (Z.min ey ex) in Hx by lia.
    assert (S : sx = sy /\ Z.pos ay = Z.pos ax)
      by (destruct sx, sy; cbn [cond_Zopp] in H; split; try reflexivity; lia).
    destruct S as [-> S]. rewrite Hy, Hx in S.
    destruct (canonical_unique sy my ey sy mx ex (ey - Z.min ey ex) (ex - Z.min ey ex)
                Vy Vx ltac:(lia) ltac:(lia) ltac:(lia) S) as [-> ->].
    unfold F64.eqb, SFeqb. cbn [SFcompare].
    rewrite Z.compare_refl, Pos.compare_cont_refl. destruct sy; reflexivity.
Qed.

Lemma leb_abs_zero d s :
  F64.leb (F64.abs d) (S754_zero s) = true -> exists s', d = S754_zero s'.
Proof.
  destruct d as [sd | sd | | sd md ed]; intro H; try discriminate H.
  now exists sd.
Qed.

(** At tolerance zero two numbers match exactly when they are equal. *)
Lemma within_tolerance_zero x y :
  valid x -> valid y -> within_tolerance x y F64.zero = F64.eqb x y.
Proof.
  intros Vx Vy.
  destruct (F64.is_finite x && F64.is_finite y) eqn:F;
    [| now apply within_tolerance_non_finite].
  apply andb_prop in F as [Fx Fy].
  rewrite (within_tolerance_formula x y F64.zero Vx Vy eq_refl Fx Fy eq_refl).
  destruct (fmax_three x y Fx Fy Vx Vy) as [z [EM [_ [_ [Fz [L1 _]]]]]].
  destruct (abs_ge_one_finite z Fz L1) as [mz [ez Ez]].
  rewrite EM, Ez. change (F64.mul F64.zero (S754_finite false mz ez)) with (S754_zero false).
  apply Bool.eq_iff_eq_true. split.
  - intro H. apply leb_abs_zero in H as [s' H].
    exact (sub_zero_eqb x y s' Vx Vy Fx Fy H).
  - intro H. now rewrite (eqb_sub_zero x y Fx Fy H).
Qed.

(** *** A larger tolerance *)

Lemma leb_zero_l_sign s a : F64.leb (S754_zero s) a = F64.leb (S754_zero false) a.
Proof. destruct a as [sa | sa | | sa ma ea]; reflexivity. Qed.

Lemma mul_mono_l t1 t2 mz ez :
  valid t1 -> valid t2 -> valid (S754_finite false mz ez) ->
  F64.leb F64.zero t1 = true -> F64.leb t1 t2 = true ->
  F64.leb (F64.mul t1 (S754_finite false mz ez)) (F64.mul t2 (S754_finite false mz ez)) = true.
Proof.
  intros V1 V2 Vz Z1 L.
  pose proof (leb_trans _ _ _ Z1 L) as Z2.
  destruct t2 as [s2 | s2 | | s2 m2 e2]; try discriminate Z2.
  - (* both are zero *)
    destruct t1 as [s1 | s1 | | s1 m1 e1]; try (destruct s1);
      try discriminate Z1; try discriminate L; destruct s2; reflexivity.
  - destruct s2; [discriminate Z2 |].
    change (F64.mul (S754_infinity false) (S754_finite false mz ez)) with (S754_infinity false).
    apply leb_inf.
    destruct t1 as [s1 | s1 | | s1 m1 e1]; try discriminate Z1; try exact I.
    unfold F64.mul, SFmul.
    pose proof (mul_precondition s1 m1 e1 false mz ez V1 Vz) as P.
    destruct (bra_fin (xorb s1 false) (Z.pos (m1 * mz)) (e1 + ez) loc_Exact ltac:(lia) P)
      as [q [_ [_ [_ [_ ->]]]]].
    apply fin_not_nan.
  - destruct s2; [discriminate Z2 |].
    rewrite (mul_comm t1), (mul_comm (S754_finite false m2 e2)).
    destruct t1 as [s1 | s1 | | s1 m1 e1]; try (destruct s1);
      try discriminate Z1; try discriminate L.
    + exact (mul_nonneg mz ez (S754_finite false m2 e2) Vz V2 eq_refl).
    + exact (mul_nonneg mz ez (S754_finite false m2 e2) Vz V2 eq_refl).
    + exact (mul_mono mz ez (S754_finite false m1 e1) (S754_finite false m2 e2)
               Vz V1 V2 eq_refl eq_refl L).
Qed.

(** A match at one tolerance is a match at every larger one. *)
Lemma within_tolerance_monotone x y t1 t2 :
  valid x -> valid y -> valid t1 -> valid t2 ->
  F64.leb F64.zero t1 = true -> F64.leb t1 t2 = true ->
  within_tolerance x y t1 = true -> within_tolerance x y t2 = true.
Proof.
  intros Vx Vy V1 V2 Z1 L.
  pose proof (leb_trans _ _ _ Z1 L) as Z2.
  destruct (F64.is_finite x && F64.is_finite y) eqn:F.
  - apply andb_prop in F as [Fx Fy].
    rewrite (within_tolerance_formula x y t1 Vx Vy V1 Fx Fy Z1).
    rewrite (within_tolerance_formula x y t2 Vx Vy V2 Fx Fy Z2).
    destruct (fmax_three x y Fx Fy Vx Vy) as [z [EM [_ [Vz [Fz [L1 _]]]]]].
    destruct (abs_ge_one_finite z Fz L1) as [mz [ez Ez]].
    rewrite EM, Ez. intro H.
    apply (leb_trans _ _ _ H).
    apply mul_mono_l; try assumption.
    rewrite <- Ez. apply valid_abs, Vz.
  - now rewrite !(within_tolerance_non_finite x y _ F).
Qed.

End Rounding_facts.

(** ** The comparator on numbers *)

(** X1: for two texts that differ after trimming and parse as finite numbers
    [x] and [y], and a tolerance that is a binary64 number and not negative,
    [compare_values] reports a match exactly when
    [|y - x| <= tol * max(1, max(|x|, |y|))], all in binary64, and the delta
    is [y - x] with twelve significant digits. *)
Theorem compare_values_finite_numbers :
  forall expected actual tol x y,
    Round.valid tol -> F64.leb F64.zero tol = true ->
    Py.strip expected <> Py.strip actual ->
    to_float_or_none (Py.strip expected) = Some x ->
    to_float_or_none (Py.strip actual) = Some y ->
    F64.is_finite x = true -> F64.is_finite y = true ->
    compare_values expected actual tol
    = Ok (F64.leb (F64.abs (F64.sub y x))
                  (F64.mul tol (fmax F64.one (fmax (F64.abs x) (F64.abs y)))),
          F64.format_g12 (F64.sub y x)).
Proof.
  intros expected actual tol x y Vt T N X Y Fx Fy.
  rewrite (compare_values_numbers expected actual tol x y
             (leb_ltb_false _ _ T) N X Y).
  rewrite (within_tolerance_formula x y tol
             (float_of_str_valid _ _ X) (float_of_str_valid _ _ Y) Vt Fx Fy T).
  reflexivity.
Qed.

Lemma compare_values_finite_numbers_witness :
  compare_values "100.0" " 100.00005" tol_1e_6
  = Ok (F64.leb (F64.abs (F64.sub (F64.of_decimal false 10000005 (-5))
                                  (F64.of_decimal false 1000 (-1))))
                (F64.mul tol_1e_6
                   (fmax F64.one (fmax (F64.abs (F64.of_decimal false 1000 (-1)))
                                       (F64.abs (F64.of_decimal false 10000005 (-5)))))),
        F64.format_g12 (F64.sub (F64.of_decimal false 10000005 (-5))
                                (F64.of_decimal false 1000 (-1)))).
Proof.
  apply (compare_values_finite_numbers "100.0" " 100.00005" tol_1e_6).
  - reflexivity.
  - reflexivity.
  - vm_compute. discriminate.
  - reflexivity.
  - reflexivity.
  - reflexivity.
  - reflexivity.
Defined.

(** X2: when one of the two numbers is an infinity or a NaN, the verdict does
    not depend on the tolerance: the texts match exactly when the numbers are
    equal, so an infinity matches only the same infinity and a NaN matches
    nothing but its own spelling. *)
Theorem compare_values_not_finite :
  forall expected actual tol x y,
    F64.ltb tol F64.zero = false ->
    Py.strip expected <> Py.strip actual ->
    to_float_or_none (Py.strip expected) = Some x ->
    to_float_or_none (Py.strip actual) = Some y ->
    F64.is_finite x && F64.is_finite y = false ->
    compare_values expected actual tol
    = Ok (F64.eqb x y, F64.format_g12 (F64.sub y x)).
Proof.
  intros expected actual tol x y T N X Y F.
  rewrite (compare_values_numbers expected actual tol x y T N X Y).
  now rewrite (within_tolerance_non_finite x y tol F).
Qed.

Lemma compare_values_not_finite_witness :
  compare_values "nan" "NaN" tol_1e_6
  = Ok (F64.eqb S754_nan S754_nan, F64.format_g12 (F64.sub S754_nan S754_nan))
  /\ F64.eqb S754_nan S754_nan = false.
Proof.
  split; [| reflexivity].
  apply (compare_values_not_finite "nan" "NaN" tol_1e_6); try reflexivity.
  vm_compute. discriminate.
Defined.

(** X3: with a negative tolerance, [compare_values] still answers for texts
    that are identical after trimming (match) and for texts of which one is
    not a number (mismatch), and raises [ValueError] exactly when it has two
    numbers to compare. *)
Theorem compare_values_negative_tolerance :
  forall expected actual tol,
    F64.ltb tol F64.zero = true ->
    (Py.strip expected = Py.strip actual ->
     compare_values expected actual tol = Ok (true, EmptyString))
    /\ (Py.strip expected <> Py.strip actual ->
        (to_float_or_none (Py.strip expected) = None
         \/ to_float_or_none (Py.strip actual) = None) ->
        compare_values expected actual tol = Ok (false, EmptyString))
    /\ (Py.strip expected <> Py.strip actual ->
        to_float_or_none (Py.strip expected) <> None ->
        to_float_or_none (Py.strip actual) <> None ->
        compare_values expected actual tol = Raise ValueError).
Proof.
  intros expected actual tol T. unfold compare_values. split; [| split].
  - intro E. rewrite E, String.eqb_refl. reflexivity.
  - intros N P. apply String.eqb_neq in N. rewrite N.
    destruct P as [P | P]; rewrite P; [reflexivity |].
    destruct (to_float_or_none (Py.strip expected)); reflexivity.
  - intros N X Y. apply String.eqb_neq in N. rewrite N.
    destruct (to_float_or_none (Py.strip expected)) as [x |]; [| congruence].
    destruct (to_float_or_none (Py.strip actual)) as [y |]; [| congruence].
    unfold F64.isclose. rewrite T. reflexivity.
Qed.

Lemma compare_values_negative_tolerance_witness :
  compare_values "1" "1.0" (F64.opp F64.one) = Raise ValueError.
Proof.
  apply (proj2 (proj2 (compare_values_negative_tolerance "1" "1.0" (F64.opp F64.one) eq_refl))).
  - vm_compute. discriminate.
  - vm_compute. discriminate.
  - vm_compute. discriminate.
Defined.

(** X4: at tolerance zero, which is how restore verifies a readback,
    [compare_values] reports a match exactly when the trimmed texts are
    identical or both are numbers and the numbers are equal. *)
Theorem compare_values_zero_tolerance :
  forall expected actual,
    verdict (compare_values expected actual F64.zero) = Ok true
    <-> (Py.strip expected = Py.strip actual
         \/ exists x y,
              to_float_or_none (Py.strip expected) = Some x
              /\ to_float_or_none (Py.strip actual) = Some y
              /\ F64.eqb x y = true).
Proof.
  intros expected actual.
  destruct (String.eqb_spec (Py.strip expected) (Py.strip actual)) as [E | N].
  - unfold compare_values. rewrite E, String.eqb_refl. cbn. split; auto.
  - destruct (to_float_or_none (Py.strip expected)) as [x |] eqn:X.
    + destruct (to_float_or_none (Py.strip actual)) as [y |] eqn:Y.
      * rewrite (compare_values_numbers expected actual F64.zero x y eq_refl N X Y).
        cbn [verdict].
        rewrite (within_tolerance_zero x y
                   (float_of_str_valid _ _ X) (float_of_str_valid _ _ Y)).
        split.
        -- intro H. right. exists x, y. injection H as H. auto.
        -- intros [H | [x' [y' [Hx [Hy H]]]]]; [contradiction |].
           injection Hx as <-. injection Hy as <-. now rewrite H.
      * unfold compare_values. apply String.eqb_neq in N. rewrite N, X, Y. cbn.
        split; [discriminate |].
        intros [H | [x' [y' [_ [Hy _]]]]]; [apply String.eqb_neq in N; contradiction | discriminate].
    + unfold compare_values. pose proof N as N'. apply String.eqb_neq in N'. rewrite N', X. cbn.
      split; [discriminate |].
      intros [H | [x' [y' [Hx _]]]]; [contradiction | discriminate].
Qed.

(** X5: raising the tolerance never turns a match into a mismatch: a match at
    a tolerance that is not negative is a match at every larger tolerance. *)
Theorem compare_values_tolerance_monotone :
  forall expected actual tol1 tol2,
    Round.valid tol1 -> Round.valid tol2 ->
    F64.leb F64.zero tol1 = true -> F64.leb tol1 tol2 = true ->
    verdict (compare_values expected actual tol1) = Ok true ->
    verdict (compare_values expected actual tol2) = Ok true.
Proof.
  intros expected actual tol1 tol2 V1 V2 Z1 L.
  pose proof (leb_trans _ _ _ Z1 L) as Z2.
  destruct (String.eqb_spec (Py.strip expected) (Py.strip actual)) as [E | N].
  - unfold compare_values. rewrite E, String.eqb_refl. auto.
  - destruct (to_float_or_none (Py.strip expected)) as [x |] eqn:X.
    + destruct (to_float_or_none (Py.strip actual)) as [y |] eqn:Y.
      * rewrite (compare_values_numbers expected actual tol1 x y (leb_ltb_false _ _ Z1) N X Y).
        rewrite (compare_values_numbers expected actual tol2 x y (leb_ltb_false _ _ Z2) N X Y).
        cbn [verdict]. intro H. injection H as H.
        now rewrite (within_tolerance_monotone x y tol1 tol2
                       (float_of_str_valid _ _ X) (float_of_str_valid _ _ Y) V1 V2 Z1 L H).
      * unfold compare_values. apply String.eqb_neq in N. rewrite N, X, Y. auto.
    + unfold compare_values. apply String.eqb_neq in N. rewrite N, X. auto.
Qed.

Lemma compare_values_tolerance_monotone_witness :
  verdict (compare_values "1.0000" "1.0000001" F64.one) = Ok true.
Proof.
  apply (compare_values_tolerance_monotone "1.0000" "1.0000001" tol_1e_6 F64.one);
    vm_compute; reflexivity.
Defined.

(** ** The hint for a port that cannot be opened *)

Lemma str_lower_app a b : str_lower (a ++ b) = str_lower a ++ str_lower b.
Proof. induction a as [| c a IH]; simpl; [reflexivity | now rewrite IH]. Qed.

Lemma str_in_app sub pre post : str_in sub (pre ++ sub ++ post) = true.
Proof.
  induction pre as [| c pre IH].
  - change (EmptyString ++ sub ++ post) with (sub ++ post).
    destruct (sub ++ post) as [| c s] eqn:E.
    + destruct sub; [reflexivity | discriminate E].
    + cbn [str_in]. rewrite <- E, prefix_app. reflexivity.
  - change (String c pre ++ sub ++ post) with (String c (pre ++ sub ++ post)).
    cbn [str_in]. rewrite IH. apply orb_true_r.
Qed.

Lemma str_in_lower_app sub pre mid post :
  str_lower mid = sub -> str_in sub (str_lower (pre ++ mid ++ post)) = true.
Proof. intros <-. rewrite !str_lower_app. apply str_in_app. Qed.

(** X6: the hint goes by the phrases in the text of the error, in any letter
    case: a text that has [access is denied] or [permissionerror] somewhere
    gets the port-in-use hint whatever else it says; a text that has
    [cannot find the file specified] or [filenotfounderror] gets the
    no-such-port hint unless it also has one of the first two phrases; and
    the general hint is given exactly when none of the four phrases occurs. *)
Theorem serial_open_hint_by_phrase :
  forall text,
    (forall pre mid post,
        text = pre ++ mid ++ post ->
        str_lower mid = "access is denied" \/ str_lower mid = "permissionerror" ->
        serial_open_hint text = HINT_IN_USE)
    /\ (forall pre mid post,
           text = pre ++ mid ++ post ->
           str_lower mid = "cannot find the file specified"
           \/ str_lower mid = "filenotfounderror" ->
           serial_open_hint text
           = if str_in "access is denied" (str_lower text)
                || str_in "permissionerror" (str_lower text)
             then HINT_IN_USE else HINT_NO_PORT)
    /\ (serial_open_hint text = HINT_OTHER
        <-> str_in "access is denied" (str_lower text) = false
            /\ str_in "permissionerror" (str_lower text) = false
            /\ str_in "cannot find the file specified" (str_lower text) = false
            /\ str_in "filenotfounderror" (str_lower text) = false).
Proof.
  intro text. unfold serial_open_hint. cbv zeta. split; [| split].
  - intros pre mid post -> [H | H];
      rewrite (str_in_lower_app _ pre mid post H); [reflexivity |].
    now rewrite orb_true_r.
  - intros pre mid post -> H.
    destruct (str_in "access is denied" (str_lower (pre ++ mid ++ post))
              || str_in "permissionerror" (str_lower (pre ++ mid ++ post)));
      [reflexivity |].
    destruct H as [H | H]; rewrite (str_in_lower_app _ pre mid post H); [reflexivity |].
    now rewrite orb_true_r.
  - destruct (str_in "access is denied" (str_lower text));
      [split; [discriminate | intros [H _]; discriminate H] |].
    destruct (str_in "permissionerror" (str_lower text));
      [split; [discriminate | intros [_ [H _]]; discriminate H] |].
    destruct (str_in "cannot find the file specified" (str_lower text));
      [split; [discriminate | intros [_ [_ [H _]]]; discriminate H] |].
    destruct (str_in "filenotfounderror" (str_lower text));
      [split; [discriminate | intros [_ [_ [_ H]]]; discriminate H] |].
    cbn. tauto.
Qed.

(** ** Probing the floating-point calbytes *)

Lemma hd_skipn {A} (d : A) a l : hd d (skipn a l) = nth a l d.
Proof.
  revert l. induction a as [| a IH]; intro l; destruct l; try reflexivity.
  simpl. apply IH.
Qed.

Lemma tl_skipn {A} a (l : list A) : tl (skipn a l) = skipn (S a) l.
Proof.
  revert l. induction a as [| a IH]; intro l; destruct l; try reflexivity.
  change (tl (skipn a l) = skipn (S a) l). apply IH.
Qed.

Lemma probe_answers_S lines a :
  probe_answers lines (S a)
  = (probe_answers lines a
     ++ (if String.eqb (probe_answer lines a) "" then []
         else [(a, probe_answer lines a)]))%list.
Proof.
  unfold probe_answers. rewrite seq_S, map_app, filter_app. cbn [Nat.add map filter snd].
  now destruct (String.eqb (probe_answer lines a) "").
Qed.

Lemma probe_writes_S eol a :
  probe_writes eol (S a)
  = (probe_writes eol a ++ query_writes ("$CFT? " ++ Py.str_nat a) eol)%list.
Proof.
  unfold probe_writes. rewrite seq_S, flat_map_app. cbn [Nat.add flat_map].
  now rewrite app_nil_r.
Qed.

(** The loop, from any of its states: [a] probes are done, the last
    [consecutive_fail] of them failed, and so far five failures in a row
    never came with an index above ten. *)
Lemma probe_loop_run eol lines written0 n : forall a results consecutive_fail w,
  no_faults w = true ->
  ser_lines (w_ser w) = skipn a lines ->
  ser_written (w_ser w) = (written0 ++ probe_writes eol a)%list ->
  results = probe_answers lines a ->
  consecutive_fail <= a ->
  (forall i, a - consecutive_fail <= i < a -> probe_answer lines i = EmptyString) ->
  (consecutive_fail < a -> probe_answer lines (a - consecutive_fail - 1) <> EmptyString) ->
  (forall j, 12 <= j <= a ->
     exists i, j - 5 <= i < j /\ probe_answer lines i <> EmptyString) ->
  exists k w',
    probe_loop eol (seq a n) results consecutive_fail w = (Ok (probe_answers lines k), w')
    /\ a <= k <= a + n
    /\ ser_written (w_ser w') = (written0 ++ probe_writes eol k)%list
    /\ (k = a + n
        \/ (12 <= k /\ forall i, k - 5 <= i < k -> probe_answer lines i = EmptyString))
    /\ (forall j, 12 <= j < k ->
          exists i, j - 5 <= i < j /\ probe_answer lines i <> EmptyString).
Proof.
  induction n as [| n IH]; intros a results cf w F L W R C E P Q.
  - exists a, w. cbn [seq probe_loop]. unfold ret. subst results.
    split; [reflexivity |]. split; [lia |]. split; [exact W |].
    split; [left; lia |]. intros j Hj. apply Q. lia.
  - cbn [seq probe_loop]. unfold bind at 1. rewrite try_query_no_faults by exact F.
    assert (N : response_of (next_raw w) = probe_answer lines a).
    { unfold next_raw, probe_answer. now rewrite L, hd_skipn. }
    rewrite N.
    set (w1 := after_query ("$CFT? " ++ Py.str_nat a) eol w).
    assert (F1 : no_faults w1 = true) by (apply no_faults_after_query; exact F).
    assert (L1 : ser_lines (w_ser w1) = skipn (S a) lines).
    { unfold w1. rewrite lines_after_query, L. apply tl_skipn. }
    assert (W1 : ser_written (w_ser w1) = (written0 ++ probe_writes eol (S a))%list).
    { unfold w1. rewrite written_after_query, W, probe_writes_S. now rewrite app_assoc. }
    pose proof (probe_answers_S lines a) as RS.
    destruct (String.eqb_spec (probe_answer lines a) "") as [Z | NZ]; cbn [negb].
    + (* no answer *)
      rewrite app_nil_r in RS.
      destruct ((5 <=? S cf) && (10 <? a))%nat eqn:B.
      * apply andb_prop in B as [B5 B10].
        apply Nat.leb_le in B5. apply Nat.ltb_lt in B10.
        exists (S a), w1. unfold ret. subst results. rewrite RS.
        split; [reflexivity |]. split; [lia |]. split; [exact W1 |].
        split.
        -- right. split; [lia |]. intros i Hi.
           destruct (Nat.eq_dec i a) as [-> | Ne]; [exact Z | apply E; lia].
        -- intros j Hj. apply Q. lia.
      * destruct (IH (S a) results (S cf) w1 F1 L1 W1) as [k [w' [Ek [Hk [Wk [Sk Mk]]]]]].
        -- now rewrite RS.
        -- lia.
        -- intros i Hi. destruct (Nat.eq_dec i a) as [-> | Ne]; [exact Z | apply E; lia].
        -- intro H. replace (S a - S cf - 1) with (a - cf - 1) by lia. apply P. lia.
        -- intros j Hj. destruct (Nat.eq_dec j (S a)) as [-> | Ne]; [| apply Q; lia].
           apply andb_false_iff in B.
           assert (C4 : S cf < 5).
           { destruct B as [B | B]; [apply Nat.leb_gt in B; lia | apply Nat.ltb_ge in B; lia]. }
           exists (a - cf - 1). split; [lia | apply P; lia].
        -- exists k, w'. split; [exact Ek |]. split; [lia |]. split; [exact Wk |].
           split; [| exact Mk]. destruct Sk as [Sk | Sk]; [left; lia | right; exact Sk].
    + (* an answer *)
      destruct (IH (S a) (results ++ [(a, probe_answer lines a)])%list 0 w1 F1 L1 W1)
        as [k [w' [Ek [Hk [Wk [Sk Mk]]]]]].
      * now rewrite RS, R.
      * lia.
      * intros i Hi. lia.
      * intros _. replace (S a - 0 - 1) with a by lia. exact NZ.
      * intros j Hj. destruct (Nat.eq_dec j (S a)) as [-> | Ne]; [| apply Q; lia].
        exists a. split; [lia | exact NZ].
      * exists k, w'. split; [exact Ek |]. split; [lia |]. split; [exact Wk |].
        split; [| exact Mk]. destruct Sk as [Sk | Sk]; [left; lia | right; exact Sk].
Qed.

Lemma probe_cft_indices_run eol max_probe w :
  no_faults w = true ->
  exists k w',
    probe_cft_indices eol max_probe w
    = (Ok (probe_answers (ser_lines (w_ser w)) k), w')
    /\ k <= max_probe
    /\ ser_written (w_ser w') = (ser_written (w_ser w) ++ probe_writes eol k)%list
    /\ (k = max_probe
        \/ (12 <= k
            /\ forall i, k - 5 <= i < k ->
                 probe_answer (ser_lines (w_ser w)) i = EmptyString))
    /\ (forall j, 12 <= j < k ->
          exists i, j - 5 <= i < j /\ probe_answer (ser_lines (w_ser w)) i <> EmptyString).
Proof.
  intro F. unfold probe_cft_indices.
  destruct (probe_loop_run eol (ser_lines (w_ser w)) (ser_written (w_ser w)) max_probe
              0 [] 0 w F eq_refl)
    as [k [w' [E [Hk [W [S M]]]]]]; try reflexivity; try lia.
  - cbn. now rewrite app_nil_r.
  - exists k, w'. split; [exact E |]. split; [lia |]. split; [exact W |].
    split; [| exact M]. destruct S as [S | S]; [left; lia | right; exact S].
Qed.

(** X7: when no write to the port raises, [probe_cft_indices] returns, for some
    number [k <= max_probe] of probes made, the indices below [k] whose query
    got an answer, in increasing order, each with its trimmed answer; it sent
    exactly the queries [$CFT? 0 .. $CFT? k-1]; it stopped before [max_probe]
    only with [k >= 12] and the last five probes unanswered; and it did not
    go on past such a point. *)
Theorem probe_cft_indices_stops_after_five_failures :
  forall eol max_probe w,
    no_faults w = true ->
    exists k w',
      probe_cft_indices eol max_probe w
      = (Ok (probe_answers (ser_lines (w_ser w)) k), w')
      /\ k <= max_probe
      /\ ser_written (w_ser w') = (ser_written (w_ser w) ++ probe_writes eol k)%list
      /\ (k = max_probe
          \/ (12 <= k
              /\ forall i, k - 5 <= i < k ->
                   probe_answer (ser_lines (w_ser w)) i = EmptyString))
      /\ (forall j, 12 <= j < k ->
            exists i, j - 5 <= i < j
                      /\ probe_answer (ser_lines (w_ser w)) i <> EmptyString).
Proof. intros eol max_probe w F. exact (probe_cft_indices_run eol max_probe w F). Qed.

Lemma probe_cft_indices_stops_after_five_failures_witness :
  exists k w',
    probe_cft_indices LF 256
      (mk_world (mk_serial [] ["1.5" ++ LF; ""; "2.5" ++ LF] []) [])
    = (Ok (probe_answers ["1.5" ++ LF; ""; "2.5" ++ LF] k), w')
    /\ k <= 256.
Proof.
  destruct (probe_cft_indices_stops_after_five_failures LF 256
              (mk_world (mk_serial [] ["1.5" ++ LF; ""; "2.5" ++ LF] []) []) eq_refl)
    as [k [w' [E [H _]]]].
  exists k, w'. split; [exact E | exact H].
Defined.

Lemma probe_answers_silent lines k :
  (forall i, probe_answer lines i = EmptyString) -> probe_answers lines k = [].
Proof.
  intro H. unfold probe_answers. induction (seq 0 k) as [| i l IH]; [reflexivity |].
  cbn [map filter snd]. now rewrite H.
Qed.

(** X8: an instrument that answers nothing is given up after twelve probes: with
    [max_probe >= 12], exactly the queries [$CFT? 0 .. $CFT? 11] are sent and
    the result is the empty list. *)
Theorem probe_cft_indices_silent_instrument :
  forall eol max_probe w,
    no_faults w = true ->
    (forall i, probe_answer (ser_lines (w_ser w)) i = EmptyString) ->
    12 <= max_probe ->
    exists w',
      probe_cft_indices eol max_probe w = (Ok [], w')
      /\ ser_written (w_ser w') = (ser_written (w_ser w) ++ probe_writes eol 12)%list.
Proof.
  intros eol max_probe w F Z H.
  destruct (probe_cft_indices_run eol max_probe w F) as [k [w' [E [Hk [W [S M]]]]]].
  assert (K : k = 12).
  { destruct (Nat.lt_ge_cases 12 k) as [G | G].
    - destruct (M 12 ltac:(lia)) as [i [_ N]]. now elim N.
    - destruct S as [S | [S _]]; lia. }
  subst k. exists w'. rewrite E, (probe_answers_silent _ 12 Z). auto.
Qed.

Lemma probe_cft_indices_silent_instrument_witness :
  exists w',
    probe_cft_indices LF 256 (mk_world (mk_serial [] [] []) []) = (Ok [], w')
    /\ ser_written (w_ser w') = ([] ++ probe_writes LF 12)%list.
Proof.
  apply (probe_cft_indices_silent_instrument LF 256 (mk_world (mk_serial [] [] []) [])).
  - reflexivity.
  - intro i. unfold probe_answer. cbn [ser_lines w_ser]. now destruct i.
  - lia.
Defined.

(** ** What goes over the wire and what comes back *)

Lemma filter_str_all f s : str_forall f (Py.filter_str f s) = true.
Proof.
  induction s as [| c s IH]; [reflexivity |]. simpl.
  destruct (f c) eqn:E; [simpl; now rewrite E | exact IH].
Qed.

Lemma filter_str_id f s : str_forall f s = true -> Py.filter_str f s = s.
Proof.
  induction s as [| c s IH]; [reflexivity |]. simpl. intro H.
  apply andb_prop in H as [Hc Hs]. now rewrite Hc, (IH Hs).
Qed.

Lemma lstrip_forall f s : str_forall f s = true -> str_forall f (Py.lstrip s) = true.
Proof.
  induction s as [| c s IH]; [reflexivity |]. simpl. intro H.
  destruct (Py.is_space c); [apply IH; now apply andb_prop in H | exact H].
Qed.

Lemma rstrip_forall f s : str_forall f s = true -> str_forall f (Py.rstrip s) = true.
Proof.
  induction s as [| c s IH]; [reflexivity |]. simpl. intro H.
  apply andb_prop in H as [Hc Hs]. specialize (IH Hs).
  destruct (Py.rstrip s) as [| d r].
  - destruct (Py.is_space c); [reflexivity | simpl; now rewrite Hc].
  - simpl. simpl in IH. now rewrite Hc, IH.
Qed.

Lemma lstrip_head s :
  Py.lstrip s = EmptyString
  \/ exists c r, Py.lstrip s = String c r /\ Py.is_space c = false.
Proof.
  induction s as [| c s IH]; [now left |]. simpl.
  destruct (Py.is_space c) eqn:E; [exact IH | right; eauto].
Qed.

Lemma rstrip_head c r :
  Py.is_space c = false -> exists r', Py.rstrip (String c r) = String c r'.
Proof.
  intro H. simpl. destruct (Py.rstrip r) as [| d r'].
  - rewrite H. eauto.
  - eauto.
Qed.

Lemma strip_idem s : Py.strip (Py.strip s) = Py.strip s.
Proof.
  unfold Py.strip at 1.
  assert (L : Py.lstrip (Py.strip s) = Py.strip s).
  { unfold Py.strip. destruct (lstrip_head s) as [E | [c [r [E H]]]]; rewrite E.
    - reflexivity.
    - destruct (rstrip_head c r H) as [r' E']. rewrite E'. simpl. now rewrite H. }
  rewrite L. apply strip_fixed.
Qed.

Lemma lstrip_blank s : str_forall Py.is_space s = true -> Py.lstrip s = EmptyString.
Proof.
  induction s as [| c s IH]; [reflexivity |]. simpl. intro H.
  apply andb_prop in H as [Hc Hs]. rewrite Hc. exact (IH Hs).
Qed.

Lemma response_of_trimmed raw :
  Py.strip (response_of raw) = response_of raw
  /\ str_forall Py.is_ascii (response_of raw) = true.
Proof.
  unfold response_of. split; [apply strip_idem |].
  unfold Py.strip, Py.decode_ascii. apply rstrip_forall, lstrip_forall, filter_str_all.
Qed.

(** X9: [send_cmd] puts a bare newline and then the command with its terminator
    on the wire, as ASCII: characters outside ASCII are left out, and a
    command and terminator that are ASCII go out unchanged, as all read and
    write commands of the catalog do.  It reads nothing. *)
Theorem send_cmd_writes_ascii :
  forall cmd eol w,
    fault_at 0 w = false -> fault_at 1 w = false ->
    exists w',
      send_cmd cmd eol w = (Ok tt, w')
      /\ ser_written (w_ser w')
         = (ser_written (w_ser w) ++ [LF; Py.encode_ascii (cmd ++ eol)])%list
      /\ ser_lines (w_ser w') = ser_lines (w_ser w)
      /\ str_forall Py.is_ascii (Py.encode_ascii (cmd ++ eol)) = true
      /\ (str_forall Py.is_ascii (cmd ++ eol) = true ->
          Py.encode_ascii (cmd ++ eol) = cmd ++ eol)
      /\ forallb (fun it => str_forall Py.is_ascii (it_cmd_read it)
                            && str_forall Py.is_ascii (it_cmd_write it))
                 (build_dump_items tt) = true.
Proof.
  intros cmd eol w F0 F1. rewrite send_cmd_eq, F0, F1.
  eexists. split; [reflexivity |].
  split; [unfold wrote; cbn; now rewrite <- app_assoc |].
  split; [reflexivity |].
  split; [apply filter_str_all |].
  split; [apply filter_str_id | vm_compute; reflexivity].
Qed.

Lemma send_cmd_writes_ascii_witness :
  exists w',
    send_cmd ("$FRQ 1" ++ String "233"%char "") LF (mk_world (mk_serial [] [] []) [])
    = (Ok tt, w')
    /\ ser_written (w_ser w') = [LF; "$FRQ 1" ++ LF].
Proof.
  destruct (send_cmd_writes_ascii ("$FRQ 1" ++ String "233"%char "") LF
              (mk_world (mk_serial [] [] []) []) eq_refl eq_refl)
    as [w' [E [W _]]].
  exists w'. split; [exact E | exact W].
Defined.

(** X10: the response of a query never has white space around it nor a character
    outside ASCII; a reply that is only white space (or only characters
    outside ASCII) is no reply: the query fails with the empty response. *)
Theorem try_query_response_is_trimmed_ascii :
  forall cmd eol w ok resp w',
    try_query cmd eol w = (Ok (ok, resp), w') ->
    Py.strip resp = resp
    /\ str_forall Py.is_ascii resp = true
    /\ (str_forall Py.is_space (Py.decode_ascii (next_raw w)) = true ->
        ok = false /\ resp = EmptyString).
Proof.
  intros cmd eol w ok resp w' H. rewrite try_query_eq in H.
  destruct (fault_at 0 w); [discriminate H |].
  destruct (fault_at 1 w); [discriminate H |].
  destruct (fault_at 2 w); [discriminate H |].
  cbv zeta in H. injection H as Hok Hresp _. subst ok resp.
  destruct (response_of_trimmed (next_raw w)) as [T A].
  split; [exact T |]. split; [exact A |].
  intro B. assert (E : response_of (next_raw w) = EmptyString).
  { unfold response_of, Py.strip. now rewrite (lstrip_blank _ B). }
  rewrite E. split; reflexivity.
Qed.

Lemma try_query_response_is_trimmed_ascii_witness :
  Py.strip "SR720" = "SR720" /\ str_forall Py.is_ascii "SR720" = true.
Proof.
  destruct (try_query_response_is_trimmed_ascii "*IDN?" LF
              (mk_world (mk_serial [] ["  SR720" ++ String "233"%char (" " ++ LF)] []) [])
              true "SR720"
              (after_query "*IDN?" LF
                 (mk_world (mk_serial [] ["  SR720" ++ String "233"%char (" " ++ LF)] []) []))
              eq_refl) as [A [B _]].
  exact (conj A B).
Defined.

(** ** A dump is all or nothing *)

Lemma fault_at_after_query k cmd eol w :
  fault_at k (after_query cmd eol w) = fault_at (3 + k) w.
Proof.
  unfold after_query.
  change (fault_at k (did_read ?x)) with (fault_at k x).
  now rewrite !fault_at_wrote.
Qed.

Lemma dump_item_outcome cfg it acc w :
  (fault_at 0 w = false -> fault_at 1 w = false -> fault_at 2 w = false ->
   exists acc' w',
     dump_item cfg it acc w = (Ok acc', w')
     /\ forall k, fault_at k w' = fault_at (3 + k) w)
  /\ (fault_at 0 w = true \/ fault_at 1 w = true \/ fault_at 2 w = true ->
      exists w', dump_item cfg it acc w = (Raise SerialTimeoutException, w')).
Proof.
  destruct acc as [[rows ok_count] fail_count].
  unfold dump_item, bind. rewrite try_query_eq. split.
  - intros F0 F1 F2. rewrite F0, F1, F2. cbv zeta.
    destruct (negb (String.eqb (response_of (next_raw w)) "")); rewrite log_write_eq;
      eexists; eexists; (split; [reflexivity |]); intro k;
      rewrite fault_at_logged; apply fault_at_after_query.
  - intros H.
    destruct (fault_at 0 w); [eauto |].
    destruct (fault_at 1 w); [eauto |].
    destruct (fault_at 2 w); [eauto |].
    destruct H as [H | [H | H]]; discriminate H.
Qed.

Lemma dump_loop_outcome cfg items : forall acc w,
  ((forall k, k < 3 * List.length items -> fault_at k w = false) ->
   exists acc' w', for_each items (dump_item cfg) acc w = (Ok acc', w'))
  /\ (forall k, k < 3 * List.length items -> fault_at k w = true ->
      exists w', for_each items (dump_item cfg) acc w = (Raise SerialTimeoutException, w')).
Proof.
  induction items as [| it items IH]; intros acc w.
  - split; [intros _; cbn; unfold ret; eauto | intros k Hk; cbn in Hk; lia].
  - cbn [for_each List.length]. unfold bind at 1 2.
    destruct (dump_item_outcome cfg it acc w) as [Good Bad].
    split.
    + intro H.
      destruct (Good (H 0 ltac:(lia)) (H 1 ltac:(lia)) (H 2 ltac:(lia)))
        as [acc1 [w1 [E1 S1]]].
      rewrite E1. apply (proj1 (IH acc1 w1)).
      intros k Hk. rewrite S1. apply H. lia.
    + intros k Hk Fk.
      destruct (fault_at 0 w) eqn:F0; [destruct (Bad (or_introl eq_refl)) as [w' E];
                                        rewrite E; eauto |].
      destruct (fault_at 1 w) eqn:F1; [destruct (Bad (or_intror (or_introl eq_refl))) as [w' E];
                                        rewrite E; eauto |].
      destruct (fault_at 2 w) eqn:F2; [destruct (Bad (or_intror (or_intror eq_refl))) as [w' E];
                                        rewrite E; eauto |].
      destruct (Good eq_refl eq_refl eq_refl) as [acc1 [w1 [E1 S1]]].
      rewrite E1.
      assert (K3 : 3 <= k).
      { destruct k as [| [| [| k]]]; [congruence | congruence | congruence | lia]. }
      apply (proj2 (IH acc1 w1) (k - 3)); [lia |].
      rewrite S1. replace (3 + (k - 3)) with k by lia. exact Fk.
Qed.

(** X11: the dump makes 681 writes to the port (three for each of the 227
    queries).  It returns rows exactly when none of them raises; when one
    does, the exception leaves [dump_to_csv] before any row is handed to the
    snapshot file, and before the end banner is logged. *)
Theorem dump_is_all_or_nothing :
  forall env cfg w,
    ((forall k, k < 681 -> fault_at k w = false) ->
     exists rows stats w', dump_to_csv env cfg w = (Ok (rows, stats), w'))
    /\ (forall k, k < 681 -> fault_at k w = true ->
        exists w', dump_to_csv env cfg w = (Raise SerialTimeoutException, w')).
Proof.
  intros env cfg w.
  set (w0 := logged (LF ++ "--- DUMP START " ++ env_ctime env ++ " ---" ++ LF) w).
  assert (D : forall r w1,
             for_each (build_dump_items tt) (dump_item cfg) ([], 0, 0) w0 = (r, w1) ->
             match r with
             | Ok _ => exists rows stats w', dump_to_csv env cfg w = (Ok (rows, stats), w')
             | Raise e => dump_to_csv env cfg w = (Raise e, w1)
             end).
  { intros r w1 E. unfold dump_to_csv, bind. rewrite log_write_eq. fold w0. rewrite E.
    destruct r as [[[rows o] f] | e]; [| reflexivity].
    rewrite log_write_eq. unfold ret. eauto. }
  assert (L : 3 * List.length (build_dump_items tt) = 681) by (vm_compute; reflexivity).
  destruct (dump_loop_outcome cfg (build_dump_items tt) ([], 0, 0) w0) as [Good Bad].
  rewrite L in Good, Bad. split.
  - intro H. destruct (Good H) as [acc [w1 E]]. exact (D _ _ E).
  - intros k Hk Fk. destruct (Bad k Hk Fk) as [w1 E]. exists w1. exact (D _ _ E).
Qed.

(** ** Restore: what stops it and what it sends *)

Lemma for_each_app {S A B} (xs ys : list A) (body : A -> B -> M S B) : forall acc s,
  for_each (xs ++ ys) body acc s
  = match for_each xs body acc s with
    | (Ok acc', s') => for_each ys body acc' s'
    | (Raise e, s') => (Raise e, s')
    end.
Proof.
  induction xs as [| x xs IH]; intros acc s; [reflexivity |].
  cbn [app for_each]. unfold bind at 1 2.
  destruct (body x acc s) as [[acc1 | e] s1]; [apply IH | reflexivity].
Qed.

(** X12: a row that is not skipped and whose write command has no segment left
    once the blank pieces between the semicolons are dropped (the command
    [;] is one) stops restore, in a dry run or not: taking the last segment
    raises [IndexError] outside the [try], so the rows after it are not
    processed and the run returns no counts. *)
Theorem restore_stops_at_a_command_of_blank_segments :
  forall env cfg pre r post dry_run w,
    fault_at 0 w = false -> fault_at 1 w = false -> fault_at 2 w = false ->
    forallb buildable pre = true ->
    is_skipped r = false ->
    segments (row_write_text r) = [] ->
    exists w', restore_from_csv env cfg (pre ++ r :: post) dry_run w = (Raise IndexError, w').
Proof.
  intros env cfg pre r post dry_run w F0 F1 F2 B K G.
  rewrite restore_from_csv_eq by assumption.
  rewrite for_each_app.
  destruct (restore_loop_balanced cfg dry_run pre
              (mk_rstate (restore_start env cfg dry_run w) no_counts) B) as [s1 [E _]].
  rewrite E. destruct tt. cbn [for_each]. unfold bind at 1.
  assert (U : row_full_cmd r = Raise IndexError).
  { unfold row_full_cmd, build_full_cmd. now rewrite G. }
  rewrite (restore_row_unbuildable cfg dry_run r s1 IndexError K U). eauto.
Qed.

Lemma restore_stops_at_a_command_of_blank_segments_witness :
  exists w',
    restore_from_csv (mk_env "Wed Nov  4 10:00:00 2026" (fun _ => "1e-06"))
      (mk_cfg "COM5" 9600 8 "N" 1 F64.one F64.one LF)
      ([mk_row (Some "RND") (Some "$RND?") (Some "$RND") (Some "global") (Some "1") None]
       ++ mk_row (Some "X") (Some "") (Some " ; ") (Some "global") (Some "2") None
       :: [mk_row (Some "FRQ") (Some "$FRQ?") (Some "$FRQ") (Some "global") (Some "3") None])
      true (mk_world (mk_serial [] [] []) [])
    = (Raise IndexError, w').
Proof.
  apply restore_stops_at_a_command_of_blank_segments; reflexivity.
Defined.

(** X13: restore talks to the instrument before it looks at the rows, in a dry
    run too: when one of the three writes of the identity query raises, the
    exception leaves [restore_from_csv] with nothing but the start banner
    logged, whatever the rows are. *)
Theorem restore_needs_the_port_first :
  forall env cfg rows dry_run w,
    fault_at 0 w = true \/ fault_at 1 w = true \/ fault_at 2 w = true ->
    exists w',
      restore_from_csv env cfg rows dry_run w = (Raise SerialTimeoutException, w')
      /\ w_log w' = (w_log w ++ [restore_banner env dry_run])%list
      /\ ser_lines (w_ser w') = ser_lines (w_ser w).
Proof.
  intros env cfg rows dry_run w H. unfold restore_from_csv, restore_body.
  unfold bind at 1. rewrite in_world_eq, log_write_eq. cbn [fst snd rs_world rs_counts].
  fold (restore_banner env dry_run).
  unfold bind at 1. rewrite in_world_eq. cbn [rs_world rs_counts].
  rewrite try_query_eq, !fault_at_logged.
  destruct (fault_at 0 w); [cbn; eauto |].
  destruct (fault_at 1 w); [cbn; eauto |].
  destruct (fault_at 2 w); [cbn; eauto |].
  destruct H as [H | [H | H]]; discriminate H.
Qed.

Lemma restore_needs_the_port_first_witness :
  exists w',
    restore_from_csv (mk_env "Wed Nov  4 10:00:00 2026" (fun _ => "1e-06"))
      (mk_cfg "COM5" 9600 8 "N" 1 F64.one F64.one LF)
      [mk_row (Some "RND") (Some "$RND?") (Some "$RND") (Some "global") (Some "1") None]
      true (mk_world (mk_serial [] [] [false; true]) [])
    = (Raise SerialTimeoutException, w')
    /\ w_log w'
       = ([] ++ [restore_banner (mk_env "Wed Nov  4 10:00:00 2026" (fun _ => "1e-06")) true])%list
    /\ ser_lines (w_ser w') = [].
Proof.
  apply (restore_needs_the_port_first
           (mk_env "Wed Nov  4 10:00:00 2026" (fun _ => "1e-06"))
           (mk_cfg "COM5" 9600 8 "N" 1 F64.one F64.one LF)
           [mk_row (Some "RND") (Some "$RND?") (Some "$RND") (Some "global") (Some "1") None]
           true (mk_world (mk_serial [] [] [false; true]) [])).
  right. left. reflexivity.
Defined.

(** *** On a port that raises nothing *)

Ltac healthy_row_done :=
  cbn [rs_world rs_counts logged w_ser w_log inc_write inc_failures inc_bad_verify
       inc_skip skip_count write_count dry_count write_fail_count failures
       bad_verify_count];
  rewrite ?app_nil_r; repeat split; try lia; try assumption.

Lemma restore_row_healthy cfg r s :
  no_faults (rs_world s) = true -> buildable r = true ->
  exists s',
    restore_row cfg false r tt s = (Ok tt, s')
    /\ no_faults (rs_world s') = true
    /\ ser_written (w_ser (rs_world s'))
       = (ser_written (w_ser (rs_world s)) ++ row_traffic cfg r)%list
    /\ skip_count (rs_counts s')
       = skip_count (rs_counts s) + (if is_skipped r then 1 else 0)
    /\ write_count (rs_counts s')
       = write_count (rs_counts s) + (if is_skipped r then 0 else 1)
    /\ dry_count (rs_counts s') = dry_count (rs_counts s)
    /\ write_fail_count (rs_counts s') = write_fail_count (rs_counts s)
    /\ failures (rs_counts s') + bad_verify_count (rs_counts s)
       = failures (rs_counts s) + bad_verify_count (rs_counts s')
    /\ bad_verify_count (rs_counts s) <= bad_verify_count (rs_counts s')
    /\ bad_verify_count (rs_counts s')
       <= bad_verify_count (rs_counts s) + (if is_skipped r then 0 else 1).
Proof.
  intros F Hb. unfold buildable in Hb. unfold row_traffic.
  destruct (is_skipped r) eqn:K.
  - eexists. split; [apply restore_row_skipped; exact K |]. healthy_row_done.
  - cbn [orb] in Hb. destruct (row_full_cmd r) as [full_cmd | e] eqn:B; [| discriminate Hb].
    destruct (restore_row_live cfg r s full_cmd K B) as [_ L].
    assert (E : send_cmd full_cmd (cfg_eol cfg) (rs_world s)
                = (Ok tt, wrote (Py.encode_ascii (full_cmd ++ cfg_eol cfg))
                                (wrote LF (rs_world s)))).
    { rewrite send_cmd_eq, !no_faults_fault_at by exact F. reflexivity. }
    set (w1 := wrote (Py.encode_ascii (full_cmd ++ cfg_eol cfg)) (wrote LF (rs_world s))) in *.
    assert (F1 : no_faults w1 = true) by (unfold w1; now repeat apply no_faults_wrote).
    assert (W1 : ser_written (w_ser w1)
                 = (ser_written (w_ser (rs_world s))
                    ++ [LF; Py.encode_ascii (full_cmd ++ cfg_eol cfg)])%list).
    { unfold w1, wrote. cbn. now rewrite <- app_assoc. }
    clearbody w1.
    destruct (L w1 E) as [L0 L1].
    destruct (String.eqb_spec (row_read_text r) "") as [C | C].
    + eexists. split; [apply L0; exact C |]. healthy_row_done.
    + destruct (L1 C) as [_ [Q2 [Q3 Q4]]].
      pose proof (try_query_no_faults (row_read_text r) (cfg_eol cfg) w1 F1) as Q.
      set (w2 := after_query (row_read_text r) (cfg_eol cfg) w1) in *.
      assert (F2 : no_faults w2 = true) by (apply no_faults_after_query; exact F1).
      assert (W2 : ser_written (w_ser w2)
                   = (ser_written (w_ser (rs_world s))
                      ++ [LF; Py.encode_ascii (full_cmd ++ cfg_eol cfg)]
                      ++ query_writes (row_read_text r) (cfg_eol cfg))%list).
      { unfold w2. rewrite written_after_query, W1. now rewrite <- app_assoc. }
      clearbody w2.
      destruct (String.eqb (response_of (next_raw w1)) "") eqn:Z; cbn [negb] in Q.
      * eexists. split; [eapply Q2; exact Q |]. healthy_row_done.
      * destruct (compare_values_zero_tol (row_value_text r)
                    (Py.strip (response_of (next_raw w1)))) as [[] [delta V]].
        -- eexists. split; [eapply Q3; [exact Q | exact V] |]. healthy_row_done.
        -- eexists. split; [eapply Q4; [exact Q | exact V] |]. healthy_row_done.
Qed.

Lemma restore_loop_healthy cfg rows : forall s,
  no_faults (rs_world s) = true -> forallb buildable rows = true ->
  exists s',
    for_each rows (restore_row cfg false) tt s = (Ok tt, s')
    /\ ser_written (w_ser (rs_world s'))
       = (ser_written (w_ser (rs_world s)) ++ flat_map (row_traffic cfg) rows)%list
    /\ skip_count (rs_counts s')
       = skip_count (rs_counts s) + List.length (filter is_skipped rows)
    /\ write_count (rs_counts s')
       = write_count (rs_counts s)
         + List.length (filter (fun r => negb (is_skipped r)) rows)
    /\ dry_count (rs_counts s') = dry_count (rs_counts s)
    /\ write_fail_count (rs_counts s') = write_fail_count (rs_counts s)
    /\ failures (rs_counts s') + bad_verify_count (rs_counts s)
       = failures (rs_counts s) + bad_verify_count (rs_counts s')
    /\ bad_verify_count (rs_counts s')
       <= bad_verify_count (rs_counts s)
          + List.length (filter (fun r => negb (is_skipped r)) rows).
Proof.
  induction rows as [| r rows IH]; intros s F H.
  - exists s. cbn. rewrite app_nil_r. repeat split; lia.
  - cbn [forallb] in H. apply andb_prop in H as [Hr Hrows].
    destruct (restore_row_healthy cfg r s F Hr)
      as [s1 [E1 [F1 [W1 [K1 [R1 [D1 [X1 [B1 [M1 N1]]]]]]]]]].
    destruct (IH s1 F1 Hrows) as [s' [E' [W' [K' [R' [D' [X' [B' N']]]]]]]].
    exists s'. cbn [for_each]. unfold bind at 1. rewrite E1.
    split; [exact E' |].
    cbn [flat_map filter]. rewrite W', W1, <- app_assoc.
    split; [reflexivity |].
    destruct (is_skipped r); cbn [negb List.length]; repeat split; lia.
Qed.

(** X14: restore on a port that raises nothing, over rows whose write commands
    have a last segment: it returns; after the identity query it sends, row
    by row in file order, the write command of each row that is not skipped,
    followed by the query of the row's read command when there is one, and
    nothing else; every row is either skipped or written; no write failure is
    counted, and the failures are the failed verifications, at most one for
    each written row. *)
Theorem restore_on_a_healthy_port :
  forall env cfg rows w,
    no_faults w = true -> forallb buildable rows = true ->
    exists stats w',
      restore_from_csv env cfg rows false w = (Ok stats, w')
      /\ ser_written (w_ser w')
         = (ser_written (w_ser w) ++ query_writes "*IDN?" (cfg_eol cfg)
            ++ flat_map (row_traffic cfg) rows)%list
      /\ rst_total stats = List.length rows
      /\ rst_skipped stats = List.length (filter is_skipped rows)
      /\ rst_writes stats = List.length (filter (fun r => negb (is_skipped r)) rows)
      /\ rst_skipped stats + rst_writes stats = rst_total stats
      /\ rst_dry_run stats = 0
      /\ rst_write_fail stats = 0
      /\ rst_failures stats = rst_bad_verify stats
      /\ rst_bad_verify stats <= rst_writes stats.
Proof.
  intros env cfg rows w F B.
  rewrite restore_from_csv_eq by (apply no_faults_fault_at; exact F).
  set (s0 := mk_rstate (restore_start env cfg false w) no_counts).
  assert (F0 : no_faults (rs_world s0) = true).
  { unfold s0, restore_start. cbn [rs_world]. rewrite no_faults_logged.
    apply no_faults_after_query. now rewrite no_faults_logged. }
  assert (W0 : ser_written (w_ser (rs_world s0))
               = (ser_written (w_ser w) ++ query_writes "*IDN?" (cfg_eol cfg))%list).
  { unfold s0, restore_start. cbn [rs_world logged w_ser]. now rewrite written_after_query. }
  destruct (restore_loop_healthy cfg rows s0 F0 B)
    as [s' [E [W [K [R [D [X [Bv N]]]]]]]].
  rewrite E. eexists. eexists. split; [reflexivity |].
  cbn [w_ser stats_of rst_total rst_skipped rst_writes rst_dry_run rst_write_fail
       rst_failures rst_bad_verify].
  unfold s0 in K, R, D, X, Bv, N. cbn [rs_counts no_counts failures skip_count dry_count
       write_count bad_verify_count write_fail_count] in K, R, D, X, Bv, N.
  split; [rewrite W, W0; now rewrite <- app_assoc |].
  pose proof (filter_partition_length is_skipped rows).
  repeat split; lia.
Qed.

Lemma restore_on_a_healthy_port_witness :
  exists stats w',
    restore_from_csv (mk_env "Wed Nov  4 10:00:00 2026" (fun _ => "1e-06"))
      (mk_cfg "COM5" 9600 8 "N" 1 F64.one F64.one LF)
      [mk_row (Some "CBT[3]") (Some "$CBT? 3") (Some "$CBT 3") (Some "global") (Some "17") None]
      false (mk_world (mk_serial [] ["SR720" ++ LF; "17" ++ LF] []) [])
    = (Ok stats, w')
    /\ rst_writes stats = 1
    /\ rst_write_fail stats = 0.
Proof.
  destruct (restore_on_a_healthy_port
              (mk_env "Wed Nov  4 10:00:00 2026" (fun _ => "1e-06"))
              (mk_cfg "COM5" 9600 8 "N" 1 F64.one F64.one LF)
              [mk_row (Some "CBT[3]") (Some "$CBT? 3") (Some "$CBT 3") (Some "global")
                      (Some "17") None]
              (mk_world (mk_serial [] ["SR720" ++ LF; "17" ++ LF] []) [])
              eq_refl eq_refl)
    as [stats [w' [E [_ [_ [_ [Wr [_ [_ [Wf _]]]]]]]]]].
  exists stats, w'. split; [exact E |]. split; [exact Wr | exact Wf].
Defined.

(** *** Replaying a dump *)

Lemma catalog_row_buildable it value :
  In it (build_dump_items tt) -> buildable (row_of_snapshot (mk_snap it value)) = true.
Proof.
  intro H. apply in_catalog in H.
  unfold buildable, is_skipped, row_full_cmd, row_write_text, row_value_text, row_of_snapshot.
  cbn [sn_item sn_value row_cmd_write row_value Py.or_empty].
  destruct H as [[H | [H | H]] | [[i [_ H]] | [[r [_ [H | H]]] | [i [_ H]]]]]; subst it.
  - reflexivity.
  - cbn [it_cmd_write].
    rewrite (build_full_cmd_segments "$FRQ" (Py.strip value) [] "$FRQ" eq_refl).
    apply orb_true_r.
  - cbn [it_cmd_write].
    rewrite (build_full_cmd_segments "$RND" (Py.strip value) [] "$RND" eq_refl).
    apply orb_true_r.
  - change (it_cmd_write (cbt_item i)) with ("$CBT" ++ " " ++ Py.str_nat i).
    rewrite (full_cmd_indexed "$CBT" i (Py.strip value) (or_introl eq_refl)).
    apply orb_true_r.
  - change (it_cmd_write (cmj_item r)) with ("$CRN " ++ Py.str_nat r ++ ";" ++ "$CMJ").
    rewrite (full_cmd_range r "$CMJ" (Py.strip value) (or_introl eq_refl)).
    apply orb_true_r.
  - change (it_cmd_write (cmn_item r)) with ("$CRN " ++ Py.str_nat r ++ ";" ++ "$CMN").
    rewrite (full_cmd_range r "$CMN" (Py.strip value) (or_intror eq_refl)).
    apply orb_true_r.
  - change (it_cmd_write (cft_item i)) with ("$CFT" ++ " " ++ Py.str_nat i).
    rewrite (full_cmd_indexed "$CFT" i (Py.strip value) (or_intror eq_refl)).
    apply orb_true_r.
Qed.

(** X15: every row of a dump can be replayed: whatever the instrument answered,
    each row that the dump writes either is skipped by restore (the identity
    row, which has no write command, and the rows of failed reads) or has a
    write command that restore can build; so restoring the rows of a dump
    never stops with the [IndexError] of an empty command, and the rows it
    skips are exactly the identity row and the rows without a value. *)
Theorem dump_rows_can_be_replayed :
  forall lines,
    forallb buildable (map row_of_snapshot (dump_rows (build_dump_items tt) lines)) = true
    /\ (forall r, In r (dump_rows (build_dump_items tt) lines) ->
          is_skipped (row_of_snapshot r) = true
          <-> (it_key (sn_item r) = "IDN" \/ Py.strip (sn_value r) = EmptyString)).
Proof.
  intro lines. split.
  - apply forallb_forall. intros r H. apply in_map_iff in H as [sr [<- H]].
    destruct sr as [it value].
    apply catalog_row_buildable.
    rewrite <- (dump_rows_items (build_dump_items tt) lines).
    apply in_map_iff. exists (mk_snap it value). auto.
  - intros [it value] H.
    assert (I : In it (build_dump_items tt)).
    { rewrite <- (dump_rows_items (build_dump_items tt) lines).
      apply in_map_iff. exists (mk_snap it value). auto. }
    unfold is_skipped, row_write_text, row_value_text, row_of_snapshot.
    cbn [sn_item sn_value row_cmd_write row_value Py.or_empty].
    rewrite orb_true_iff, !String.eqb_eq.
    assert (W : Py.strip (it_cmd_write it) = EmptyString <-> it_key it = "IDN").
    { apply in_catalog in I.
      destruct I as [[I | [I | I]] | [[i [_ I]] | [[r [_ [I | I]]] | [i [_ I]]]]]; subst it;
        cbn [it_cmd_write it_key cbt_item cmj_item cmn_item cft_item];
        try (split; [reflexivity | reflexivity]);
        try (split; intro X; discriminate X).
      - split; intro X; exfalso; [| discriminate X].
        change ("$CBT " ++ Py.str_nat i) with ("$CBT" ++ " " ++ Py.str_nat i) in X.
        rewrite strip_indexed_cmd in X by auto. discriminate X.
      - split; intro X; exfalso; [| discriminate X].
        change ("$CRN " ++ Py.str_nat r ++ ";$CMJ")
          with ("$CRN " ++ Py.str_nat r ++ ";" ++ "$CMJ") in X.
        rewrite strip_range_cmd in X by auto. discriminate X.
      - split; intro X; exfalso; [| discriminate X].
        change ("$CRN " ++ Py.str_nat r ++ ";$CMN")
          with ("$CRN " ++ Py.str_nat r ++ ";" ++ "$CMN") in X.
        rewrite strip_range_cmd in X by auto. discriminate X.
      - split; intro X; exfalso; [| discriminate X].
        change ("$CFT " ++ Py.str_nat i) with ("$CFT" ++ " " ++ Py.str_nat i) in X.
        rewrite strip_indexed_cmd in X by auto. discriminate X. }
    rewrite W. reflexivity.
Qed.

(** ** Compare: what it sends, and a negative tolerance *)

Lemma compare_row_traffic cfg tol r acc w :
  no_faults w = true -> F64.ltb tol F64.zero = false ->
  exists acc' w1,
    compare_row cfg tol r acc w = (Ok acc', w1)
    /\ no_faults w1 = true
    /\ ser_written (w_ser w1) = (ser_written (w_ser w) ++ compare_traffic cfg r)%list.
Proof.
  intros F T. unfold compare_row, compare_traffic.
  fold (row_key_text r) (row_read_text r) (row_value_text r).
  change (String.eqb (row_read_text r) "" || String.eqb (row_value_text r) "")
    with (cmp_skipped r).
  destruct (cmp_skipped r).
  - unfold bind. rewrite log_write_eq. eexists. eexists.
    split; [reflexivity |]. split; [exact F |]. cbn [logged w_ser]. now rewrite app_nil_r.
  - unfold bind at 1. rewrite try_query_no_faults by exact F.
    pose proof (no_faults_after_query (row_read_text r) (cfg_eol cfg) w F) as F1.
    pose proof (written_after_query (row_read_text r) (cfg_eol cfg) w) as W1.
    set (w1 := after_query (row_read_text r) (cfg_eol cfg) w) in *. clearbody w1.
    destruct (String.eqb (response_of (next_raw w)) ""); cbn [negb].
    + unfold bind. rewrite log_write_eq. eexists. eexists.
      split; [reflexivity |]. split; [exact F1 | exact W1].
    + destruct (compare_values_total (row_value_text r) (response_of (next_raw w)) tol T)
        as [is_match [delta V]].
      rewrite V. destruct is_match; unfold bind; rewrite log_write_eq; eexists; eexists;
        (split; [reflexivity |]); (split; [exact F1 | exact W1]).
Qed.

Lemma compare_loop_traffic cfg tol rows : forall acc w,
  no_faults w = true -> F64.ltb tol F64.zero = false ->
  exists acc' w',
    for_each rows (compare_row cfg tol) acc w = (Ok acc', w')
    /\ ser_written (w_ser w')
       = (ser_written (w_ser w) ++ flat_map (compare_traffic cfg) rows)%list.
Proof.
  induction rows as [| r rows IH]; intros acc w F T.
  - exists acc, w. cbn. now rewrite app_nil_r.
  - destruct (compare_row_traffic cfg tol r acc w F T) as [acc1 [w1 [E1 [F1 W1]]]].
    destruct (IH acc1 w1 F1 T) as [acc' [w' [E' W']]].
    exists acc', w'. cbn [for_each flat_map]. unfold bind at 1. rewrite E1.
    split; [exact E' |]. rewrite W', W1. now rewrite <- app_assoc.
Qed.

(** X16: compare only asks: on a port that raises nothing and with a tolerance
    that is not negative, it returns, and what it has written to the port is
    the identity query followed, in file order, by one query of the read
    command for each row that is not skipped; no write command of a row is
    ever sent. *)
Theorem compare_sends_only_queries :
  forall env cfg rows tol w,
    no_faults w = true -> F64.ltb tol F64.zero = false ->
    exists reps stats w',
      compare_from_csv env cfg rows tol w = (Ok (reps, stats), w')
      /\ ser_written (w_ser w')
         = (ser_written (w_ser w) ++ query_writes "*IDN?" (cfg_eol cfg)
            ++ flat_map (compare_traffic cfg) rows)%list.
Proof.
  intros env cfg rows tol w F T. unfold compare_from_csv.
  unfold bind at 1. rewrite log_write_eq.
  unfold bind at 1. rewrite try_query_no_faults by exact F.
  unfold bind at 1. rewrite log_write_eq.
  unfold bind at 1.
  match goal with
  | |- context [for_each rows _ ?a ?w0] =>
      destruct (compare_loop_traffic cfg tol rows a w0) as [acc' [w1 [E W]]];
      [apply no_faults_after_query; exact F | exact T |]; rewrite E
  end.
  unfold bind. rewrite log_write_eq. eexists. eexists. eexists.
  split; [reflexivity |].
  cbn [logged w_ser]. rewrite W. cbn [logged w_ser].
  rewrite written_after_query. cbn [logged w_ser]. now rewrite <- app_assoc.
Qed.

Lemma compare_sends_only_queries_witness :
  exists reps stats w',
    compare_from_csv (mk_env "Wed Nov  4 10:00:00 2026" (fun _ => "1e-06"))
      (mk_cfg "COM5" 9600 8 "N" 1 F64.one F64.one LF)
      [mk_row (Some "CBT[3]") (Some "$CBT? 3") (Some "$CBT 3") (Some "global") (Some "17") None]
      tol_1e_6 (mk_world (mk_serial [] ["SR720" ++ LF; "17" ++ LF] []) [])
    = (Ok (reps, stats), w')
    /\ ser_written (w_ser w')
       = [LF; "*IDN?" ++ LF; LF; LF; "$CBT? 3" ++ LF; LF].
Proof.
  destruct (compare_sends_only_queries
              (mk_env "Wed Nov  4 10:00:00 2026" (fun _ => "1e-06"))
              (mk_cfg "COM5" 9600 8 "N" 1 F64.one F64.one LF)
              [mk_row (Some "CBT[3]") (Some "$CBT? 3") (Some "$CBT 3") (Some "global")
                      (Some "17") None]
              tol_1e_6 (mk_world (mk_serial [] ["SR720" ++ LF; "17" ++ LF] []) [])
              eq_refl eq_refl)
    as [reps [stats [w' [E W]]]].
  exists reps, stats, w'. split; [exact E | exact W].
Defined.

Lemma compare_values_raises expected actual tol :
  F64.ltb tol F64.zero = true ->
  Py.strip expected <> Py.strip actual ->
  to_float_or_none (Py.strip expected) <> None ->
  to_float_or_none (Py.strip actual) <> None ->
  compare_values expected actual tol = Raise ValueError.
Proof.
  intros T N X Y. unfold compare_values. apply String.eqb_neq in N. rewrite N.
  destruct (to_float_or_none (Py.strip expected)) as [x |]; [| congruence].
  destruct (to_float_or_none (Py.strip actual)) as [y |]; [| congruence].
  unfold F64.isclose. rewrite T. reflexivity.
Qed.

(** X17: with a negative tolerance compare does not get past the first row that
    needs a comparison of numbers: when the first row is not skipped, its
    query is answered, and the expected value and the answer are numbers of
    different text, [ValueError] leaves [compare_from_csv], so no report is
    written and no counts are returned. *)
Theorem compare_stops_on_a_negative_tolerance :
  forall env cfg r rows tol w,
    no_faults w = true -> F64.ltb tol F64.zero = true ->
    cmp_skipped r = false ->
    Py.strip (row_value_text r)
    <> Py.strip (response_of (nth 1 (ser_lines (w_ser w)) EmptyString)) ->
    to_float_or_none (Py.strip (row_value_text r)) <> None ->
    to_float_or_none (Py.strip (response_of (nth 1 (ser_lines (w_ser w)) EmptyString)))
    <> None ->
    exists w', compare_from_csv env cfg (r :: rows) tol w = (Raise ValueError, w').
Proof.
  intros env cfg r rows tol w F T K N X Y. unfold compare_from_csv.
  unfold bind at 1. rewrite log_write_eq.
  unfold bind at 1. rewrite try_query_no_faults by exact F.
  unfold bind at 1. rewrite log_write_eq.
  unfold bind at 1. cbn [for_each]. unfold bind at 1.
  match goal with
  | |- context [compare_row cfg tol r ?a ?w0] =>
      assert (E : exists w1, compare_row cfg tol r a w0 = (Raise ValueError, w1));
      [set (w1 := w0) | destruct E as [w1 E]; rewrite E; eexists; reflexivity]
  end.
  assert (F1 : no_faults w1 = true)
    by (unfold w1; rewrite no_faults_logged; apply no_faults_after_query;
        now rewrite no_faults_logged).
  assert (R : response_of (next_raw w1)
              = response_of (nth 1 (ser_lines (w_ser w)) EmptyString)).
  { unfold w1, next_raw. cbn [logged w_ser]. rewrite lines_after_query. cbn [logged w_ser].
    f_equal. destruct (ser_lines (w_ser w)) as [| l0 [| l1 ls]]; reflexivity. }
  clearbody w1.
  unfold compare_row. fold (row_key_text r) (row_read_text r) (row_value_text r).
  change (String.eqb (row_read_text r) "" || String.eqb (row_value_text r) "")
    with (cmp_skipped r).
  rewrite K. unfold bind at 1. rewrite try_query_no_faults by exact F1. rewrite R.
  assert (NE : response_of (nth 1 (ser_lines (w_ser w)) EmptyString) <> EmptyString).
  { intro Z. rewrite Z in Y. apply Y. reflexivity. }
  apply String.eqb_neq in NE. rewrite NE. cbn [negb].
  rewrite (compare_values_raises _ _ tol T N X Y). eexists. reflexivity.
Qed.

Lemma compare_stops_on_a_negative_tolerance_witness :
  exists w',
    compare_from_csv (mk_env "Wed Nov  4 10:00:00 2026" (fun _ => "-1.0"))
      (mk_cfg "COM5" 9600 8 "N" 1 F64.one F64.one LF)
      (mk_row (Some "CBT[3]") (Some "$CBT? 3") (Some "$CBT 3") (Some "global") (Some "17") None
       :: [])
      (F64.opp F64.one) (mk_world (mk_serial [] ["SR720" ++ LF; "18" ++ LF] []) [])
    = (Raise ValueError, w').
Proof.
  apply compare_stops_on_a_negative_tolerance; try reflexivity;
    vm_compute; discriminate.
Defined.

(** ** The catalog reads what it writes *)

(** X18: every descriptor of the catalog but the identity one names the same
    parameter in its two commands: the write command is the read command
    without the question mark, so the value restore verifies after a write
    is the one it has just written; the identity descriptor alone has no
    write command. *)
Theorem catalog_write_command_is_read_command_without_question_mark :
  forall it,
    In it (build_dump_items tt) ->
    (it_key it = "IDN" /\ it_cmd_write it = EmptyString /\ it_cmd_read it = "*IDN?")
    \/ (it_key it <> "IDN"
        /\ it_cmd_write it <> EmptyString
        /\ Py.filter_str (fun c => negb (Ascii.eqb c "?")) (it_cmd_read it)
           = it_cmd_write it).
Proof.
  assert (A : forallb
                (fun it =>
                   (String.eqb (it_key it) "IDN" && String.eqb (it_cmd_write it) ""
                    && String.eqb (it_cmd_read it) "*IDN?")
                   || (negb (String.eqb (it_key it) "IDN")
                       && negb (String.eqb (it_cmd_write it) "")
                       && String.eqb
                            (Py.filter_str (fun c => negb (Ascii.eqb c "?")) (it_cmd_read it))
                            (it_cmd_write it)))
                (build_dump_items tt) = true) by (vm_compute; reflexivity).
  intros it H. apply (proj1 (forallb_forall _ _) A) in H.
  apply orb_prop in H as [H | H].
  - left. apply andb_prop in H as [H H3]. apply andb_prop in H as [H1 H2].
    apply String.eqb_eq in H1, H2, H3. auto.
  - right. apply andb_prop in H as [H H3]. apply andb_prop in H as [H1 H2].
    apply negb_true_iff in H1, H2. apply String.eqb_neq in H1, H2.
    apply String.eqb_eq in H3. auto.
Qed.

Lemma catalog_write_command_is_read_command_without_question_mark_witness :
  (it_key (cmj_item 2) = "IDN" /\ it_cmd_write (cmj_item 2) = EmptyString
   /\ it_cmd_read (cmj_item 2) = "*IDN?")
  \/ (it_key (cmj_item 2) <> "IDN"
      /\ it_cmd_write (cmj_item 2) <> EmptyString
      /\ Py.filter_str (fun c => negb (Ascii.eqb c "?")) (it_cmd_read (cmj_item 2))
         = it_cmd_write (cmj_item 2)).
Proof.
  apply (catalog_write_command_is_read_command_without_question_mark (cmj_item 2)).
  apply in_catalog. right. right. left. exists 2. split; [unfold CRN_MAX; lia | now left].
Defined.

